(** * alex-articles: the article endpoint and the copy-button enhancer

    A shallow embedding of the logic of the repository:

    - [src/plugins/api-plugin.ts]: the Vite middleware that serves
      [<ARTICLE_PATH>/<slug>/article.md] as a JSON envelope;
    - [src/components/CopyButton.tsx]: [injectCopyButtonsIntoCodeBlocks]
      and the [CopyButtonsInjector] effect with its [MutationObserver];
    - [src/hooks/useAddClassToSpecificTags.ts]: [applyClass].

    Platform and library functions the code calls but does not define
    (the WHATWG [URL] parser, [gray-matter], [Date.prototype.toISOString],
    [Number::toString], the CSS engine behind [element.style]) are
    parameters of the development; what React renders for a control
    comes with the event that commits it. *)

From Stdlib Require Import ZArith NArith Ascii String List Bool Lia.
From stdpp Require Import base list strings.
Import ListNotations.

Set Warnings "-register-all".

Local Open Scope string_scope.
Local Open Scope list_scope.

(* ===================================================================== *)
(** * Part I: JavaScript values, as far as the endpoint handles them     *)
(* ===================================================================== *)

Module JS.

(** A call either returns or throws. *)
Inductive outcome (A : Type) : Type :=
| Returns (a : A)
| Throws (error : string).
Arguments Returns {A} a.
Arguments Throws {A} error.

(** IEEE doubles: every finite one is [mantissa * 2 ^ exponent]. *)
Inductive number : Type :=
| NaN
| Infinity (negative : bool)
| Finite (mantissa exponent : Z).

(** The values YAML front-matter can produce. A [VDate] carries its time
    value in milliseconds since the epoch. Objects keep their properties
    in insertion order, which is the order [JSON.stringify] emits. *)
Inductive value : Type :=
| VUndefined
| VNull
| VBool (b : bool)
| VNumber (n : number)
| VString (s : string)
| VDate (time : Z)
| VArray (items : list value)
| VObject (properties : list (string * value)).

(** [ToBoolean]: the falsy values are [undefined], [null], [false],
    [+0], [-0], [NaN] and the empty string. *)
Definition ToBoolean (v : value) : bool :=
  match v with
  | VUndefined | VNull => false
  | VBool b => b
  | VNumber NaN => false
  | VNumber (Infinity _) => true
  | VNumber (Finite m _) => negb (m =? 0)%Z
  | VString s => negb (String.eqb s "")
  | VDate _ | VArray _ | VObject _ => true
  end.

(** [a || b] *)
Definition or_else (a b : value) : value :=
  if ToBoolean a then a else b.

Fixpoint lookup_property (key : string) (ps : list (string * value)) : option value :=
  match ps with
  | [] => None
  | (k, v) :: ps' => if String.eqb k key then Some v else lookup_property key ps'
  end.

(** [o.key] for the keys the endpoint reads ([title], [date]), which no
    prototype defines: a [TypeError] on [undefined] and [null], the own
    property of an object, [undefined] otherwise. *)
Definition GetV (o : value) (key : string) : outcome value :=
  match o with
  | VUndefined | VNull => Throws "TypeError"
  | VObject ps =>
      match lookup_property key ps with
      | Some v => Returns v
      | None => Returns VUndefined
      end
  | _ => Returns VUndefined
  end.

(** ** [JSON.stringify] *)

Definition dquote : string := String "034"%char "".

Definition hex_digit (n : nat) : ascii :=
  match n with
  | 0 => "0" | 1 => "1" | 2 => "2" | 3 => "3" | 4 => "4"
  | 5 => "5" | 6 => "6" | 7 => "7" | 8 => "8" | 9 => "9"
  | 10 => "a" | 11 => "b" | 12 => "c" | 13 => "d" | 14 => "e"
  | _ => "f"
  end%char.

(** One code unit of [QuoteJSONString]. Strings are UTF-8 byte strings
    here: bytes from 128 up belong to a well-formed multi-byte character
    and are copied as they are. *)
Definition quote_unit (c : ascii) : string :=
  let n := nat_of_ascii c in
  if (n =? 34)%nat then "\" +:+ dquote
  else if (n =? 92)%nat then "\\"
  else if (n =? 8)%nat then "\b"
  else if (n =? 9)%nat then "\t"
  else if (n =? 10)%nat then "\n"
  else if (n =? 12)%nat then "\f"
  else if (n =? 13)%nat then "\r"
  else if (n <? 32)%nat then
    "\u00" +:+ String (hex_digit (n / 16)) (String (hex_digit (n mod 16)) "")
  else String c "".

Fixpoint quote_units (s : string) : string :=
  match s with
  | EmptyString => ""
  | String c s' => quote_unit c +:+ quote_units s'
  end.

Definition QuoteJSONString (s : string) : string :=
  dquote +:+ quote_units s +:+ dquote.

Fixpoint join (sep : string) (l : list string) : string :=
  match l with
  | [] => ""
  | [x] => x
  | x :: l' => x +:+ sep +:+ join sep l'
  end.

Section Stringify.
(** [Number::toString] on finite numbers and [Date.prototype.toISOString]
    are the platform's. *)
Variable Number_toString : Z -> Z -> string.
Variable Date_toISOString : Z -> string.

(** [SerializeJSONProperty]: [None] is JavaScript's [undefined], which
    drops the property from an object and prints [null] in an array. *)
Fixpoint SerializeJSONProperty (v : value) : option string :=
  match v with
  | VUndefined => None
  | VNull => Some "null"
  | VBool true => Some "true"
  | VBool false => Some "false"
  | VNumber (Finite m e) => Some (Number_toString m e)
  | VNumber _ => Some "null"
  | VString s => Some (QuoteJSONString s)
  | VDate t => Some (QuoteJSONString (Date_toISOString t))
  | VArray items =>
      let fix elements (l : list value) : list string :=
        match l with
        | [] => []
        | x :: l' =>
            match SerializeJSONProperty x with
            | Some s => s
            | None => "null"
            end :: elements l'
        end in
      Some ("[" +:+ join "," (elements items) +:+ "]")
  | VObject properties =>
      let fix members (l : list (string * value)) : list string :=
        match l with
        | [] => []
        | (k, x) :: l' =>
            match SerializeJSONProperty x with
            | Some s => (QuoteJSONString k +:+ ":" +:+ s) :: members l'
            | None => members l'
            end
        end in
      Some ("{" +:+ join "," (members properties) +:+ "}")
  end.

Definition JSON_stringify (v : value) : option string :=
  SerializeJSONProperty v.
End Stringify.

(** [String.prototype.replace(/\//, '')]: the pattern has no [g] flag, so
    only the first slash goes. *)
Fixpoint replace_first_slash (s : string) : string :=
  match s with
  | EmptyString => ""
  | String c s' =>
      if Ascii.eqb c "/" then s' else String c (replace_first_slash s')
  end.

End JS.

(* ===================================================================== *)
(** * Part II: the article endpoint, [src/plugins/api-plugin.ts]         *)
(* ===================================================================== *)

Module ApiPlugin.
Import JS.

(** ** The file system, as [fs.existsSync] and [fs.readFileSync] see it *)

Inductive fs_entry : Type :=
| File (contents : string)
| Directory.

Definition filesystem : Type := string -> option fs_entry.

Definition existsSync (fs : filesystem) (path : string) : bool :=
  match fs path with
  | Some _ => true
  | None => false
  end.

Definition readFileSync (fs : filesystem) (path : string) : outcome string :=
  match fs path with
  | Some (File contents) => Returns contents
  | Some Directory => Throws "EISDIR"
  | None => Throws "ENOENT"
  end.

(** ** Request and response objects *)

Record IncomingMessage : Type := { url : option string }.

Record ServerResponse : Type := {
  statusCode : nat;
  headers : list (string * string);
  body : string;
  finished : bool
}.

(** The response object the server hands to a middleware. *)
Definition fresh_response : ServerResponse :=
  {| statusCode := 200; headers := []; body := ""; finished := false |}.

(** What [matter(content)] returns: the text after the front-matter block
    and the parsed front-matter. *)
Record GrayMatterFile : Type := { content : string; data : value }.

(** ** The middleware's effects: it mutates [res] and may throw *)

Definition M (A : Type) : Type := ServerResponse -> outcome A * ServerResponse.

Definition ret {A} (a : A) : M A := fun res => (Returns a, res).

Definition bind {A B} (m : M A) (k : A -> M B) : M B :=
  fun res =>
    match m res with
    | (Returns a, res') => k a res'
    | (Throws e, res') => (Throws e, res')
    end.

#[local] Instance M_ret : MRet M := @ret.
#[local] Instance M_bind : MBind M := fun A B k m => bind m k.

(** A call that touches nothing of [res]. *)
Definition call {A} (o : outcome A) : M A := fun res => (o, res).

Definition setHeader (name v : string) : M unit :=
  fun res =>
    (Returns tt,
     {| statusCode := statusCode res;
        headers := (name, v)
                   :: List.filter (fun h => negb (String.eqb (fst h) name)) (headers res);
        body := body res;
        finished := finished res |}).

Definition set_statusCode (code : nat) : M unit :=
  fun res =>
    (Returns tt,
     {| statusCode := code; headers := headers res;
        body := body res; finished := finished res |}).

(** [res.end(chunk)] *)
Definition end_ (chunk : option string) : M unit :=
  fun res =>
    (Returns tt,
     {| statusCode := statusCode res; headers := headers res;
        body := body res +:+ default "" chunk;
        finished := true |}).

(** [req.url || ''] *)
Definition url_or_empty (u : option string) : string :=
  match u with
  | Some s => if String.eqb s "" then "" else s
  | None => ""
  end.

Section Handler.
(** [ARTICLE_PATH] of [src/constants/api.ts], which the article shipped
    with the repository gives as [src/articles/<current year>]. *)
Variable ARTICLE_PATH : string.
(** [new URL(input, base).pathname], throwing on an invalid URL. *)
Variable URL_pathname : string -> string -> outcome string.
(** [matter] of gray-matter. *)
Variable matter : string -> outcome GrayMatterFile.
Variable Number_toString : Z -> Z -> string.
Variable Date_toISOString : Z -> string.
(** The disk and the clock at the time of the request. *)
Variable fs : filesystem.
Variable now : Z.

Definition slug_of (pathname : string) : string :=
  replace_first_slash pathname.

Definition filePath (slug : string) : string :=
  ARTICLE_PATH +:+ "/" +:+ slug +:+ "/article.md".

(** The object literal handed to [JSON.stringify]. *)
Definition envelope (body_text : string) (title date : value) (slug : string) : value :=
  VObject
    [ ("content", VString body_text);
      ("data", VObject [ ("title", title); ("date", date); ("slug", VString slug) ]) ].

(** The middleware that [apiPlugin] registers with
    [server.middlewares.use(API_ENDPOINT, ...)]; [req.url] arrives with
    the [API_ENDPOINT] prefix already removed. *)
Definition apiPlugin (req : IncomingMessage) : M unit :=
  pathname ← call (URL_pathname (url_or_empty (url req)) "http://localhost");
  let slug := slug_of pathname in
  let filePath := filePath slug in
  if existsSync fs filePath then
    setHeader "Content-Type" "application/json";;
    text ← call (readFileSync fs filePath);
    parsed ← call (matter text);
    title ← call (GetV (data parsed) "title");
    date ← call (GetV (data parsed) "date");
    let response :=
      JSON_stringify Number_toString Date_toISOString
        (envelope (content parsed)
                  (or_else title (VString "Untitled"))
                  (or_else date (VString (Date_toISOString now)))
                  slug) in
    end_ response
  else
    set_statusCode 404;;
    end_ (Some "Article not found").

Definition serve (req : IncomingMessage) : outcome unit * ServerResponse :=
  apiPlugin req fresh_response.

(** The response of the success branch. *)
Definition ok_response (body_text : string) (title date : value) (slug : string)
  : ServerResponse :=
  {| statusCode := 200;
     headers := [("Content-Type", "application/json")];
     body := default ""
               (JSON_stringify Number_toString Date_toISOString
                  (envelope body_text title date slug));
     finished := true |}.

Definition not_found_response : ServerResponse :=
  {| statusCode := 404; headers := []; body := "Article not found";
     finished := true |}.
End Handler.

(** ** Where a relative path leads

    The resolution of a path as [path.normalize] computes it: empty and
    [.] segments vanish, [..] cancels the directory before it, and a [..]
    with nothing to cancel stays in front. *)

Fixpoint segments (s : string) : list string :=
  match s with
  | EmptyString => [""]
  | String c s' =>
      if Ascii.eqb c "/" then "" :: segments s'
      else
        match segments s' with
        | seg :: rest => String c seg :: rest
        | [] => [String c ""]
        end
  end.

(** The directories entered so far, innermost first. *)
Definition resolve_step (stack : list string) (seg : string) : list string :=
  if String.eqb seg "" || String.eqb seg "." then stack
  else if String.eqb seg ".." then
    match stack with
    | top :: rest => if String.eqb top ".." then seg :: stack else rest
    | [] => [seg]
    end
  else seg :: stack.

Definition resolve (p : string) : list string :=
  rev (fold_left resolve_step (segments p) []).

Fixpoint strip_prefix (l1 l2 : list string) : option (list string) :=
  match l1, l2 with
  | [], _ => Some l2
  | x :: l1', y :: l2' => if String.eqb x y then strip_prefix l1' l2' else None
  | _ :: _, [] => None
  end.

(** [p] lies in [dir] or below it: [p] resolves to [dir]'s resolution
    followed by names only. *)
Definition inside (dir p : string) : bool :=
  match strip_prefix (resolve dir) (resolve p) with
  | Some rest => negb (existsb (String.eqb "..") rest)
  | None => false
  end.

(** [path.isAbsolute] on POSIX. The resolution above is lexical and taken
    from the working directory, so it speaks for relative paths, as
    [ARTICLE_PATH] is one. *)
Definition isAbsolute (p : string) : bool :=
  match p with
  | String c _ => Ascii.eqb c "/"
  | EmptyString => false
  end.

End ApiPlugin.

(* ===================================================================== *)
(** * Part III: the document tree                                        *)
(* ===================================================================== *)

Module DOM.

(** DOM strings are sequences of UTF-16 code units. *)
Definition text : Type := list N.

Definition text_of_string (s : string) : text :=
  map N_of_ascii (list_ascii_of_string s).

(** A React root created on an element, with the [value] of the control
    handed to [render]. [render] only schedules the work: the control
    enters the document when React commits it, in a later task. *)
Inductive root : Type :=
| Scheduled (v : text)
| Committed (v : text).

(** What an element carries besides its tag and children: its attributes
    (the inline style is the attribute [style]), the React root created
    on it and whether the injector's [MutationObserver] is in its
    registered observer list. *)
Record props : Type := {
  attributes : list (string * string);  (* in the order of the NamedNodeMap *)
  reactRoot : option root;
  registered : bool
}.

Inductive node : Type :=
| Text (data : text)
| Comment (data : text)
| Element (localName : string) (p : props) (childNodes : list node).

(** A node is addressed by the child indices leading to it from the
    document element. *)
Definition path : Type := list nat.

Fixpoint node_at (p : path) (n : node) {struct p} : option node :=
  match p with
  | [] => Some n
  | i :: p' =>
      match n with
      | Element _ _ cs =>
          match cs !! i with
          | Some c => node_at p' c
          | None => None
          end
      | _ => None
      end
  end.

Fixpoint update_at (p : path) (f : node -> node) (n : node) {struct p} : node :=
  match p with
  | [] => f n
  | i :: p' =>
      match n with
      | Element t pr cs => Element t pr (alter (update_at p' f) i cs)
      | _ => n
      end
  end.

(** ** Selectors: ['pre'], ['[data-copy-btn]'] and [getElementById] *)

Fixpoint assoc (key : string) (l : list (string * string)) : option string :=
  match l with
  | [] => None
  | (k, v) :: l' => if String.eqb k key then Some v else assoc key l'
  end.

(** [l[key] = v]: replaces the entry in place, or appends it. *)
Fixpoint assoc_set (key v : string) (l : list (string * string)) : list (string * string) :=
  match l with
  | [] => [(key, v)]
  | (k, w) :: l' =>
      if String.eqb k key then (k, v) :: l' else (k, w) :: assoc_set key v l'
  end.

Inductive selector : Type :=
| ByTag (name : string)
| ByAttribute (name : string)
| ById (id : string).

Definition matches (sel : selector) (n : node) : bool :=
  match n with
  | Element t pr _ =>
      match sel with
      | ByTag name => String.eqb t name
      | ByAttribute name =>
          match assoc name (attributes pr) with Some _ => true | None => false end
      | ById id =>
          match assoc "id" (attributes pr) with
          | Some v => String.eqb v id
          | None => false
          end
      end
  | _ => false
  end.

(** The nodes of a subtree that satisfy [P], root included, in tree order. *)
Fixpoint select (P : node -> bool) (n : node) : list path :=
  (if P n then [[]] else []) ++
  match n with
  | Element _ _ cs =>
      (fix children (i : nat) (l : list node) : list path :=
         match l with
         | [] => []
         | c :: l' => map (cons i) (select P c) ++ children (S i) l'
         end) 0 cs
  | _ => []
  end.

Fixpoint select_list (P : node -> bool) (i : nat) (l : list node) : list path :=
  match l with
  | [] => []
  | c :: l' => map (cons i) (select P c) ++ select_list P (S i) l'
  end.

(** [document.querySelectorAll(sel)]: every element of the document. *)
Definition document_querySelectorAll (sel : selector) (documentElement : node) : list path :=
  select (matches sel) documentElement.

(** [element.querySelector(sel)]: the first proper descendant, as a path
    from the element. *)
Definition querySelector (sel : selector) (element : node) : option path :=
  match element with
  | Element _ _ cs => head (select_list (matches sel) 0 cs)
  | _ => None
  end.

Definition getElementById (id : string) (documentElement : node) : option path :=
  head (select (matches (ById id)) documentElement).

(** ** [textContent] and [trim] *)

(** The data of the [Text] descendants, in tree order. *)
Fixpoint textContent (n : node) : text :=
  match n with
  | Text d => d
  | Comment _ => []
  | Element _ _ cs => flat_map textContent cs
  end.

(** ECMAScript's WhiteSpace and LineTerminator code units. *)
Definition is_whitespace (c : N) : bool :=
  match c with
  | 9 | 10 | 11 | 12 | 13 | 32 | 160 | 5760
  | 8232 | 8233 | 8239 | 8287 | 12288 | 65279 => true
  | _ => (8192 <=? c) && (c <=? 8202)
  end%N.

Fixpoint trimStart (t : text) : text :=
  match t with
  | [] => []
  | c :: t' => if is_whitespace c then trimStart t' else t
  end.

Definition trimEnd (t : text) : text := rev (trimStart (rev t)).

Definition trim (t : text) : text := trimEnd (trimStart t).

(** [!s] on a string. *)
Definition is_empty (t : text) : bool :=
  match t with
  | [] => true
  | _ => false
  end.

(** ** Element construction and mutation *)

Definition createElement (name : string) : node :=
  Element name {| attributes := []; reactRoot := None; registered := false |} [].

Definition setAttribute (name v : string) (n : node) : node :=
  match n with
  | Element t pr cs =>
      Element t
        {| attributes := assoc_set name v (attributes pr);
           reactRoot := reactRoot pr; registered := registered pr |} cs
  | _ => n
  end.

(** The CSS engine behind [element.style]: [setProperty cssText property v]
    is the text of the [style] attribute after [style[property] = v] on
    an element whose [style] attribute reads [cssText] (the empty text
    when it has none), for a property and a value the engine accepts, as
    the ones the scan writes are. *)
Class CSSOM : Type :=
  setProperty : string -> string -> string -> string.

(** [element.style.cssText] *)
Definition cssText (n : node) : string :=
  match n with
  | Element _ pr _ => default "" (assoc "style" (attributes pr))
  | _ => ""
  end.

(** [element.style[property] = v]: the declaration goes into the
    element's [style] attribute, which is created if need be. *)
Definition set_style `{CSSOM} (property v : string) (n : node) : node :=
  setAttribute "style" (setProperty (cssText n) property v) n.

Definition appendChild (parent child : node) : node :=
  match parent with
  | Element t pr cs => Element t pr (cs ++ [child])
  | _ => parent
  end.

(** [createRoot(container).render(<CopyButtonToClipboard value={v} />)]:
    the root exists and its first render is scheduled; the container's
    children are not touched yet. *)
Definition createRoot_render (v : text) (container : node) : node :=
  match container with
  | Element t pr cs =>
      Element t
        {| attributes := attributes pr;
           reactRoot := Some (Scheduled v); registered := registered pr |} cs
  | _ => container
  end.

(** ** The mutation observer's side of the tree *)

(** Whether a child-list change under the node at [p] reaches an observer
    registered with [{ childList: true, subtree: true }]: some inclusive
    ancestor of that node has it in its registered observer list. *)
Fixpoint observes (p : path) (n : node) {struct p} : bool :=
  match n with
  | Element _ pr cs =>
      registered pr ||
      match p with
      | [] => false
      | i :: p' =>
          match cs !! i with
          | Some c => observes p' c
          | None => false
          end
      end
  | _ => false
  end.

Definition register (n : node) : node :=
  match n with
  | Element t pr cs =>
      Element t
        {| attributes := attributes pr;
           reactRoot := reactRoot pr; registered := true |} cs
  | _ => n
  end.

(** Removes the observer from every registered observer list. *)
Fixpoint unregister (n : node) : node :=
  match n with
  | Element t pr cs =>
      Element t
        {| attributes := attributes pr;
           reactRoot := reactRoot pr; registered := false |}
        (map unregister cs)
  | _ => n
  end.

(** ** Counting what is mounted *)

Definition has_root (n : node) : bool :=
  match n with
  | Element _ pr _ => match reactRoot pr with Some _ => true | None => false end
  | _ => false
  end.

(** The controls mounted directly into an element: its children that hold
    a React root. *)
Definition mounted_controls (n : node) : nat :=
  match n with
  | Element _ _ cs => length (List.filter has_root cs)
  | _ => 0
  end.

(** All React roots in a subtree. *)
Fixpoint count_roots (n : node) : nat :=
  (if has_root n then 1 else 0) +
  match n with
  | Element _ _ cs => list_sum (map count_roots cs)
  | _ => 0
  end.

Fixpoint has_registration (n : node) : bool :=
  match n with
  | Element _ pr cs => registered pr || existsb has_registration cs
  | _ => false
  end.

End DOM.

(* ===================================================================== *)
(** * Part IV: the enhancer, [src/components/CopyButton.tsx]             *)
(* ===================================================================== *)

Module CopyButton.
Import DOM.

(** The browser page as the injector sees it: the document, whether the
    observer's record queue holds records, and how often
    [injectCopyButtonsIntoCodeBlocks] has been called so far. The page
    holds at most one observer: React runs an effect's cleanup before it
    runs the effect again. *)
Record page : Type := {
  document : node;
  records : bool;
  scans : nat
}.

(** The body of the [forEach] callback after its two early returns.
    [wrapper.dataset.copyBtn = 'true'] sets the attribute
    [data-copy-btn]. The wrapper is already a child of [pre] when
    [pre.textContent] is read for the control's [value]. *)
Definition mount `{CSSOM} (pre : node) : node :=
  let wrapper := createElement "div" in
  let wrapper := setAttribute "data-copy-btn" "true" wrapper in
  let wrapper := set_style "position" "absolute" wrapper in
  let wrapper := set_style "top" "10px" wrapper in
  let wrapper := set_style "right" "0.5rem" wrapper in
  let wrapper := set_style "z-index" "10" wrapper in
  let pre := set_style "position" "relative" pre in
  let value := textContent (appendChild pre wrapper) in
  appendChild pre (createRoot_render value wrapper).

(** The [forEach] callback, on the [pre] at path [p]. Appending the
    wrapper is a child-list mutation of the [pre]; setting its style is
    an attribute mutation, which the observer does not ask for. *)
Definition visit `{CSSOM} (pg : page) (p : path) : page :=
  match node_at p (document pg) with
  | Some pre =>
      match querySelector (ByAttribute "data-copy-btn") pre with
      | Some _ => pg
      | None =>
          if is_empty (trim (textContent pre)) then pg
          else
            {| document := update_at p mount (document pg);
               records := records pg || observes p (document pg);
               scans := scans pg |}
      end
  | None => pg
  end.

Definition injectCopyButtonsIntoCodeBlocks `{CSSOM} (pg : page) : page :=
  let pres := document_querySelectorAll (ByTag "pre") (document pg) in
  fold_left visit pres
    {| document := document pg; records := records pg; scans := S (scans pg) |}.

(** [new MutationObserver(cb).observe(target, { childList: true, subtree: true })]:
    a new observer starts with an empty record queue. *)
Definition observe (target : path) (pg : page) : page :=
  {| document := update_at target register (document pg);
     records := false;
     scans := scans pg |}.

(** [observer.disconnect()]: leaves every registered observer list and
    empties the record queue. *)
Definition disconnect (pg : page) : page :=
  {| document := unregister (document pg);
     records := false;
     scans := scans pg |}.

(** The effect that [CopyButtonsInjector] passes to [useEffect]: the page
    it leaves and the cleanup function it returns, if any. *)
Definition CopyButtonsInjector `{CSSOM} (pg : page) : page * option (page -> page) :=
  match getElementById "post-content" (document pg) with
  | None => (pg, None)
  | Some targetNode =>
      let pg := injectCopyButtonsIntoCodeBlocks pg in
      let pg := observe targetNode pg in
      (pg, Some (fun pg' => disconnect pg'))
  end.

(** ** The page around the injector *)

(** Content that comes from elsewhere (React's [dangerouslySetInnerHTML],
    Prism): plain markup, with no root and no observer of the injector. *)
Inductive markup : Type :=
| MText (data : text)
| MComment (data : text)
| MElement (localName : string) (attrs : list (string * string)) (children : list markup).

Fixpoint node_of_markup (m : markup) : node :=
  match m with
  | MText d => Text d
  | MComment d => Comment d
  | MElement t a cs =>
      Element t {| attributes := a; reactRoot := None; registered := false |}
        (map node_of_markup cs)
  end.

Inductive mutation : Type :=
| AppendChild (parent : path) (child : markup)
| RemoveChild (parent : path) (index : nat)
| SetInnerHTML (parent : path) (children : list markup)
| SetAttribute (target : path) (name v : string).

Definition target_of (m : mutation) : path :=
  match m with
  | AppendChild p _ | RemoveChild p _ | SetInnerHTML p _ | SetAttribute p _ _ => p
  end.

Definition is_childList (m : mutation) : bool :=
  match m with
  | SetAttribute _ _ _ => false
  | _ => true
  end.

(** The change a mutation makes to the node it targets; [None] when the
    DOM refuses it. *)
Definition change (m : mutation) (n : node) : option node :=
  match n with
  | Element t pr cs =>
      match m with
      | AppendChild _ c => Some (Element t pr (cs ++ [node_of_markup c]))
      | RemoveChild _ i =>
          if decide (i < length cs) then Some (Element t pr (delete i cs)) else None
      | SetInnerHTML _ ms => Some (Element t pr (map node_of_markup ms))
      | SetAttribute _ name v => Some (setAttribute name v n)
      end
  | _ => None
  end.

(** A mutation made by other code. It queues a record when it is a
    child-list change inside an observed subtree. *)
Definition mutate (m : mutation) (pg : page) : page :=
  match node_at (target_of m) (document pg) with
  | Some n =>
      match change m n with
      | Some n' =>
          {| document := update_at (target_of m) (fun _ => n') (document pg);
             records := records pg
                        || (is_childList m && observes (target_of m) (document pg));
             scans := scans pg |}
      | None => pg
      end
  | None => pg
  end.

(** The microtask that notifies the observer: its callback runs when the
    record queue, taken and emptied first, held records. *)
Definition notify `{CSSOM} (pg : page) : page :=
  if records pg then
    injectCopyButtonsIntoCodeBlocks
      {| document := document pg; records := false; scans := scans pg |}
  else pg.

(** What React's first commit of a scheduled root makes of its
    container: the children it had are cleared and the nodes [rendered]
    for the control take their place. [None] when no render is pending
    on the node. *)
Definition commit_root (rendered : list markup) (n : node) : option node :=
  match n with
  | Element t pr cs =>
      match reactRoot pr with
      | Some (Scheduled v) =>
          Some (Element t
                  {| attributes := attributes pr;
                     reactRoot := Some (Committed v);
                     registered := registered pr |}
                  (map node_of_markup rendered))
      | _ => None
      end
  | _ => None
  end.

(** Whether that commit removes or adds a child. *)
Definition changes_children (rendered : list markup) (n : node) : bool :=
  match n, rendered with
  | Element _ _ [], [] => false
  | Element _ _ _, _ => true
  | _, _ => false
  end.

(** React commits the render that [root.render] scheduled on the
    element at [container]. The nodes React makes for the control come
    from the component library, so they are given with the event. It is
    a child-list change like any other: it queues a record inside an
    observed subtree. *)
Definition commit (container : path) (rendered : list markup) (pg : page) : page :=
  match node_at container (document pg) with
  | Some n =>
      match commit_root rendered n with
      | Some n' =>
          {| document := update_at container (fun _ => n') (document pg);
             records := records pg
                        || (changes_children rendered n
                            && observes container (document pg));
             scans := scans pg |}
      | None => pg
      end
  | None => pg
  end.

Inductive event : Type :=
| Mutation (m : mutation)
| Microtask
| Commit (container : path) (rendered : list markup).

Definition step `{CSSOM} (pg : page) (e : event) : page :=
  match e with
  | Mutation m => mutate m pg
  | Microtask => notify pg
  | Commit container rendered => commit container rendered pg
  end.

Definition run `{CSSOM} (es : list event) (pg : page) : page := fold_left step es pg.

(** React calls the cleanup an effect returned, if it returned one. *)
Definition deactivate (cleanup : option (page -> page)) (pg : page) : page :=
  match cleanup with
  | Some f => f pg
  | None => pg
  end.

(** ** The scan as a tree transformation

    What the [forEach] amounts to, written by recursion on the tree; the
    properties of the scan are proved on this form, which is shown equal
    to the loop above. *)

(** Neither early return of the callback is taken. *)
Definition eligible (pre : node) : bool :=
  match querySelector (ByAttribute "data-copy-btn") pre with
  | Some _ => false
  | None => negb (is_empty (trim (textContent pre)))
  end.

(** The callback's effect on the document alone. *)
Definition visit_node `{CSSOM} (doc : node) (p : path) : node :=
  match node_at p doc with
  | Some pre => if eligible pre then update_at p mount doc else doc
  | None => doc
  end.

Definition mounted_wrapper `{CSSOM} (v : text) : node :=
  Element "div"
    {| attributes :=
         [("data-copy-btn", "true");
          ("style",
           setProperty
             (setProperty
                (setProperty (setProperty "" "position" "absolute") "top" "10px")
                "right" "0.5rem")
             "z-index" "10")];
       reactRoot := Some (Scheduled v);
       registered := false |} [].

Definition positioned `{CSSOM} (pr : props) : props :=
  {| attributes :=
       assoc_set "style"
         (setProperty (default "" (assoc "style" (attributes pr))) "position" "relative")
         (attributes pr);
     reactRoot := reactRoot pr;
     registered := registered pr |}.

Fixpoint enhance `{CSSOM} (n : node) : node :=
  match n with
  | Element t pr cs =>
      if matches (ByTag "pre") n && eligible n
      then Element t (positioned pr) (map enhance cs ++ [mounted_wrapper (textContent n)])
      else Element t pr (map enhance cs)
  | _ => n
  end.

(** Some node of the subtree, root included, satisfies [P]. *)
Fixpoint has (P : node -> bool) (n : node) : bool :=
  P n ||
  match n with
  | Element _ _ cs => existsb (has P) cs
  | _ => false
  end.

(** Every React root sits on an element that bears the marker, and no
    code block holds more than one control. *)
Fixpoint tidy (n : node) : bool :=
  implb (has_root n) (matches (ByAttribute "data-copy-btn") n)
  && implb (matches (ByTag "pre") n) (mounted_controls n <=? 1)%nat
  && match n with
     | Element _ _ cs => forallb tidy cs
     | _ => true
     end.

(** No observer is connected and no record is waiting. *)
Definition quiet (pg : page) : Prop :=
  records pg = false /\ has_registration (document pg) = false.

(** A render is pending on the node. *)
Definition is_scheduled (n : node) : bool :=
  match n with
  | Element _ pr _ =>
      match reactRoot pr with
      | Some (Scheduled _) => true
      | _ => false
      end
  | _ => false
  end.

(** A render is pending on a node that is no wrapper of the scan: it
    lacks the marker, or it is a code block itself. *)
Definition stray (n : node) : bool :=
  is_scheduled n
  && negb (matches (ByAttribute "data-copy-btn") n && negb (matches (ByTag "pre") n)).

(** What the injector brings about by itself once it is active: the
    notifications of its observer and React's commits of its controls,
    which hold no code block. *)
Definition self_made (e : event) : bool :=
  match e with
  | Mutation _ => false
  | Microtask => true
  | Commit _ rendered =>
      negb (existsb (has (matches (ByTag "pre"))) (map node_of_markup rendered))
  end.

Definition is_commit (e : event) : bool :=
  match e with
  | Commit _ _ => true
  | _ => false
  end.

End CopyButton.

(* ===================================================================== *)
(** * Part V: sample worlds, used to run the definitions                 *)
(* ===================================================================== *)

Module Fixtures.
Import JS ApiPlugin DOM CopyButton.

(** For a request target that is already a plain path (no query, no
    fragment, no dot segment, nothing to percent-encode) the pathname of
    the parsed URL is the target itself. *)
Definition pathname_as_given (input base : string) : outcome string :=
  Returns input.

Definition sample_Number_toString (m e : Z) : string := "0".
Definition sample_Date_toISOString (t : Z) : string := "2025-06-26T12:00:00.000Z".

Definition complete_article : string :=
  "---
title: 'Copy buttons'
date: '2025-06-26'
---
Hello".

Definition bare_article : string := "Hello".

Definition blank_fields_article : string :=
  "---
title: ''
date: ''
---
Hello".

Definition blank_title_article : string :=
  "---
title: ''
date: '2025-06-26'
---
Hello".

(** What gray-matter makes of the sample articles. *)
Definition sample_matter (text : string) : outcome GrayMatterFile :=
  if String.eqb text complete_article then
    Returns {| content := "Hello";
               data := VObject [ ("title", VString "Copy buttons");
                                 ("date", VString "2025-06-26") ] |}
  else if String.eqb text blank_fields_article then
    Returns {| content := "Hello";
               data := VObject [ ("title", VString ""); ("date", VString "") ] |}
  else if String.eqb text blank_title_article then
    Returns {| content := "Hello";
               data := VObject [ ("title", VString ""); ("date", VString "2025-06-26") ] |}
  else
    Returns {| content := text; data := VObject [] |}.

Definition sample_disk : filesystem :=
  fun p =>
    if String.eqb p "src/articles/2025/react/copy/article.md" then Some (File complete_article)
    else if String.eqb p "src/articles/2025/bare/article.md" then Some (File bare_article)
    else if String.eqb p "src/articles/2025/blank/article.md" then Some (File blank_fields_article)
    else if String.eqb p "src/articles/2025/blank-title/article.md" then Some (File blank_title_article)
    else None.

(** The same disk after the front-matter of [blank] has been deleted. *)
Definition sample_disk_without_fields : filesystem :=
  fun p =>
    if String.eqb p "src/articles/2025/blank/article.md" then Some (File bare_article)
    else sample_disk p.

Definition sample_serve (fs : filesystem) (target : string) : outcome unit * ServerResponse :=
  serve "src/articles/2025" pathname_as_given sample_matter
        sample_Number_toString sample_Date_toISOString fs 0
        {| url := Some target |}.

(** An element as the HTML parser leaves it. *)
Definition el (name : string) (attrs : list (string * string)) (cs : list node) : node :=
  Element name {| attributes := attrs; reactRoot := None; registered := false |} cs.

(** A stand-in for the CSS engine on the sample pages, whose elements
    come without a [style] attribute and get each property once: the
    new declaration goes behind the ones the engine wrote before. *)
Definition sample_CSSOM : CSSOM :=
  fun cssText property v =>
    (if String.eqb cssText "" then "" else cssText +:+ " ")
    +:+ property +:+ ": " +:+ v +:+ ";".

(** A rendered article: a code block, a blank one, and a code block
    inside a code block. *)
Definition sample_document : node :=
  el "html" []
    [ el "body" []
        [ el "div" [("id", "post-content")]
            [ el "pre" [] [ el "code" [] [ Text (text_of_string "let x") ] ];
              el "pre" [] [ Text (text_of_string "  ") ];
              el "pre" [] [ Text (text_of_string "a");
                            el "pre" [] [ Text (text_of_string "b") ] ] ] ] ].

(** The same page before React has rendered the article container. *)
Definition bare_document : node :=
  el "html" [] [ el "body" [] [ el "pre" [] [ Text (text_of_string "x") ] ] ].

Definition page_of (doc : node) : page :=
  {| document := doc; records := false; scans := 0 |}.

Definition new_code_block : mutation :=
  AppendChild [0; 0] (MElement "pre" [] [ MText (text_of_string "z") ]).

End Fixtures.

(* ===================================================================== *)
(** * Part V-a: the class hook, [src/hooks/useAddClassToSpecificTags.ts]  *)
(* ===================================================================== *)

Module AddClass.

(** The hook's text is the one the article shipped with the repository
    prints. Its [applyClass] is one global, case-insensitive replacement
    with the pattern [<(\/?)(tag1|tag2|...)\b], which the hook builds by
    pasting the tags into the source of a regular expression. The
    embedding covers the tag lists for which that source is an
    alternation of literals: tags made of word characters, as HTML tag
    names are. Strings are byte strings. *)

(** [\w] *)
Definition is_word (c : ascii) : bool :=
  let n := nat_of_ascii c in
  ((48 <=? n) && (n <=? 57) || (65 <=? n) && (n <=? 90)
   || (97 <=? n) && (n <=? 122) || (n =? 95))%nat.

(** The canonical form the [i] flag compares. *)
Definition upper (c : ascii) : ascii :=
  let n := nat_of_ascii c in
  if ((97 <=? n) && (n <=? 122))%nat then ascii_of_nat (n - 32) else c.

Fixpoint upcase (s : string) : string :=
  match s with
  | EmptyString => ""
  | String c s' => String (upper c) (upcase s')
  end.

(** The literal [pat] at the head of [s]: the text it matched and what
    follows. *)
Fixpoint match_literal (pat s : string) : option (string * string) :=
  match pat with
  | EmptyString => Some ("", s)
  | String p pat' =>
      match s with
      | EmptyString => None
      | String c s' =>
          if Ascii.eqb (upper p) (upper c) then
            match match_literal pat' s' with
            | Some (m, r) => Some (String c m, r)
            | None => None
            end
          else None
      end
  end.

Fixpoint last_char (s : string) (before : ascii) : ascii :=
  match s with
  | EmptyString => before
  | String c s' => last_char s' c
  end.

(** [\b] between the character [prev] and the head of [rest]. *)
Definition word_boundary (prev : ascii) (rest : string) : bool :=
  xorb (is_word prev)
       (match rest with
        | EmptyString => false
        | String c _ => is_word c
        end).

(** The alternation followed by [\b]: the first alternative, in the order
    written, that matches and ends at a word boundary. *)
Fixpoint first_alternative (alts : list string) (prev : ascii) (s : string)
  : option (string * string) :=
  match alts with
  | [] => None
  | a :: alts' =>
      match match_literal a s with
      | Some (m, r) =>
          if word_boundary (last_char m prev) r then Some (m, r)
          else first_alternative alts' prev s
      | None => first_alternative alts' prev s
      end
  end.

(** [tags.join('|')] inside the group: no tag at all leaves the empty
    alternative. *)
Definition alternatives (tags : list string) : list string :=
  match tags with
  | [] => [""]
  | _ => tags
  end.

(** One match attempt at the head of [s]: the two captures and what
    follows the match. The optional slash is tried first and given back
    when the rest fails with it. *)
Definition exec (alts : list string) (s : string) : option (string * string * string) :=
  match s with
  | String c s1 =>
      if Ascii.eqb c "<" then
        let plain :=
          match first_alternative alts "<" s1 with
          | Some (m, r) => Some ("", m, r)
          | None => None
          end in
        match s1 with
        | String c1 s2 =>
            if Ascii.eqb c1 "/" then
              match first_alternative alts "/" s2 with
              | Some (m, r) => Some ("/", m, r)
              | None => plain
              end
            else plain
        | EmptyString => plain
        end
      else None
  | EmptyString => None
  end.

(** The replacement callback; a missing [className] prints as
    [undefined]. *)
Definition replacer (className : option string) (closingSlash tagName : string) : string :=
  if negb (String.eqb closingSlash "") then "</" +:+ tagName
  else "<" +:+ tagName +:+ " class=" +:+ JS.dquote
       +:+ default "undefined" className +:+ JS.dquote.

(** The global replacement: after a match the search goes on behind it,
    after a failure one character further. A match is never empty, so
    [fuel] as long as the text is enough. *)
Fixpoint replace_from (fuel : nat) (alts : list string) (className : option string)
         (s : string) : string :=
  match fuel with
  | 0 => s
  | S fuel' =>
      match exec alts s with
      | Some (closingSlash, tagName, rest) =>
          replacer className closingSlash tagName
          +:+ replace_from fuel' alts className rest
      | None =>
          match s with
          | EmptyString => ""
          | String c s' => String c (replace_from fuel' alts className s')
          end
      end
  end.

(** [html.replace(regex, callback)] for a pattern whose alternatives are
    the literals [tags]. *)
Definition replace_tags (tags : list string) (className : option string) (html : string)
  : string :=
  replace_from (String.length html) (alternatives tags) className html.

Fixpoint all_word (s : string) : bool :=
  match s with
  | EmptyString => true
  | String c s' => is_word c && all_word s'
  end.

(** A tag name the pattern takes literally: not empty, word characters
    only. *)
Definition plain_tag (t : string) : bool :=
  negb (String.eqb t "") && all_word t.

(** [applyClass]. A tag with another character may mean something else
    in the pattern ([.], [(], [|], ...), or make [new RegExp] throw: for
    such a list the embedding gives no result. *)
Definition applyClass (tags : list string) (className : option string) (html : string)
  : option string :=
  if forallb plain_tag tags then Some (replace_tags tags className html) else None.

(** ** Words used to state its properties *)

Fixpoint has_char (c : ascii) (s : string) : bool :=
  match s with
  | EmptyString => false
  | String x s' => Ascii.eqb x c || has_char c s'
  end.

Definition starts_with_word (s : string) : bool :=
  match s with
  | EmptyString => false
  | String c _ => is_word c
  end.

(** The attribute [applyClass] writes behind an opening tag. *)
Definition class_attribute (className : option string) : string :=
  " class=" +:+ JS.dquote +:+ default "undefined" className +:+ JS.dquote.

End AddClass.

(* ===================================================================== *)
(** * Part V-b: more sample worlds                                       *)
(* ===================================================================== *)

Module MoreFixtures.
Import JS ApiPlugin DOM CopyButton.

(** A disk on which [article.md] of the slug [folder] is a directory. *)
Definition disk_with_directory : filesystem :=
  fun p =>
    if String.eqb p "src/articles/2025/folder/article.md" then Some Directory
    else Fixtures.sample_disk p.

Definition timestamp_article : string :=
  "---
title: 7
date: 2025-06-26
---
Hello".

(** What gray-matter makes of a front-matter with a number and a YAML
    timestamp: 2025-06-26 is 1750896000000 ms after the epoch. *)
Definition matter_with_timestamp (text : string) : outcome GrayMatterFile :=
  if String.eqb text timestamp_article then
    Returns {| content := "Hello";
               data := VObject [ ("title", VNumber (Finite 7 0));
                                 ("date", VDate 1750896000000) ] |}
  else Fixtures.sample_matter text.

Definition disk_with_timestamp : filesystem :=
  fun p =>
    if String.eqb p "src/articles/2025/stamp/article.md" then Some (File timestamp_article)
    else Fixtures.sample_disk p.

(** The article [blank-title] once its empty title line is deleted. *)
Definition date_only_article : string :=
  "---
date: '2025-06-26'
---
Hello".

Definition matter_with_date_only (text : string) : outcome GrayMatterFile :=
  if String.eqb text date_only_article then
    Returns {| content := "Hello";
               data := VObject [ ("date", VString "2025-06-26") ] |}
  else Fixtures.sample_matter text.

Definition disk_with_date_only : filesystem :=
  fun p =>
    if String.eqb p "src/articles/2025/blank-title/article.md"
    then Some (File date_only_article)
    else Fixtures.sample_disk p.

(** An article with a title and an empty date, and the same article
    once the date line is deleted. *)
Definition blank_date_article : string :=
  "---
title: 'Copy buttons'
date: ''
---
Hello".

Definition title_only_article : string :=
  "---
title: 'Copy buttons'
---
Hello".

Definition matter_with_title_only (text : string) : outcome GrayMatterFile :=
  if String.eqb text blank_date_article then
    Returns {| content := "Hello";
               data := VObject [ ("title", VString "Copy buttons");
                                 ("date", VString "") ] |}
  else if String.eqb text title_only_article then
    Returns {| content := "Hello";
               data := VObject [ ("title", VString "Copy buttons") ] |}
  else Fixtures.sample_matter text.

Definition disk_with_blank_date : filesystem :=
  fun p =>
    if String.eqb p "src/articles/2025/blank-date/article.md"
    then Some (File blank_date_article)
    else Fixtures.sample_disk p.

Definition disk_with_title_only : filesystem :=
  fun p =>
    if String.eqb p "src/articles/2025/blank-date/article.md"
    then Some (File title_only_article)
    else Fixtures.sample_disk p.

(** The sample page once the effect has run. *)
Definition active_page : page :=
  fst (@CopyButtonsInjector Fixtures.sample_CSSOM
         (Fixtures.page_of Fixtures.sample_document)).

(** What the component library renders for the control. *)
Definition rendered_control : list markup :=
  [ MElement "button" [("type", "button")] [ MText (text_of_string "Copy") ] ].

Definition new_block : markup :=
  MElement "pre" [] [ MText (text_of_string "z") ].

End MoreFixtures.

(* ===================================================================== *)
(** * Part VI: properties of the article endpoint                        *)
(* ===================================================================== *)

Module ApiPluginSpec.
Import JS ApiPlugin.

Section Endpoint.
Variable ARTICLE_PATH : string.
Variable URL_pathname : string -> string -> outcome string.
Variable matter : string -> outcome GrayMatterFile.
Variable Number_toString : Z -> Z -> string.
Variable Date_toISOString : Z -> string.
Variable fs : filesystem.
Variable now : Z.

Local Abbreviation serve :=
  (ApiPlugin.serve ARTICLE_PATH URL_pathname matter Number_toString Date_toISOString fs now).
Local Abbreviation filePath := (ApiPlugin.filePath ARTICLE_PATH).
Local Abbreviation ok_response := (ApiPlugin.ok_response Number_toString Date_toISOString).

(** The success branch, whatever the front-matter holds. *)
Lemma serve_found (req : IncomingMessage) (pathname text : string)
      (parsed : GrayMatterFile) (title date : value) :
  URL_pathname (url_or_empty (url req)) "http://localhost" = Returns pathname ->
  fs (filePath (slug_of pathname)) = Some (File text) ->
  matter text = Returns parsed ->
  GetV (data parsed) "title" = Returns title ->
  GetV (data parsed) "date" = Returns date ->
  serve req =
    (Returns tt,
     ok_response (content parsed)
       (or_else title (VString "Untitled"))
       (or_else date (VString (Date_toISOString now)))
       (slug_of pathname)).
Proof.
  intros Hurl Hfs Hm Ht Hd.
  unfold ApiPlugin.serve, apiPlugin, mbind, M_bind, bind, call.
  rewrite Hurl. cbn beta iota.
  unfold existsSync, readFileSync. fold filePath. rewrite Hfs.
  cbn beta iota. rewrite Hm. cbn beta iota. rewrite Ht, Hd. reflexivity.
Qed.

Lemma serve_missing (req : IncomingMessage) (pathname : string) :
  URL_pathname (url_or_empty (url req)) "http://localhost" = Returns pathname ->
  fs (filePath (slug_of pathname)) = None ->
  serve req = (Returns tt, not_found_response).
Proof.
  intros Hurl Hfs.
  unfold ApiPlugin.serve, apiPlugin, mbind, M_bind, bind, call.
  rewrite Hurl. cbn beta iota.
  unfold existsSync. fold filePath. rewrite Hfs. reflexivity.
Qed.

(** The success branch with its answer written out. *)
Lemma serve_found_fields (req : IncomingMessage) (pathname text : string)
      (parsed : GrayMatterFile) (title date : value) :
  URL_pathname (url_or_empty (url req)) "http://localhost" = Returns pathname ->
  fs (filePath (slug_of pathname)) = Some (File text) ->
  matter text = Returns parsed ->
  GetV (data parsed) "title" = Returns title ->
  GetV (data parsed) "date" = Returns date ->
  serve req =
    (Returns tt,
     {| statusCode := 200;
        headers := [("Content-Type", "application/json")];
        body := default ""
                  (JSON_stringify Number_toString Date_toISOString
                     (VObject
                        [ ("content", VString (content parsed));
                          ("data",
                           VObject
                             [ ("title", if ToBoolean title then title
                                         else VString "Untitled");
                               ("date", if ToBoolean date then date
                                        else VString (Date_toISOString now));
                               ("slug", VString (slug_of pathname)) ]) ]));
        finished := true |}).
Proof.
  intros Hurl Hfs Hm Ht Hd.
  rewrite (serve_found req pathname text parsed title date Hurl Hfs Hm Ht Hd).
  reflexivity.
Qed.

Lemma GetV_object (ps : list (string * value)) (key : string) :
  GetV (VObject ps) key = Returns (default VUndefined (lookup_property key ps)).
Proof. unfold GetV. destruct (lookup_property key ps); reflexivity. Qed.

Lemma or_else_string (s : string) (d : value) :
  s <> "" -> or_else (VString s) d = VString s.
Proof.
  intros Hs. unfold or_else. simpl.
  destruct (String.eqb_spec s ""); [contradiction | reflexivity].
Qed.

(** ** Path resolution *)

Lemma segments_nonempty (s : string) : segments s <> [].
Proof.
  induction s as [|c s IH]; simpl; [discriminate|].
  destruct (Ascii.eqb c "/"); [discriminate|].
  destruct (segments s); discriminate.
Qed.

Lemma segments_app_slash (a b : string) :
  segments (a +:+ "/" +:+ b) = segments a ++ segments b.
Proof.
  induction a as [|c a IH]; simpl; [reflexivity|].
  destruct (Ascii.eqb c "/"); simpl.
  - f_equal. exact IH.
  - change (String "/" b) with ("/" +:+ b). rewrite IH.
    pose proof (segments_nonempty a) as Hne.
    destruct (segments a) as [|seg rest]; [contradiction|]. reflexivity.
Qed.

Lemma strip_prefix_app (l a b : list string) :
  strip_prefix (l ++ a) (l ++ b) = strip_prefix a b.
Proof.
  induction l as [|x l IH]; simpl; [reflexivity|].
  rewrite String.eqb_refl. exact IH.
Qed.

Lemma strip_prefix_self (l b : list string) :
  strip_prefix l (l ++ b) = Some b.
Proof.
  rewrite <- (app_nil_r l) at 1. rewrite strip_prefix_app. reflexivity.
Qed.

Lemma resolve_step_up_cons (x : string) (r : list string) :
  resolve_step (x :: r) ".." = if String.eqb x ".." then ".." :: x :: r else r.
Proof. reflexivity. Qed.

Lemma resolve_step_name (st : list string) :
  resolve_step st "article.md" = "article.md" :: st.
Proof. reflexivity. Qed.

Lemma rev_two (a b : string) (l : list string) : rev (a :: b :: l) = rev l ++ [b; a].
Proof. simpl. rewrite <- app_assoc. reflexivity. Qed.

Lemma rev_three (a b c : string) (l : list string) :
  rev (a :: b :: c :: l) = rev l ++ [c; b; a].
Proof. simpl. rewrite <- !app_assoc. reflexivity. Qed.

(** Two parent-directory segments lead out of any base directory. *)
Lemma two_levels_up_escapes (dir : string) :
  inside dir (dir +:+ "/" +:+ "../.." +:+ "/article.md") = false.
Proof.
  unfold inside, resolve.
  rewrite segments_app_slash, fold_left_app.
  change (segments ("../.." +:+ "/article.md")) with [".."; ".."; "article.md"].
  destruct (fold_left resolve_step (segments dir) []) as [|x r]; [reflexivity|].
  cbn [fold_left]. rewrite resolve_step_up_cons.
  destruct (String.eqb x "..") eqn:Hx.
  - rewrite resolve_step_up_cons, resolve_step_name. cbn [String.eqb Ascii.eqb Bool.eqb].
    rewrite (rev_three "article.md" ".." ".." (x :: r)), strip_prefix_self.
    reflexivity.
  - destruct r as [|y r].
    + change (resolve_step [] "..") with [".."]. rewrite resolve_step_name.
      cbn [rev app strip_prefix]. rewrite Hx. reflexivity.
    + rewrite resolve_step_up_cons.
      destruct (String.eqb y "..") eqn:Hy; rewrite resolve_step_name.
      * rewrite (rev_three "article.md" ".." y r), (rev_two x y r), strip_prefix_app.
        cbn [strip_prefix]. rewrite String.eqb_refl, Hx. reflexivity.
      * change (rev ("article.md" :: r)) with (rev r ++ ["article.md"]).
        rewrite (rev_two x y r), strip_prefix_app.
        cbn [strip_prefix]. destruct (String.eqb y "article.md"); reflexivity.
Qed.

(** ** The claims *)

(** C1 (as amended). For a request whose article file exists and whose
    front-matter holds a non-empty string title [T] and a non-empty
    string date [D], the endpoint answers with status 200, a JSON
    content type and exactly the serialization of
    [{content: <body>, data: {title: T, date: D, slug: <slug>}}]. *)
Theorem content_call_returns_envelope
        (req : IncomingMessage) (pathname text : string)
        (parsed : GrayMatterFile) (T D : string) :
  URL_pathname (url_or_empty (url req)) "http://localhost" = Returns pathname ->
  fs (filePath (slug_of pathname)) = Some (File text) ->
  matter text = Returns parsed ->
  GetV (data parsed) "title" = Returns (VString T) ->
  GetV (data parsed) "date" = Returns (VString D) ->
  T <> "" ->
  D <> "" ->
  serve req =
    (Returns tt,
     {| statusCode := 200;
        headers := [("Content-Type", "application/json")];
        body := default ""
                  (JSON_stringify Number_toString Date_toISOString
                     (VObject
                        [ ("content", VString (content parsed));
                          ("data", VObject [ ("title", VString T);
                                             ("date", VString D);
                                             ("slug", VString (slug_of pathname)) ]) ]));
        finished := true |}).
Proof.
  intros Hurl Hfs Hm Ht Hd HT HD.
  rewrite (serve_found req pathname text parsed _ _ Hurl Hfs Hm Ht Hd).
  rewrite (or_else_string T _ HT), (or_else_string D _ HD). reflexivity.
Qed.

(** C2. For a request whose article file does not exist, the endpoint
    answers with status 404 and the body [Article not found]; it sets
    no JSON content type and writes no JSON envelope. *)
Theorem missing_article_is_404 (req : IncomingMessage) (pathname : string) :
  URL_pathname (url_or_empty (url req)) "http://localhost" = Returns pathname ->
  existsSync fs (filePath (slug_of pathname)) = false ->
  serve req =
    (Returns tt,
     {| statusCode := 404; headers := []; body := "Article not found";
        finished := true |}).
Proof.
  intros Hurl Hex. apply (serve_missing req pathname Hurl).
  unfold existsSync in Hex.
  destruct (fs (filePath (slug_of pathname))); [discriminate | reflexivity].
Qed.

(** C3. For a request whose article file exists, a front-matter that
    omits the title makes the title of the response [Untitled], whatever
    the date field holds, and one that omits the date makes the date of
    the response the ISO-8601 rendering of the time at which the request
    is handled, whatever the title field holds: the answer is status 200
    with the serialization of [{content, data: {title, date, slug}}]
    written out below. *)
Theorem missing_fields_get_defaults
        (req : IncomingMessage) (pathname text body_text : string)
        (ps : list (string * value)) :
  URL_pathname (url_or_empty (url req)) "http://localhost" = Returns pathname ->
  fs (filePath (slug_of pathname)) = Some (File text) ->
  matter text = Returns {| content := body_text; data := VObject ps |} ->
  (lookup_property "title" ps = None ->
   serve req =
     (Returns tt,
      {| statusCode := 200;
         headers := [("Content-Type", "application/json")];
         body := default ""
                   (JSON_stringify Number_toString Date_toISOString
                      (VObject
                         [ ("content", VString body_text);
                           ("data",
                            VObject
                              [ ("title", VString "Untitled");
                                ("date",
                                 match lookup_property "date" ps with
                                 | Some d => if ToBoolean d then d
                                             else VString (Date_toISOString now)
                                 | None => VString (Date_toISOString now)
                                 end);
                                ("slug", VString (slug_of pathname)) ]) ]));
         finished := true |}))
  /\ (lookup_property "date" ps = None ->
      serve req =
        (Returns tt,
         {| statusCode := 200;
            headers := [("Content-Type", "application/json")];
            body := default ""
                      (JSON_stringify Number_toString Date_toISOString
                         (VObject
                            [ ("content", VString body_text);
                              ("data",
                               VObject
                                 [ ("title",
                                    match lookup_property "title" ps with
                                    | Some t => if ToBoolean t then t
                                                else VString "Untitled"
                                    | None => VString "Untitled"
                                    end);
                                   ("date", VString (Date_toISOString now));
                                   ("slug", VString (slug_of pathname)) ]) ]));
            finished := true |}))
  /\ (lookup_property "title" ps = None -> lookup_property "date" ps = None ->
      serve req =
        (Returns tt,
         {| statusCode := 200;
            headers := [("Content-Type", "application/json")];
            body := default ""
                      (JSON_stringify Number_toString Date_toISOString
                         (VObject
                            [ ("content", VString body_text);
                              ("data",
                               VObject
                                 [ ("title", VString "Untitled");
                                   ("date", VString (Date_toISOString now));
                                   ("slug", VString (slug_of pathname)) ]) ]));
            finished := true |})).
Proof.
  intros Hurl Hfs Hm.
  pose proof (serve_found_fields req pathname text
                {| content := body_text; data := VObject ps |}
                (default VUndefined (lookup_property "title" ps))
                (default VUndefined (lookup_property "date" ps))
                Hurl Hfs Hm (GetV_object ps "title") (GetV_object ps "date")) as Hs.
  cbn [content] in Hs. rewrite Hs. split; [|split].
  - intros ->. cbn [from_option id]. change (ToBoolean VUndefined) with false.
    destruct (lookup_property "date" ps) as [d|]; reflexivity.
  - intros ->. cbn [from_option id]. change (ToBoolean VUndefined) with false.
    destruct (lookup_property "title" ps) as [t|]; reflexivity.
  - intros -> ->. reflexivity.
Qed.

(** C7. For every slug [s] the URL parser hands over, the endpoint
    checks and reads exactly [<ARTICLE_PATH>/<s>/article.md], built from
    [s] as it is, and refuses no [s]: with nothing at that path the
    answer is the 404, with a file there the answer is made of that
    file, and what is stored elsewhere on the disk has no influence.
    Nothing in this construction keeps the path below [ARTICLE_PATH]:
    there is a slug with parent-directory segments whose path resolves
    outside of it. *)
Theorem slug_is_not_sanitized (req : IncomingMessage) (s : string) :
  isAbsolute ARTICLE_PATH = false ->
  ARTICLE_PATH <> "" ->
  URL_pathname (url_or_empty (url req)) "http://localhost" = Returns ("/" +:+ s) ->
  (fs (ARTICLE_PATH +:+ "/" +:+ s +:+ "/article.md") = None ->
   serve req =
     (Returns tt,
      {| statusCode := 404; headers := []; body := "Article not found";
         finished := true |}))
  /\ (forall (text : string) (parsed : GrayMatterFile) (title date : value),
        fs (ARTICLE_PATH +:+ "/" +:+ s +:+ "/article.md") = Some (File text) ->
        matter text = Returns parsed ->
        GetV (data parsed) "title" = Returns title ->
        GetV (data parsed) "date" = Returns date ->
        serve req =
          (Returns tt,
           {| statusCode := 200;
              headers := [("Content-Type", "application/json")];
              body := default ""
                        (JSON_stringify Number_toString Date_toISOString
                           (VObject
                              [ ("content", VString (content parsed));
                                ("data",
                                 VObject
                                   [ ("title", if ToBoolean title then title
                                               else VString "Untitled");
                                     ("date", if ToBoolean date then date
                                              else VString (Date_toISOString now));
                                     ("slug", VString s) ]) ]));
              finished := true |}))
  /\ (forall fs' : filesystem,
        fs' (ARTICLE_PATH +:+ "/" +:+ s +:+ "/article.md")
        = fs (ARTICLE_PATH +:+ "/" +:+ s +:+ "/article.md") ->
        ApiPlugin.serve ARTICLE_PATH URL_pathname matter
                        Number_toString Date_toISOString fs' now req
        = serve req)
  /\ (exists crafted : string,
        In ".." (segments crafted)
        /\ inside ARTICLE_PATH (ARTICLE_PATH +:+ "/" +:+ crafted +:+ "/article.md")
           = false).
Proof.
  intros _ _ Hurl. split; [|split; [|split]].
  - intros Hfs. exact (serve_missing req ("/" +:+ s) Hurl Hfs).
  - intros text parsed title date Hfs Hm Ht Hd.
    exact (serve_found_fields req ("/" +:+ s) text parsed title date Hurl Hfs Hm Ht Hd).
  - intros fs' Hsame.
    unfold ApiPlugin.serve, apiPlugin, mbind, M_bind, bind, call.
    rewrite Hurl. cbn beta iota.
    change (slug_of ("/" +:+ s)) with s.
    unfold existsSync, readFileSync, ApiPlugin.filePath. rewrite Hsame.
    reflexivity.
  - exists "../..". split.
    + left. reflexivity.
    + apply two_levels_up_escapes.
Qed.
End Endpoint.

(** C10. A title or a date that the front-matter defines with a falsy
    value is replaced by its default exactly as an absent one is,
    whatever the other field holds: the answer carries [Untitled] (for
    the date: the ISO-8601 rendering of the time of the request) in its
    place, and it is the answer to the same request when the file has
    no such key and is the same otherwise. *)
Theorem falsy_fields_default_like_absent
        (ARTICLE_PATH : string) (URL_pathname : string -> string -> outcome string)
        (Number_toString : Z -> Z -> string) (Date_toISOString : Z -> string)
        (now : Z) (req : IncomingMessage) (pathname : string)
        (fs1 fs2 : filesystem) (matter1 matter2 : string -> outcome GrayMatterFile)
        (text1 text2 body_text : string) (ps1 ps2 : list (string * value))
        (falsy : value) :
  URL_pathname (url_or_empty (url req)) "http://localhost" = Returns pathname ->
  fs1 (filePath ARTICLE_PATH (slug_of pathname)) = Some (File text1) ->
  matter1 text1 = Returns {| content := body_text; data := VObject ps1 |} ->
  fs2 (filePath ARTICLE_PATH (slug_of pathname)) = Some (File text2) ->
  matter2 text2 = Returns {| content := body_text; data := VObject ps2 |} ->
  ToBoolean falsy = false ->
  (lookup_property "title" ps1 = Some falsy ->
   lookup_property "title" ps2 = None ->
   lookup_property "date" ps2 = lookup_property "date" ps1 ->
   serve ARTICLE_PATH URL_pathname matter1 Number_toString Date_toISOString fs1 now req
   = serve ARTICLE_PATH URL_pathname matter2 Number_toString Date_toISOString fs2 now req
   /\ serve ARTICLE_PATH URL_pathname matter1 Number_toString Date_toISOString fs1 now req
      = (Returns tt,
         {| statusCode := 200;
            headers := [("Content-Type", "application/json")];
            body := default ""
                      (JSON_stringify Number_toString Date_toISOString
                         (VObject
                            [ ("content", VString body_text);
                              ("data",
                               VObject
                                 [ ("title", VString "Untitled");
                                   ("date",
                                    match lookup_property "date" ps1 with
                                    | Some d => if ToBoolean d then d
                                                else VString (Date_toISOString now)
                                    | None => VString (Date_toISOString now)
                                    end);
                                   ("slug", VString (slug_of pathname)) ]) ]));
            finished := true |}))
  /\ (lookup_property "date" ps1 = Some falsy ->
      lookup_property "date" ps2 = None ->
      lookup_property "title" ps2 = lookup_property "title" ps1 ->
      serve ARTICLE_PATH URL_pathname matter1 Number_toString Date_toISOString fs1 now req
      = serve ARTICLE_PATH URL_pathname matter2 Number_toString Date_toISOString fs2 now req
      /\ serve ARTICLE_PATH URL_pathname matter1 Number_toString Date_toISOString fs1 now req
         = (Returns tt,
            {| statusCode := 200;
               headers := [("Content-Type", "application/json")];
               body := default ""
                         (JSON_stringify Number_toString Date_toISOString
                            (VObject
                               [ ("content", VString body_text);
                                 ("data",
                                  VObject
                                    [ ("title",
                                       match lookup_property "title" ps1 with
                                       | Some t => if ToBoolean t then t
                                                   else VString "Untitled"
                                       | None => VString "Untitled"
                                       end);
                                      ("date", VString (Date_toISOString now));
                                      ("slug", VString (slug_of pathname)) ]) ]));
               finished := true |})).
Proof.
  intros Hurl Hfs1 Hm1 Hfs2 Hm2 Hf.
  rewrite (serve_found_fields ARTICLE_PATH URL_pathname matter1 _ _ fs1 now
             req pathname text1 _ _ _ Hurl Hfs1 Hm1
             (GetV_object ps1 "title") (GetV_object ps1 "date")).
  rewrite (serve_found_fields ARTICLE_PATH URL_pathname matter2 _ _ fs2 now
             req pathname text2 _ _ _ Hurl Hfs2 Hm2
             (GetV_object ps2 "title") (GetV_object ps2 "date")).
  cbn [content]. split; intros Hk1 Hk2 Ho; rewrite Hk2, Ho, Hk1; cbn [from_option id];
    rewrite Hf; change (ToBoolean VUndefined) with false.
  - split; [reflexivity|].
    destruct (lookup_property "date" ps1) as [v|]; cbn [from_option id];
      [destruct (ToBoolean v)|]; reflexivity.
  - split; [reflexivity|].
    destruct (lookup_property "title" ps1) as [v|]; cbn [from_option id];
      [destruct (ToBoolean v)|]; reflexivity.
Qed.

(** ** The claims at the sample disk *)

Lemma content_call_returns_envelope_witness :
  Fixtures.sample_serve Fixtures.sample_disk "/react/copy"
  = (Returns tt,
     {| statusCode := 200;
        headers := [("Content-Type", "application/json")];
        body := default ""
                  (JSON_stringify Fixtures.sample_Number_toString
                     Fixtures.sample_Date_toISOString
                     (VObject
                        [ ("content", VString "Hello");
                          ("data", VObject [ ("title", VString "Copy buttons");
                                             ("date", VString "2025-06-26");
                                             ("slug", VString "react/copy") ]) ]));
        finished := true |}).
Proof.
  apply (content_call_returns_envelope
           "src/articles/2025" Fixtures.pathname_as_given Fixtures.sample_matter
           Fixtures.sample_Number_toString Fixtures.sample_Date_toISOString
           Fixtures.sample_disk 0 {| url := Some "/react/copy" |}
           "/react/copy" Fixtures.complete_article
           {| content := "Hello";
              data := VObject [ ("title", VString "Copy buttons");
                                ("date", VString "2025-06-26") ] |}
           "Copy buttons" "2025-06-26");
    try reflexivity; discriminate.
Defined.

(** The claim C1 as the specification states it fails for the title [''],
    which is a title the front-matter contains: the response carries
    [Untitled] in its place. *)
Lemma empty_title_is_not_returned :
  Fixtures.sample_disk "src/articles/2025/blank-title/article.md"
  = Some (File Fixtures.blank_title_article)
  /\ Fixtures.sample_matter Fixtures.blank_title_article
     = Returns {| content := "Hello";
                  data := VObject [ ("title", VString "");
                                    ("date", VString "2025-06-26") ] |}
  /\ Fixtures.sample_serve Fixtures.sample_disk "/blank-title"
     = (Returns tt,
        ok_response Fixtures.sample_Number_toString Fixtures.sample_Date_toISOString
          "Hello" (VString "Untitled") (VString "2025-06-26") "blank-title")
  /\ Fixtures.sample_serve Fixtures.sample_disk "/blank-title"
     <> (Returns tt,
         ok_response Fixtures.sample_Number_toString Fixtures.sample_Date_toISOString
           "Hello" (VString "") (VString "2025-06-26") "blank-title").
Proof.
  split; [reflexivity|]. split; [reflexivity|]. split; [reflexivity|].
  vm_compute. discriminate.
Qed.

Lemma missing_article_is_404_witness :
  Fixtures.sample_serve Fixtures.sample_disk "/no/such/article"
  = (Returns tt,
     {| statusCode := 404; headers := []; body := "Article not found";
        finished := true |}).
Proof.
  apply (missing_article_is_404
           "src/articles/2025" Fixtures.pathname_as_given Fixtures.sample_matter
           Fixtures.sample_Number_toString Fixtures.sample_Date_toISOString
           Fixtures.sample_disk 0 {| url := Some "/no/such/article" |}
           "/no/such/article");
    reflexivity.
Defined.

Lemma missing_fields_get_defaults_witness :
  Fixtures.sample_serve Fixtures.sample_disk "/bare"
  = (Returns tt,
     {| statusCode := 200;
        headers := [("Content-Type", "application/json")];
        body := default ""
                  (JSON_stringify Fixtures.sample_Number_toString
                     Fixtures.sample_Date_toISOString
                     (VObject
                        [ ("content", VString "Hello");
                          ("data",
                           VObject
                             [ ("title", VString "Untitled");
                               ("date", VString (Fixtures.sample_Date_toISOString 0));
                               ("slug", VString "bare") ]) ]));
        finished := true |})
  /\ serve "src/articles/2025" Fixtures.pathname_as_given
           MoreFixtures.matter_with_date_only
           Fixtures.sample_Number_toString Fixtures.sample_Date_toISOString
           MoreFixtures.disk_with_date_only 0 {| url := Some "/blank-title" |}
     = (Returns tt,
        {| statusCode := 200;
           headers := [("Content-Type", "application/json")];
           body := default ""
                     (JSON_stringify Fixtures.sample_Number_toString
                        Fixtures.sample_Date_toISOString
                        (VObject
                           [ ("content", VString "Hello");
                             ("data",
                              VObject
                                [ ("title", VString "Untitled");
                                  ("date", VString "2025-06-26");
                                  ("slug", VString "blank-title") ]) ]));
           finished := true |}).
Proof.
  split.
  - exact (proj2 (proj2 (missing_fields_get_defaults
                           "src/articles/2025" Fixtures.pathname_as_given
                           Fixtures.sample_matter
                           Fixtures.sample_Number_toString
                           Fixtures.sample_Date_toISOString
                           Fixtures.sample_disk 0 {| url := Some "/bare" |}
                           "/bare" Fixtures.bare_article "Hello" []
                           eq_refl eq_refl eq_refl))
                 eq_refl eq_refl).
  - exact (proj1 (missing_fields_get_defaults
                    "src/articles/2025" Fixtures.pathname_as_given
                    MoreFixtures.matter_with_date_only
                    Fixtures.sample_Number_toString Fixtures.sample_Date_toISOString
                    MoreFixtures.disk_with_date_only 0 {| url := Some "/blank-title" |}
                    "/blank-title" MoreFixtures.date_only_article "Hello"
                    [ ("date", VString "2025-06-26") ] eq_refl eq_refl eq_refl)
                 eq_refl).
Defined.

Lemma slug_is_not_sanitized_witness :
  Fixtures.sample_serve Fixtures.sample_disk "/react/copy"
  = (Returns tt,
     {| statusCode := 200;
        headers := [("Content-Type", "application/json")];
        body := default ""
                  (JSON_stringify Fixtures.sample_Number_toString
                     Fixtures.sample_Date_toISOString
                     (VObject
                        [ ("content", VString "Hello");
                          ("data",
                           VObject
                             [ ("title", VString "Copy buttons");
                               ("date", VString "2025-06-26");
                               ("slug", VString "react/copy") ]) ]));
        finished := true |})
  /\ (exists crafted : string,
        In ".." (segments crafted)
        /\ inside "src/articles/2025"
                  ("src/articles/2025" +:+ "/" +:+ crafted +:+ "/article.md") = false).
Proof.
  destruct (slug_is_not_sanitized
              "src/articles/2025" Fixtures.pathname_as_given Fixtures.sample_matter
              Fixtures.sample_Number_toString Fixtures.sample_Date_toISOString
              Fixtures.sample_disk 0 {| url := Some "/react/copy" |} "react/copy"
              eq_refl ltac:(discriminate) eq_refl)
    as (_ & Hread & _ & Hcrafted).
  split; [|exact Hcrafted].
  exact (Hread Fixtures.complete_article
               {| content := "Hello";
                  data := VObject [ ("title", VString "Copy buttons");
                                    ("date", VString "2025-06-26") ] |}
               (VString "Copy buttons") (VString "2025-06-26")
               eq_refl eq_refl eq_refl eq_refl).
Defined.

Lemma falsy_fields_default_like_absent_witness :
  (serve "src/articles/2025" Fixtures.pathname_as_given MoreFixtures.matter_with_date_only
         Fixtures.sample_Number_toString Fixtures.sample_Date_toISOString
         Fixtures.sample_disk 0 {| url := Some "/blank-title" |}
   = serve "src/articles/2025" Fixtures.pathname_as_given MoreFixtures.matter_with_date_only
           Fixtures.sample_Number_toString Fixtures.sample_Date_toISOString
           MoreFixtures.disk_with_date_only 0 {| url := Some "/blank-title" |}
   /\ serve "src/articles/2025" Fixtures.pathname_as_given
            MoreFixtures.matter_with_date_only
            Fixtures.sample_Number_toString Fixtures.sample_Date_toISOString
            Fixtures.sample_disk 0 {| url := Some "/blank-title" |}
      = (Returns tt,
         {| statusCode := 200;
            headers := [("Content-Type", "application/json")];
            body := default ""
                      (JSON_stringify Fixtures.sample_Number_toString
                         Fixtures.sample_Date_toISOString
                         (VObject
                            [ ("content", VString "Hello");
                              ("data",
                               VObject
                                 [ ("title", VString "Untitled");
                                   ("date", VString "2025-06-26");
                                   ("slug", VString "blank-title") ]) ]));
            finished := true |}))
  /\ (serve "src/articles/2025" Fixtures.pathname_as_given
            MoreFixtures.matter_with_title_only
            Fixtures.sample_Number_toString Fixtures.sample_Date_toISOString
            MoreFixtures.disk_with_blank_date 0 {| url := Some "/blank-date" |}
      = serve "src/articles/2025" Fixtures.pathname_as_given
              MoreFixtures.matter_with_title_only
              Fixtures.sample_Number_toString Fixtures.sample_Date_toISOString
              MoreFixtures.disk_with_title_only 0 {| url := Some "/blank-date" |}
      /\ serve "src/articles/2025" Fixtures.pathname_as_given
               MoreFixtures.matter_with_title_only
               Fixtures.sample_Number_toString Fixtures.sample_Date_toISOString
               MoreFixtures.disk_with_blank_date 0 {| url := Some "/blank-date" |}
         = (Returns tt,
            {| statusCode := 200;
               headers := [("Content-Type", "application/json")];
               body := default ""
                         (JSON_stringify Fixtures.sample_Number_toString
                            Fixtures.sample_Date_toISOString
                            (VObject
                               [ ("content", VString "Hello");
                                 ("data",
                                  VObject
                                    [ ("title", VString "Copy buttons");
                                      ("date",
                                       VString (Fixtures.sample_Date_toISOString 0));
                                      ("slug", VString "blank-date") ]) ]));
               finished := true |})).
Proof.
  split.
  - exact (proj1 (falsy_fields_default_like_absent
                    "src/articles/2025" Fixtures.pathname_as_given
                    Fixtures.sample_Number_toString Fixtures.sample_Date_toISOString
                    0 {| url := Some "/blank-title" |} "/blank-title"
                    Fixtures.sample_disk MoreFixtures.disk_with_date_only
                    MoreFixtures.matter_with_date_only MoreFixtures.matter_with_date_only
                    Fixtures.blank_title_article MoreFixtures.date_only_article "Hello"
                    [ ("title", VString ""); ("date", VString "2025-06-26") ]
                    [ ("date", VString "2025-06-26") ]
                    (VString "") eq_refl eq_refl eq_refl eq_refl eq_refl eq_refl)
                 eq_refl eq_refl eq_refl).
  - exact (proj2 (falsy_fields_default_like_absent
                    "src/articles/2025" Fixtures.pathname_as_given
                    Fixtures.sample_Number_toString Fixtures.sample_Date_toISOString
                    0 {| url := Some "/blank-date" |} "/blank-date"
                    MoreFixtures.disk_with_blank_date MoreFixtures.disk_with_title_only
                    MoreFixtures.matter_with_title_only MoreFixtures.matter_with_title_only
                    MoreFixtures.blank_date_article MoreFixtures.title_only_article "Hello"
                    [ ("title", VString "Copy buttons"); ("date", VString "") ]
                    [ ("title", VString "Copy buttons") ]
                    (VString "") eq_refl eq_refl eq_refl eq_refl eq_refl eq_refl)
                 eq_refl eq_refl eq_refl).
Defined.

End ApiPluginSpec.

(* ===================================================================== *)
(** * Part VII: properties of the enhancer                               *)
(* ===================================================================== *)

Module CopyButtonSpec.
Import DOM CopyButton.

Section Enhancer.
(** Whatever the CSS engine of the browser is. *)
Context {engine : CSSOM}.

(** ** Induction on trees *)

Lemma node_ind' (P : node -> Prop) :
  (forall d, P (Text d)) ->
  (forall d, P (Comment d)) ->
  (forall t pr cs, Forall P cs -> P (Element t pr cs)) ->
  forall n, P n.
Proof.
  intros HT HC HE.
  refine (fix IH (n : node) : P n :=
            match n with
            | Text d => HT d
            | Comment d => HC d
            | Element t pr cs =>
                HE t pr cs
                   ((fix go (l : list node) : Forall P l :=
                       match l with
                       | [] => @List.Forall_nil node P
                       | c :: l' => @List.Forall_cons node P c l' (IH c) (go l')
                       end) cs)
            end).
Qed.

(** ** Selection *)

Lemma select_Element (P : node -> bool) t pr cs :
  select P (Element t pr cs)
  = (if P (Element t pr cs) then [[]] else []) ++ select_list P 0 cs.
Proof.
  cbn [select]. f_equal. generalize 0.
  induction cs as [|c cs IH]; intros i; [reflexivity|].
  cbn [select_list]. rewrite <- IH. reflexivity.
Qed.

Lemma select_leaf (P : node -> bool) (n : node) :
  (forall t pr cs, n <> Element t pr cs) ->
  select P n = if P n then [[]] else [].
Proof.
  intros Hn. destruct n as [d|d|t pr cs]; cbn [select];
    [apply app_nil_r | apply app_nil_r | exfalso; eapply Hn; reflexivity].
Qed.

Lemma select_list_app (P : node -> bool) (l1 l2 : list node) (i : nat) :
  select_list P i (l1 ++ l2)
  = select_list P i l1 ++ select_list P (i + length l1) l2.
Proof.
  revert i. induction l1 as [|c l1 IH]; intros i; cbn [select_list app length].
  - rewrite Nat.add_0_r. reflexivity.
  - rewrite IH, <- app_assoc.
    replace (i + S (length l1)) with (S i + length l1) by lia. reflexivity.
Qed.

(** ** The callback under a child *)

Lemma update_at_cons i q f t pr cs :
  update_at (i :: q) f (Element t pr cs)
  = Element t pr (alter (update_at q f) i cs).
Proof. reflexivity. Qed.

Lemma alter_as_insert (g : node -> node) (i : nat) (cs : list node) (c : node) :
  cs !! i = Some c -> alter g i cs = <[i := g c]> cs.
Proof.
  revert i. induction cs as [|x cs IH]; intros [|i] H; try discriminate.
  - injection H as ->. reflexivity.
  - cbn. f_equal. apply IH. exact H.
Qed.

Lemma visit_node_cons i q t pr cs c :
  cs !! i = Some c ->
  visit_node (Element t pr cs) (i :: q)
  = Element t pr (<[i := visit_node c q]> cs).
Proof.
  intros Hi. unfold visit_node. cbn [node_at]. rewrite Hi.
  destruct (node_at q c) as [pre|].
  - destruct (eligible pre).
    + rewrite update_at_cons. f_equal. apply alter_as_insert. exact Hi.
    + rewrite list_insert_id; [reflexivity | exact Hi].
  - rewrite list_insert_id; [reflexivity | exact Hi].
Qed.

Lemma fold_visit_under_child (qs : list path) i t pr cs c :
  cs !! i = Some c ->
  fold_left visit_node (map (cons i) qs) (Element t pr cs)
  = Element t pr (<[i := fold_left visit_node qs c]> cs).
Proof.
  revert cs c. induction qs as [|q qs IH]; intros cs c Hi; cbn [map fold_left].
  - rewrite list_insert_id; [reflexivity | exact Hi].
  - rewrite (visit_node_cons i q t pr cs c Hi).
    rewrite (IH (<[i := visit_node c q]> cs) (visit_node c q)).
    + rewrite list_insert_insert_eq. reflexivity.
    + apply list_lookup_insert_eq. eapply lookup_lt_Some. exact Hi.
Qed.

Lemma fold_visit_children (F : node -> node) (P : node -> bool) t pr
      (cs l1 l2 : list node) :
  Forall (fun c => fold_left visit_node (select P c) c = F c) cs ->
  fold_left visit_node (select_list P (length l1) cs) (Element t pr (l1 ++ cs ++ l2))
  = Element t pr (l1 ++ map F cs ++ l2).
Proof.
  intros HF. revert l1.
  induction HF as [|c cs Hc _ IH]; intros l1; [reflexivity|].
  cbn [select_list map]. rewrite fold_left_app.
  rewrite (fold_visit_under_child _ (length l1) t pr _ c).
  - rewrite Hc.
    replace (<[length l1 := F c]> (l1 ++ (c :: cs) ++ l2))
      with ((l1 ++ [F c]) ++ cs ++ l2).
    + replace (S (length l1)) with (length (l1 ++ [F c])).
      * rewrite IH, <- app_assoc. reflexivity.
      * rewrite length_app. cbn. lia.
    + rewrite insert_app_r_alt by lia. rewrite Nat.sub_diag, <- app_assoc.
      reflexivity.
  - rewrite lookup_app_r by lia. rewrite Nat.sub_diag. reflexivity.
Qed.


(** ** The loop is the tree transformation *)

Lemma mount_Element t pr cs :
  mount (Element t pr cs)
  = Element t (positioned pr) (cs ++ [mounted_wrapper (textContent (Element t pr cs))]).
Proof.
  unfold mount, mounted_wrapper, positioned, set_style.
  cbn [setAttribute cssText createElement appendChild createRoot_render
       attributes reactRoot registered assoc_set assoc from_option id
       String.eqb Ascii.eqb Bool.eqb textContent].
  rewrite flat_map_app. cbn [flat_map textContent app]. rewrite app_nil_r.
  reflexivity.
Qed.

Lemma scan_as_enhance (n : node) :
  fold_left visit_node (select (matches (ByTag "pre")) n) n = enhance n.
Proof.
  induction n as [d|d|t pr cs IH] using node_ind'; [reflexivity | reflexivity |].
  rewrite select_Element. cbn [enhance].
  destruct (matches (ByTag "pre") (Element t pr cs)) eqn:Hm; cbn [app fold_left andb].
  - unfold visit_node at 2. cbn [node_at update_at].
    destruct (eligible (Element t pr cs)) eqn:He.
    + rewrite mount_Element.
      apply (fold_visit_children enhance _ t (positioned pr) cs [] _ IH).
    + pose proof (fold_visit_children enhance (matches (ByTag "pre")) t pr cs [] [] IH) as H.
      cbn [length app] in H. rewrite !app_nil_r in H. exact H.
  - pose proof (fold_visit_children enhance (matches (ByTag "pre")) t pr cs [] [] IH) as H.
    cbn [length app] in H. rewrite !app_nil_r in H. exact H.
Qed.

Lemma visit_document (pg : page) (p : path) :
  document (visit pg p) = visit_node (document pg) p.
Proof.
  unfold visit, visit_node, eligible.
  destruct (node_at p (document pg)) as [pre|]; [|reflexivity].
  destruct (querySelector (ByAttribute "data-copy-btn") pre); [reflexivity|].
  destruct (is_empty (trim (textContent pre))); reflexivity.
Qed.

Lemma visit_scans (pg : page) (p : path) : scans (visit pg p) = scans pg.
Proof.
  unfold visit.
  destruct (node_at p (document pg)) as [pre|]; [|reflexivity].
  destruct (querySelector (ByAttribute "data-copy-btn") pre); [reflexivity|].
  destruct (is_empty (trim (textContent pre))); reflexivity.
Qed.

Lemma fold_visit_document (ps : list path) (pg : page) :
  document (fold_left visit ps pg) = fold_left visit_node ps (document pg).
Proof.
  revert pg. induction ps as [|p ps IH]; intros pg; cbn [fold_left]; [reflexivity|].
  rewrite IH, visit_document. reflexivity.
Qed.

Lemma fold_visit_scans (ps : list path) (pg : page) :
  scans (fold_left visit ps pg) = scans pg.
Proof.
  revert pg. induction ps as [|p ps IH]; intros pg; cbn [fold_left]; [reflexivity|].
  rewrite IH, visit_scans. reflexivity.
Qed.

Lemma inject_document (pg : page) :
  document (injectCopyButtonsIntoCodeBlocks pg) = enhance (document pg).
Proof.
  unfold injectCopyButtonsIntoCodeBlocks, document_querySelectorAll.
  rewrite fold_visit_document. cbn [document]. apply scan_as_enhance.
Qed.

Lemma inject_scans (pg : page) :
  scans (injectCopyButtonsIntoCodeBlocks pg) = S (scans pg).
Proof.
  unfold injectCopyButtonsIntoCodeBlocks. rewrite fold_visit_scans. reflexivity.
Qed.

(** ** What the scan keeps *)

Lemma flat_map_enhance (g : node -> text) (cs : list node) :
  Forall (fun c => g (enhance c) = g c) cs ->
  flat_map g (map enhance cs) = flat_map g cs.
Proof.
  induction 1 as [|c cs Hc _ IH]; cbn [map flat_map]; [reflexivity|].
  rewrite Hc, IH. reflexivity.
Qed.

Lemma textContent_enhance (n : node) : textContent (enhance n) = textContent n.
Proof.
  induction n as [d|d|t pr cs IH] using node_ind'; [reflexivity | reflexivity |].
  cbn [enhance].
  destruct (matches (ByTag "pre") (Element t pr cs) && eligible (Element t pr cs));
    cbn [textContent].
  - rewrite flat_map_app, (flat_map_enhance _ _ IH). cbn. apply app_nil_r.
  - apply (flat_map_enhance _ _ IH).
Qed.

Lemma assoc_set_keeps (key name v : string) (l : list (string * string)) :
  assoc key l <> None -> assoc key (assoc_set name v l) <> None.
Proof.
  induction l as [|[k w] l IH]; cbn [assoc assoc_set]; [congruence|].
  destruct (String.eqb k name); cbn [assoc];
    destruct (String.eqb k key); try discriminate; auto.
Qed.

Lemma assoc_set_other (key name v : string) (l : list (string * string)) :
  key <> name -> assoc key (assoc_set name v l) = assoc key l.
Proof.
  intros Hne. induction l as [|[k w] l IH]; cbn [assoc assoc_set].
  - destruct (String.eqb_spec name key); [congruence | reflexivity].
  - destruct (String.eqb_spec k name) as [->|Hk]; cbn [assoc].
    + destruct (String.eqb_spec name key); [congruence | reflexivity].
    + destruct (String.eqb k key); [reflexivity | exact IH].
Qed.

(** The scan writes the [style] attribute of the block and no other. *)
Lemma matches_positioned (sel : selector) t pr cs cs' :
  sel <> ByAttribute "style" ->
  matches sel (Element t (positioned pr) cs') = matches sel (Element t pr cs).
Proof.
  intros Hsel. destruct sel as [name|name|id]; cbn [matches positioned attributes].
  - reflexivity.
  - rewrite assoc_set_other; [reflexivity|]. intros ->. apply Hsel. reflexivity.
  - rewrite assoc_set_other by discriminate. reflexivity.
Qed.

Lemma matches_positioned_mono (sel : selector) t pr cs cs' :
  matches sel (Element t pr cs) = true ->
  matches sel (Element t (positioned pr) cs') = true.
Proof.
  destruct sel as [name|name|id]; cbn [matches positioned attributes].
  - tauto.
  - pose proof (assoc_set_keeps name "style"
                  (setProperty (default "" (assoc "style" (attributes pr)))
                               "position" "relative") (attributes pr)) as Hk.
    destruct (assoc name (attributes pr)); [|discriminate]. intros _.
    destruct (assoc name (assoc_set _ _ _));
      [reflexivity | exfalso; apply Hk; [discriminate | reflexivity]].
  - rewrite assoc_set_other by discriminate. tauto.
Qed.

Lemma matches_enhance (sel : selector) (n : node) :
  sel <> ByAttribute "style" ->
  matches sel (enhance n) = matches sel n.
Proof.
  intros Hsel. destruct n as [d|d|t pr cs]; [reflexivity | reflexivity |].
  cbn [enhance].
  destruct (matches (ByTag "pre") (Element t pr cs) && eligible (Element t pr cs));
    [apply matches_positioned; exact Hsel | reflexivity].
Qed.

Lemma matches_enhance_mono (sel : selector) (n : node) :
  matches sel n = true -> matches sel (enhance n) = true.
Proof.
  destruct n as [d|d|t pr cs]; [tauto | tauto |].
  cbn [enhance].
  destruct (matches (ByTag "pre") (Element t pr cs) && eligible (Element t pr cs));
    [apply matches_positioned_mono | tauto].
Qed.

Lemma has_root_enhance (n : node) : has_root (enhance n) = has_root n.
Proof.
  destruct n as [d|d|t pr cs]; [reflexivity | reflexivity |].
  cbn [enhance].
  destruct (matches (ByTag "pre") (Element t pr cs) && eligible (Element t pr cs));
    reflexivity.
Qed.

(** ** Selecting nothing *)

Lemma select_list_nil (P : node -> bool) (cs : list node) (i : nat) :
  Forall (fun c => select P c = [] <-> has P c = false) cs ->
  select_list P i cs = [] <-> existsb (has P) cs = false.
Proof.
  intros HF. revert i.
  induction HF as [|c cs Hc _ IH]; intros i; cbn [select_list existsb]; [tauto|].
  rewrite orb_false_iff, <- Hc, <- (IH (S i)). split.
  - intros H. apply app_eq_nil in H as [H1 H2]. split; [|exact H2].
    destruct (select P c); [reflexivity | discriminate].
  - intros [-> ->]. reflexivity.
Qed.

Lemma select_nil (P : node -> bool) (n : node) :
  select P n = [] <-> has P n = false.
Proof.
  induction n as [d|d|t pr cs IH] using node_ind'.
  - cbn [select has]. destruct (P (Text d)); cbn; split; intros H;
      solve [reflexivity | discriminate H].
  - cbn [select has]. destruct (P (Comment d)); cbn; split; intros H;
      solve [reflexivity | discriminate H].
  - rewrite select_Element. cbn [has]. rewrite orb_false_iff.
    rewrite <- (select_list_nil P cs 0 IH).
    destruct (P (Element t pr cs)); cbn [app]; split.
    + discriminate.
    + intros [H _]. discriminate.
    + intros H. split; [reflexivity | exact H].
    + intros [_ H]. exact H.
Qed.

Lemma select_list_nil' (P : node -> bool) (cs : list node) (i : nat) :
  select_list P i cs = [] <-> existsb (has P) cs = false.
Proof.
  apply select_list_nil. apply Forall_forall. intros c _. apply select_nil.
Qed.

Lemma eligible_Element t pr cs :
  eligible (Element t pr cs)
  = negb (existsb (has (matches (ByAttribute "data-copy-btn"))) cs)
    && negb (is_empty (trim (textContent (Element t pr cs)))).
Proof.
  unfold eligible, querySelector.
  pose proof (select_list_nil' (matches (ByAttribute "data-copy-btn")) cs 0) as H.
  destruct (select_list (matches (ByAttribute "data-copy-btn")) 0 cs) as [|q qs];
    cbn [head].
  - rewrite (proj1 H eq_refl). reflexivity.
  - destruct (existsb (has (matches (ByAttribute "data-copy-btn"))) cs);
      [reflexivity|]. destruct H as [_ H]. discriminate (H eq_refl).
Qed.

Lemma has_enhance (sel : selector) (n : node) :
  has (matches sel) n = true -> has (matches sel) (enhance n) = true.
Proof.
  induction n as [d|d|t pr cs IH] using node_ind'; [tauto | tauto |].
  assert (Hcs : existsb (has (matches sel)) cs = true ->
                existsb (has (matches sel)) (map enhance cs) = true).
  { clear t pr. induction IH as [|c cs Hc _ IHcs]; cbn [map existsb]; [tauto|].
    rewrite !orb_true_iff. tauto. }
  intros H. pose proof (matches_enhance_mono sel (Element t pr cs)) as Hm.
  cbn [has] in H. apply orb_true_iff in H.
  cbn [enhance] in *.
  destruct (matches (ByTag "pre") (Element t pr cs) && eligible (Element t pr cs));
    cbn [has]; apply orb_true_iff;
    (destruct H as [H|H]; [left; exact (Hm H) | right]).
  - rewrite existsb_app. apply orb_true_iff. left. exact (Hcs H).
  - exact (Hcs H).
Qed.

Lemma existsb_has_enhance (sel : selector) (cs : list node) :
  existsb (has (matches sel)) cs = true ->
  existsb (has (matches sel)) (map enhance cs) = true.
Proof.
  induction cs as [|c cs IH]; cbn [map existsb]; [tauto|].
  rewrite !orb_true_iff. intros [H|H]; [left; apply has_enhance; exact H | right; auto].
Qed.

(** ** A second scan changes nothing *)

Lemma enhance_idempotent (n : node) : enhance (enhance n) = enhance n.
Proof.
  induction n as [d|d|t pr cs IH] using node_ind'; [reflexivity | reflexivity |].
  assert (Hmap : map enhance (map enhance cs) = map enhance cs).
  { clear t pr. induction IH as [|c cs Hc _ IHcs]; cbn [map]; [reflexivity|].
    rewrite Hc, IHcs. reflexivity. }
  cbn [enhance].
  destruct (matches (ByTag "pre") (Element t pr cs) && eligible (Element t pr cs)) eqn:Hb.
  - cbn [enhance]. rewrite eligible_Element, existsb_app.
    cbn [existsb has matches mounted_wrapper attributes assoc String.eqb Ascii.eqb Bool.eqb].
    rewrite !orb_true_r. cbn [negb andb]. rewrite andb_false_r.
    rewrite map_app, Hmap. reflexivity.
  - cbn [enhance].
    replace (matches (ByTag "pre") (Element t pr (map enhance cs))
             && eligible (Element t pr (map enhance cs))) with false;
      [rewrite Hmap; reflexivity|].
    symmetry. apply andb_false_iff. apply andb_false_iff in Hb as [Hb|Hb];
      [left; exact Hb | right].
    rewrite eligible_Element in *.
    replace (textContent (Element t pr (map enhance cs)))
      with (textContent (Element t pr cs)).
    + apply andb_false_iff in Hb as [Hb|Hb]; apply andb_false_iff; [left | right; exact Hb].
      apply negb_false_iff in Hb. apply negb_false_iff.
      apply existsb_has_enhance. exact Hb.
    + cbn [textContent]. symmetry. apply flat_map_enhance.
      apply Forall_forall. intros c _. apply textContent_enhance.
Qed.


Lemma iter_inject_document (k : nat) (pg : page) :
  document (Nat.iter k injectCopyButtonsIntoCodeBlocks pg)
  = Nat.iter k enhance (document pg).
Proof.
  induction k as [|k IH]; [reflexivity|].
  rewrite Nat.iter_succ, inject_document, IH. reflexivity.
Qed.

Lemma iter_enhance (k : nat) (n : node) : Nat.iter (S k) enhance n = enhance n.
Proof.
  induction k as [|k IH]; [reflexivity|].
  rewrite Nat.iter_succ, IH. apply enhance_idempotent.
Qed.

(** ** Looking up a node after the scan *)

Lemma lookup_map (f : node -> node) (l : list node) (i : nat) :
  map f l !! i = f <$> l !! i.
Proof.
  revert i. induction l as [|x l IH]; intros [|i]; cbn; try reflexivity. apply IH.
Qed.

Lemma node_at_enhance (p : path) (n x : node) :
  node_at p n = Some x -> node_at p (enhance n) = Some (enhance x).
Proof.
  revert n. induction p as [|i q IH]; intros n H; cbn [node_at] in *.
  - injection H as ->. reflexivity.
  - destruct n as [d|d|t pr cs]; try discriminate.
    destruct (cs !! i) as [c|] eqn:Hi; [|discriminate].
    assert (Hc : map enhance cs !! i = Some (enhance c))
      by (rewrite lookup_map, Hi; reflexivity).
    cbn [enhance].
    destruct (matches (ByTag "pre") (Element t pr cs) && eligible (Element t pr cs)).
    + rewrite (lookup_app_l_Some _ _ _ _ Hc). apply IH. exact H.
    + rewrite Hc. apply IH. exact H.
Qed.

Lemma filter_has_root_enhance (cs : list node) :
  length (List.filter has_root (map enhance cs)) = length (List.filter has_root cs).
Proof.
  induction cs as [|c cs IH]; cbn [map List.filter]; [reflexivity|].
  rewrite has_root_enhance. destruct (has_root c); cbn [length]; rewrite IH; reflexivity.
Qed.

Lemma mounted_controls_enhance (n : node) :
  mounted_controls (enhance n)
  = mounted_controls n
    + (if matches (ByTag "pre") n && eligible n then 1 else 0).
Proof.
  destruct n as [d|d|t pr cs]; [reflexivity | reflexivity |].
  cbn [enhance].
  destruct (matches (ByTag "pre") (Element t pr cs) && eligible (Element t pr cs));
    cbn [mounted_controls].
  - rewrite List.filter_app, length_app, filter_has_root_enhance. reflexivity.
  - rewrite filter_has_root_enhance. lia.
Qed.

(** ** Blank text *)

Lemma trimStart_nil (t : text) :
  trimStart t = [] <-> forallb is_whitespace t = true.
Proof.
  induction t as [|c t IH]; cbn [trimStart forallb]; [tauto|].
  destruct (is_whitespace c); cbn [andb]; [exact IH|]. split; discriminate.
Qed.

Lemma trimStart_head (t : text) (c : N) (r : text) :
  trimStart t = c :: r -> is_whitespace c = false.
Proof.
  induction t as [|x t IH]; cbn [trimStart]; [discriminate|].
  destruct (is_whitespace x) eqn:Hx; [exact IH|].
  intros H. injection H as -> _. exact Hx.
Qed.

Lemma trim_blank (t : text) :
  is_empty (trim t) = true <-> forallb is_whitespace t = true.
Proof.
  unfold trim, trimEnd. split.
  - intros H. apply trimStart_nil.
    destruct (trimStart t) as [|c r] eqn:Ht; [reflexivity|].
    exfalso. pose proof (trimStart_head t c r Ht) as Hc.
    destruct (trimStart (rev (c :: r))) as [|y ys] eqn:Hr.
    + apply trimStart_nil in Hr. rewrite forallb_forall in Hr.
      rewrite (Hr c) in Hc; [discriminate|]. apply in_rev. rewrite rev_involutive.
      left. reflexivity.
    + cbn [rev] in H. destruct (rev ys); discriminate.
  - intros H. apply trimStart_nil in H. rewrite H. reflexivity.
Qed.

Lemma blank_children (cs : list node) :
  forallb is_whitespace (flat_map textContent cs) = true ->
  Forall (fun c => forallb is_whitespace (textContent c) = true) cs.
Proof.
  induction cs as [|c cs IH]; cbn [flat_map]; intros H; constructor.
  - rewrite forallb_app in H. apply andb_true_iff in H. tauto.
  - apply IH. rewrite forallb_app in H. apply andb_true_iff in H. tauto.
Qed.

Lemma enhance_blank (n : node) :
  forallb is_whitespace (textContent n) = true -> enhance n = n.
Proof.
  induction n as [d|d|t pr cs IH] using node_ind'; [reflexivity | reflexivity |].
  intros H. cbn [enhance]. rewrite eligible_Element.
  rewrite (proj2 (trim_blank _) H). cbn [negb]. rewrite !andb_false_r.
  f_equal. cbn [textContent] in H. apply blank_children in H.
  clear t pr. induction IH as [|c cs Hc _ IHcs]; [reflexivity|].
  inversion H; subst. cbn [map]. rewrite Hc by assumption. f_equal. auto.
Qed.


(** ** Registrations and roots under the operations of the page *)

Lemma markup_ind' (P : markup -> Prop) :
  (forall d, P (MText d)) ->
  (forall d, P (MComment d)) ->
  (forall t a cs, Forall P cs -> P (MElement t a cs)) ->
  forall m, P m.
Proof.
  intros HT HC HE.
  refine (fix IH (m : markup) : P m :=
            match m with
            | MText d => HT d
            | MComment d => HC d
            | MElement t a cs =>
                HE t a cs
                   ((fix go (l : list markup) : Forall P l :=
                       match l with
                       | [] => @List.Forall_nil markup P
                       | c :: l' => @List.Forall_cons markup P c l' (IH c) (go l')
                       end) cs)
            end).
Qed.

Lemma markup_unregistered (m : markup) : has_registration (node_of_markup m) = false.
Proof.
  induction m as [d|d|t a cs IH] using markup_ind'; [reflexivity | reflexivity |].
  cbn [node_of_markup has_registration registered orb].
  induction IH as [|c cs Hc _ IHcs]; cbn [map existsb]; [reflexivity|].
  rewrite Hc, IHcs. reflexivity.
Qed.

Lemma list_sum_cons (x : nat) (l : list nat) : list_sum (x :: l) = x + list_sum l.
Proof. reflexivity. Qed.

Lemma count_roots_Element t pr cs :
  count_roots (Element t pr cs)
  = (if has_root (Element t pr cs) then 1 else 0) + list_sum (map count_roots cs).
Proof. reflexivity. Qed.

Lemma markup_rootless (m : markup) : count_roots (node_of_markup m) = 0.
Proof.
  induction m as [d|d|t a cs IH] using markup_ind'; [reflexivity | reflexivity |].
  cbn [node_of_markup count_roots has_root reactRoot].
  induction IH as [|c cs Hc _ IHcs]; cbn [map]; [reflexivity|].
  rewrite list_sum_cons, Hc. exact IHcs.
Qed.

Lemma unregister_unregistered (n : node) : has_registration (unregister n) = false.
Proof.
  induction n as [d|d|t pr cs IH] using node_ind'; [reflexivity | reflexivity |].
  cbn [unregister has_registration registered orb].
  induction IH as [|c cs Hc _ IHcs]; cbn [map existsb]; [reflexivity|].
  rewrite Hc, IHcs. reflexivity.
Qed.

Lemma unregister_count_roots (n : node) : count_roots (unregister n) = count_roots n.
Proof.
  induction n as [d|d|t pr cs IH] using node_ind'; [reflexivity | reflexivity |].
  assert (Hs : list_sum (map count_roots (map unregister cs))
               = list_sum (map count_roots cs)).
  { clear t pr. induction IH as [|c cs Hc _ IHcs]; cbn [map]; [reflexivity|].
    rewrite !list_sum_cons, Hc, IHcs. reflexivity. }
  cbn [unregister count_roots has_root reactRoot]. rewrite Hs. reflexivity.
Qed.

Lemma existsb_lookup (g : node -> bool) (cs : list node) (i : nat) (c : node) :
  existsb g cs = false -> cs !! i = Some c -> g c = false.
Proof.
  revert i. induction cs as [|x cs IH]; intros [|i] H Hi; try discriminate;
    cbn [existsb] in H; apply orb_false_iff in H as [Hx Hcs].
  - injection Hi as <-. exact Hx.
  - exact (IH i Hcs Hi).
Qed.

Lemma existsb_alter (g : node -> bool) (f : node -> node) (cs : list node) (i : nat) :
  existsb g cs = false ->
  (forall c, cs !! i = Some c -> g (f c) = false) ->
  existsb g (alter f i cs) = false.
Proof.
  revert i. induction cs as [|x cs IH]; intros [|i] H Hf; try reflexivity;
    cbn [existsb] in H; apply orb_false_iff in H as [Hx Hcs]; cbn.
  - rewrite (Hf x eq_refl), Hcs. reflexivity.
  - rewrite Hx. cbn [orb]. apply IH; [exact Hcs|]. intros c Hc. apply Hf. exact Hc.
Qed.

Lemma unregistered_observes (p : path) (n : node) :
  has_registration n = false -> observes p n = false.
Proof.
  revert n. induction p as [|i q IH]; intros [d|d|t pr cs] H; try reflexivity;
    cbn [has_registration] in H; apply orb_false_iff in H as [Hr Hcs];
    cbn [observes]; rewrite Hr; cbn [orb]; [reflexivity|].
  destruct (cs !! i) as [c|] eqn:Hi; [|reflexivity].
  apply IH. exact (existsb_lookup _ cs i c Hcs Hi).
Qed.

Lemma unregistered_node_at (p : path) (n x : node) :
  has_registration n = false -> node_at p n = Some x -> has_registration x = false.
Proof.
  revert n. induction p as [|i q IH]; intros n H Hx; cbn [node_at] in Hx.
  - injection Hx as <-. exact H.
  - destruct n as [d|d|t pr cs]; try discriminate.
    destruct (cs !! i) as [c|] eqn:Hi; [|discriminate].
    cbn [has_registration] in H. apply orb_false_iff in H as [_ Hcs].
    exact (IH c (existsb_lookup _ cs i c Hcs Hi) Hx).
Qed.

Lemma unregistered_update_at (p : path) (f : node -> node) (n : node) :
  has_registration n = false ->
  (forall x, node_at p n = Some x -> has_registration (f x) = false) ->
  has_registration (update_at p f n) = false.
Proof.
  revert n. induction p as [|i q IH]; intros n H Hf; cbn [update_at].
  - apply Hf. reflexivity.
  - destruct n as [d|d|t pr cs]; try exact H.
    cbn [has_registration] in *. apply orb_false_iff in H as [Hr Hcs].
    rewrite Hr. cbn [orb]. apply existsb_alter; [exact Hcs|].
    intros c Hc. apply IH; [exact (existsb_lookup _ cs i c Hcs Hc)|].
    intros x Hx. apply Hf. cbn [node_at]. rewrite Hc. exact Hx.
Qed.

Lemma list_sum_alter_le (g : node -> nat) (f : node -> node) (cs : list node) (i : nat) :
  (forall c, cs !! i = Some c -> g (f c) <= g c) ->
  list_sum (map g (alter f i cs)) <= list_sum (map g cs).
Proof.
  revert i. induction cs as [|x cs IH]; intros [|i] Hf; try reflexivity.
  - change (alter f 0 (x :: cs)) with (f x :: cs). cbn [map].
    rewrite !list_sum_cons. pose proof (Hf x eq_refl). lia.
  - change (alter f (S i) (x :: cs)) with (x :: alter f i cs). cbn [map].
    rewrite !list_sum_cons. pose proof (IH i Hf). lia.
Qed.

Lemma count_roots_update_at (p : path) (f : node -> node) (n : node) :
  (forall x, node_at p n = Some x -> count_roots (f x) <= count_roots x) ->
  count_roots (update_at p f n) <= count_roots n.
Proof.
  revert n. induction p as [|i q IH]; intros n Hf; cbn [update_at].
  - apply Hf. reflexivity.
  - destruct n as [d|d|t pr cs]; try lia.
    rewrite !count_roots_Element. cbn [has_root]. apply Nat.add_le_mono_l.
    apply list_sum_alter_le. intros c Hc. apply IH.
    intros x Hx. apply Hf. cbn [node_at]. rewrite Hc. exact Hx.
Qed.

Lemma existsb_delete (g : node -> bool) (cs : list node) (i : nat) :
  existsb g cs = false -> existsb g (delete i cs) = false.
Proof.
  revert i. induction cs as [|x cs IH]; intros [|i] H; try reflexivity;
    cbn [existsb] in H; apply orb_false_iff in H as [Hx Hcs]; cbn.
  - exact Hcs.
  - rewrite Hx. cbn [orb]. apply IH. exact Hcs.
Qed.

Lemma list_sum_delete_le (g : node -> nat) (cs : list node) (i : nat) :
  list_sum (map g (delete i cs)) <= list_sum (map g cs).
Proof.
  revert i. induction cs as [|x cs IH]; intros [|i]; try reflexivity.
  - change (delete 0 (x :: cs)) with cs. cbn [map]. rewrite list_sum_cons. lia.
  - change (delete (S i) (x :: cs)) with (x :: delete i cs). cbn [map].
    rewrite !list_sum_cons. pose proof (IH i). lia.
Qed.

Lemma existsb_markup (ms : list markup) :
  existsb has_registration (map node_of_markup ms) = false.
Proof.
  induction ms as [|m ms IH]; cbn [map existsb]; [reflexivity|].
  rewrite markup_unregistered, IH. reflexivity.
Qed.

Lemma list_sum_markup (ms : list markup) :
  list_sum (map count_roots (map node_of_markup ms)) = 0.
Proof.
  induction ms as [|m ms IH]; cbn [map]; [reflexivity|].
  rewrite list_sum_cons, markup_rootless. exact IH.
Qed.

(** What other code puts into the page carries no observer and no root. *)
Lemma change_unregistered (m : mutation) (n n' : node) :
  has_registration n = false -> change m n = Some n' -> has_registration n' = false.
Proof.
  intros H Hc. destruct n as [d|d|t pr cs]; try discriminate.
  cbn [has_registration] in H. apply orb_false_iff in H as [Hr Hcs].
  destruct m as [p c|p i|p ms|p name v]; cbn [change] in Hc.
  - injection Hc as <-. cbn [has_registration]. rewrite Hr, existsb_app, Hcs.
    cbn [existsb orb]. rewrite markup_unregistered. reflexivity.
  - destruct (decide (i < length cs)); [|discriminate]. injection Hc as <-.
    cbn [has_registration]. rewrite Hr, (existsb_delete _ cs i Hcs). reflexivity.
  - injection Hc as <-. cbn [has_registration]. rewrite Hr, existsb_markup. reflexivity.
  - injection Hc as <-. cbn [setAttribute has_registration registered].
    rewrite Hr, Hcs. reflexivity.
Qed.

Lemma change_count_roots (m : mutation) (n n' : node) :
  change m n = Some n' -> count_roots n' <= count_roots n.
Proof.
  intros Hc. destruct n as [d|d|t pr cs]; try discriminate.
  destruct m as [p c|p i|p ms|p name v]; cbn [change] in Hc.
  - injection Hc as <-. rewrite !count_roots_Element, map_app, list_sum_app.
    cbn [map]. rewrite list_sum_cons, markup_rootless. cbn [has_root].
    change (list_sum []) with 0. lia.
  - destruct (decide (i < length cs)); [|discriminate]. injection Hc as <-.
    rewrite !count_roots_Element. cbn [has_root].
    pose proof (list_sum_delete_le count_roots cs i). lia.
  - injection Hc as <-. rewrite !count_roots_Element, list_sum_markup.
    cbn [has_root]. lia.
  - injection Hc as <-. cbn [setAttribute]. rewrite !count_roots_Element.
    cbn [has_root reactRoot]. lia.
Qed.

(** Neither does what React commits for a control. *)
Lemma commit_root_unregistered (rendered : list markup) (n n' : node) :
  has_registration n = false -> commit_root rendered n = Some n' ->
  has_registration n' = false.
Proof.
  intros H Hc. destruct n as [d|d|t pr cs]; try discriminate.
  cbn [has_registration] in H. apply orb_false_iff in H as [Hr _].
  cbn [commit_root] in Hc. destruct (reactRoot pr) as [[v|v]|]; try discriminate.
  injection Hc as <-. cbn [has_registration registered].
  rewrite Hr, existsb_markup. reflexivity.
Qed.

Lemma commit_root_count_roots (rendered : list markup) (n n' : node) :
  commit_root rendered n = Some n' -> count_roots n' <= count_roots n.
Proof.
  intros Hc. destruct n as [d|d|t pr cs]; try discriminate.
  cbn [commit_root] in Hc. destruct (reactRoot pr) as [[v|v]|] eqn:Hroot; try discriminate.
  injection Hc as <-. rewrite !count_roots_Element, list_sum_markup.
  cbn [has_root reactRoot]. rewrite Hroot. lia.
Qed.

(** Once no observer is connected, nothing the page does calls the scan. *)
Lemma quiet_step (pg : page) (e : event) :
  quiet pg ->
  quiet (step pg e)
  /\ scans (step pg e) = scans pg
  /\ count_roots (document (step pg e)) <= count_roots (document pg).
Proof.
  intros [Hrec Hreg]. destruct e as [m| |container rendered]; cbn [step].
  - unfold mutate.
    destruct (node_at (target_of m) (document pg)) as [n|] eqn:Hn;
      [|repeat split; [exact Hrec | exact Hreg | lia]].
    destruct (change m n) as [n'|] eqn:Hc;
      [|repeat split; [exact Hrec | exact Hreg | lia]].
    pose proof (unregistered_node_at _ _ _ Hreg Hn) as Hnreg.
    repeat split; cbn [records document scans].
    + rewrite Hrec, (unregistered_observes _ _ Hreg), andb_false_r. reflexivity.
    + apply unregistered_update_at; [exact Hreg|].
      intros x _. exact (change_unregistered m n n' Hnreg Hc).
    + apply count_roots_update_at. intros x Hx.
      rewrite Hn in Hx. injection Hx as <-. exact (change_count_roots m n n' Hc).
  - unfold notify. rewrite Hrec. repeat split; [exact Hrec | exact Hreg | lia].
  - unfold commit.
    destruct (node_at container (document pg)) as [n|] eqn:Hn;
      [|repeat split; [exact Hrec | exact Hreg | lia]].
    destruct (commit_root rendered n) as [n'|] eqn:Hc;
      [|repeat split; [exact Hrec | exact Hreg | lia]].
    pose proof (unregistered_node_at _ _ _ Hreg Hn) as Hnreg.
    repeat split; cbn [records document scans].
    + rewrite Hrec, (unregistered_observes _ _ Hreg), andb_false_r. reflexivity.
    + apply unregistered_update_at; [exact Hreg|].
      intros x _. exact (commit_root_unregistered rendered n n' Hnreg Hc).
    + apply count_roots_update_at. intros x Hx.
      rewrite Hn in Hx. injection Hx as <-. exact (commit_root_count_roots rendered n n' Hc).
Qed.

Lemma quiet_run (es : list event) (pg : page) :
  quiet pg ->
  quiet (run es pg)
  /\ scans (run es pg) = scans pg
  /\ count_roots (document (run es pg)) <= count_roots (document pg).
Proof.
  revert pg. induction es as [|e es IH]; intros pg Hq; cbn [run fold_left].
  - repeat split; [apply Hq | apply Hq | lia].
  - destruct (quiet_step pg e Hq) as (Hq' & Hs & Hc).
    destruct (IH (step pg e) Hq') as (Hq'' & Hs' & Hc').
    unfold run in *. repeat split; [apply Hq'' | apply Hq'' | lia | lia].
Qed.

Lemma disconnect_quiet (pg : page) : quiet (disconnect pg).
Proof. split; [reflexivity | apply unregister_unregistered]. Qed.

(** The effect returns a cleanup exactly when it found the container, and
    the cleanup is [disconnect]. *)
Lemma effect_cleanup (pg pg1 : page) (cleanup : page -> page) :
  CopyButtonsInjector pg = (pg1, Some cleanup) -> forall pg', cleanup pg' = disconnect pg'.
Proof.
  unfold CopyButtonsInjector. destruct (getElementById "post-content" (document pg)); intros H.
  - injection H as _ <-. reflexivity.
  - discriminate.
Qed.

(** ** Absent nodes *)

Lemma has_witness (P : node -> bool) (n : node) :
  has P n = true -> exists q x, node_at q n = Some x /\ P x = true.
Proof.
  induction n as [d|d|t pr cs IH] using node_ind'; cbn [has]; intros H.
  - exists [], (Text d). rewrite orb_false_r in H. split; [reflexivity | exact H].
  - exists [], (Comment d). rewrite orb_false_r in H. split; [reflexivity | exact H].
  - apply orb_true_iff in H as [H|H].
    + exists [], (Element t pr cs). split; [reflexivity | exact H].
    + apply existsb_exists in H as (c & Hin & Hc).
      rewrite Forall_forall in IH.
      destruct (IH c (proj2 (list_elem_of_In _ _) Hin) Hc) as (q & x & Hq & Hx).
      apply list_elem_of_In, list_elem_of_lookup in Hin as [i Hi].
      exists (i :: q), x. split; [|exact Hx]. cbn [node_at]. rewrite Hi. exact Hq.
Qed.


Lemma has_node_at (P : node -> bool) (p : path) (n x : node) :
  node_at p n = Some x -> P x = true -> has P n = true.
Proof.
  revert n. induction p as [|i q IH]; intros n Hx HP; cbn [node_at] in Hx.
  - injection Hx as ->. destruct x; cbn [has]; rewrite HP; reflexivity.
  - destruct n as [d|d|t pr cs]; try discriminate.
    destruct (cs !! i) as [c|] eqn:Hi; [|discriminate].
    cbn [has]. apply orb_true_iff. right. apply existsb_exists.
    exists c. split; [|exact (IH c Hx HP)].
    apply list_elem_of_In, list_elem_of_lookup. exists i. exact Hi.
Qed.

Lemma has_false_absent (P : node -> bool) (n : node) :
  has P n = false ->
  forall (q : path) (x : node), node_at q n = Some x -> P x = false.
Proof.
  intros H q x Hq. destruct (P x) eqn:HP; [|reflexivity].
  rewrite (has_node_at P q n x Hq HP) in H. discriminate.
Qed.

(** ** At most one control in a code block, at any time *)

Lemma tidy_Element t pr cs :
  tidy (Element t pr cs)
  = implb (has_root (Element t pr cs))
          (matches (ByAttribute "data-copy-btn") (Element t pr cs))
    && implb (matches (ByTag "pre") (Element t pr cs))
             (mounted_controls (Element t pr cs) <=? 1)%nat
    && forallb tidy cs.
Proof. reflexivity. Qed.

Lemma tidy_parts t pr cs :
  tidy (Element t pr cs) = true ->
  implb (has_root (Element t pr cs))
        (matches (ByAttribute "data-copy-btn") (Element t pr cs)) = true
  /\ implb (matches (ByTag "pre") (Element t pr cs))
           (mounted_controls (Element t pr cs) <=? 1)%nat = true
  /\ forallb tidy cs = true.
Proof.
  rewrite tidy_Element, !andb_true_iff. tauto.
Qed.

Lemma filter_has_root_markup (ms : list markup) :
  List.filter has_root (map node_of_markup ms) = [].
Proof.
  induction ms as [|m ms IH]; cbn [map List.filter]; [reflexivity|].
  destruct m; exact IH.
Qed.



(** Children without a marker below them hold no root, when roots sit on
    marked elements only. *)
Lemma unmarked_children_rootless (cs : list node) :
  forallb tidy cs = true ->
  existsb (has (matches (ByAttribute "data-copy-btn"))) cs = false ->
  List.filter has_root cs = [].
Proof.
  induction cs as [|c cs IH]; cbn [forallb existsb List.filter]; [reflexivity|].
  intros Ht Hm. apply andb_true_iff in Ht as [Hc Hcs].
  apply orb_false_iff in Hm as [Hmc Hmcs].
  assert (Hroot : has_root c = false).
  { destruct c as [d|d|t pr cs']; [reflexivity | reflexivity |].
    apply tidy_parts in Hc as (Ha & _ & _).
    cbn [has] in Hmc. apply orb_false_iff in Hmc as [Hmc _].
    rewrite Hmc in Ha. destruct (has_root (Element t pr cs')); [discriminate | reflexivity]. }
  rewrite Hroot. exact (IH Hcs Hmcs).
Qed.


Lemma tidy_node_at (p : path) (n x : node) :
  tidy n = true -> node_at p n = Some x -> tidy x = true.
Proof.
  revert n. induction p as [|i q IH]; intros n Ht Hx; cbn [node_at] in Hx.
  - injection Hx as <-. exact Ht.
  - destruct n as [d|d|t pr cs]; try discriminate.
    destruct (cs !! i) as [c|] eqn:Hi; [|discriminate].
    apply tidy_parts in Ht as (_ & _ & Hc). rewrite forallb_forall in Hc.
    apply (IH c); [|exact Hx]. apply Hc.
    apply list_elem_of_In, list_elem_of_lookup. exists i. exact Hi.
Qed.


Lemma filter_has_root_alter (f : node -> node) (cs : list node) (i : nat) :
  (forall c, cs !! i = Some c -> has_root (f c) = has_root c) ->
  length (List.filter has_root (alter f i cs)) = length (List.filter has_root cs).
Proof.
  revert i. induction cs as [|x cs IH]; intros [|i] Hf; try reflexivity.
  - change (alter f 0 (x :: cs)) with (f x :: cs). cbn [List.filter].
    rewrite (Hf x eq_refl). destruct (has_root x); reflexivity.
  - change (alter f (S i) (x :: cs)) with (x :: alter f i cs). cbn [List.filter].
    pose proof (IH i Hf) as H. destruct (has_root x); cbn [length]; rewrite H; reflexivity.
Qed.















(** ** The claims *)

(** C4. However often the scan runs, it mounts at most one wrapper into a
    code block: after one scan or more the block holds one control more
    than before if it was eligible and as many as before otherwise, and
    every scan after the first leaves the document as it is. On a tidy
    page the block then holds at most one control, and exactly one if it
    was eligible. *)
Theorem scan_mounts_at_most_once (pg : page) (p : path) (pre : node) (k : nat) :
  node_at p (document pg) = Some pre ->
  matches (ByTag "pre") pre = true ->
  document (Nat.iter (S k) injectCopyButtonsIntoCodeBlocks pg)
  = document (injectCopyButtonsIntoCodeBlocks pg)
  /\ exists pre' : node,
       node_at p (document (Nat.iter (S k) injectCopyButtonsIntoCodeBlocks pg)) = Some pre'
       /\ matches (ByTag "pre") pre' = true
       /\ mounted_controls pre' = mounted_controls pre + (if eligible pre then 1 else 0)
       /\ mounted_controls pre' <= mounted_controls pre + 1
       /\ (tidy (document pg) = true ->
           mounted_controls pre' <= 1
           /\ (eligible pre = true -> mounted_controls pre' = 1)).
Proof.
  intros Hp Hm.
  rewrite iter_inject_document, iter_enhance, inject_document.
  split; [reflexivity|]. exists (enhance pre).
  split; [exact (node_at_enhance p _ pre Hp)|].
  split; [rewrite matches_enhance by discriminate; exact Hm|].
  rewrite mounted_controls_enhance, Hm. cbn [andb].
  split; [reflexivity|]. split; [destruct (eligible pre); lia|].
  intros Ht. pose proof (tidy_node_at p _ pre Ht Hp) as Hpre.
  destruct pre as [d|d|t pr cs]; [discriminate | discriminate |].
  pose proof (tidy_parts t pr cs Hpre) as (_ & Hb & Hcs).
  rewrite Hm in Hb. cbn [implb] in Hb. apply Nat.leb_le in Hb.
  destruct (eligible (Element t pr cs)) eqn:He.
  - rewrite eligible_Element in He. apply andb_true_iff in He as [He _].
    apply negb_true_iff in He. cbn [mounted_controls].
    rewrite (unmarked_children_rootless cs Hcs He). cbn [length]. split; [lia | reflexivity].
  - split; [lia | discriminate].
Qed.

(** C5 (as amended). Whenever the cleanup of the effect runs, it
    disconnects the observer: no node keeps it registered and its record
    queue is empty. It unmounts nothing: the document is the one before,
    registrations aside, with as many React roots as before. *)
Theorem deactivation_only_disconnects
        (pg pg1 : page) (cleanup : page -> page) (during : list event) :
  CopyButtonsInjector pg = (pg1, Some cleanup) ->
  quiet (deactivate (Some cleanup) (run during pg1))
  /\ document (deactivate (Some cleanup) (run during pg1))
     = unregister (document (run during pg1))
  /\ count_roots (document (deactivate (Some cleanup) (run during pg1)))
     = count_roots (document (run during pg1))
  /\ scans (deactivate (Some cleanup) (run during pg1)) = scans (run during pg1).
Proof.
  intros He. cbn [deactivate]. rewrite (effect_cleanup pg pg1 cleanup He).
  split; [apply disconnect_quiet|]. split; [reflexivity|].
  split; [apply unregister_count_roots | reflexivity].
Qed.

(** C6. Once the cleanup of the effect has run, no mutation and no
    microtask calls the scan again, and none adds a React root to the
    document. *)
Theorem no_scan_after_deactivation
        (pg pg1 : page) (cleanup : page -> page)
        (during after : list event) (e : event) :
  CopyButtonsInjector pg = (pg1, Some cleanup) ->
  scans (step (run after (deactivate (Some cleanup) (run during pg1))) e)
  = scans (run during pg1)
  /\ count_roots
       (document (step (run after (deactivate (Some cleanup) (run during pg1))) e))
     <= count_roots
          (document (run after (deactivate (Some cleanup) (run during pg1))))
  /\ count_roots
       (document (run after (deactivate (Some cleanup) (run during pg1))))
     <= count_roots (document (run during pg1)).
Proof.
  intros He. cbn [deactivate]. rewrite (effect_cleanup pg pg1 cleanup He).
  destruct (quiet_run after (disconnect (run during pg1)) (disconnect_quiet _))
    as (Hq & Hs & Hc).
  destruct (quiet_step _ e Hq) as (_ & Hs' & Hc').
  split; [rewrite Hs', Hs; reflexivity|]. split; [exact Hc'|].
  cbn [disconnect document] in Hc. rewrite unregister_count_roots in Hc. exact Hc.
Qed.

(** C8. A code block whose text is empty or only whitespace is left as it
    is by the first scan and by every later one: no control is mounted
    into it. *)
Theorem blank_code_block_is_skipped (pg : page) (p : path) (pre : node) (k : nat) :
  node_at p (document pg) = Some pre ->
  matches (ByTag "pre") pre = true ->
  is_empty (trim (textContent pre)) = true ->
  node_at p (document (Nat.iter k injectCopyButtonsIntoCodeBlocks pg)) = Some pre.
Proof.
  intros Hp _ Hblank. rewrite iter_inject_document.
  induction k as [|k IH]; [exact Hp|].
  rewrite Nat.iter_succ, (node_at_enhance p _ pre IH).
  rewrite enhance_blank; [reflexivity|]. apply trim_blank. exact Hblank.
Qed.

(** C9. When no element of the document has the id [post-content], the
    effect returns without a cleanup and leaves the page as it is: no
    scan has run and no observer is registered. *)
Theorem absent_container_is_noop (pg : page) :
  (forall (q : path) (n : node),
      node_at q (document pg) = Some n -> matches (ById "post-content") n = false) ->
  CopyButtonsInjector pg = (pg, None).
Proof.
  intros Habsent. unfold CopyButtonsInjector, getElementById.
  assert (Hsel : select (matches (ById "post-content")) (document pg) = []).
  { apply select_nil.
    destruct (has (matches (ById "post-content")) (document pg)) eqn:Hh; [|reflexivity].
    destruct (has_witness _ _ Hh) as (q & x & Hq & Hx).
    rewrite (Habsent q x Hq) in Hx. discriminate. }
  rewrite Hsel. reflexivity.
Qed.

End Enhancer.

(** ** The claims at the sample page *)

#[local] Existing Instance Fixtures.sample_CSSOM.

(** While the observer is connected, a code block added to the container
    is enhanced by the next notification. *)
Example observed_mutation_triggers_scan :
  let pg1 := fst (CopyButtonsInjector (Fixtures.page_of Fixtures.sample_document)) in
  let pg2 := run [Mutation Fixtures.new_code_block; Microtask] pg1 in
  scans pg1 = 1 /\ count_roots (document pg1) = 3
  /\ scans pg2 = 2 /\ count_roots (document pg2) = 4.
Proof. vm_compute. repeat split. Qed.

Lemma scan_mounts_at_most_once_witness :
  let pg := Fixtures.page_of Fixtures.sample_document in
  let pre := Fixtures.el "pre" [] [Fixtures.el "code" [] [Text (text_of_string "let x")]] in
  node_at [0; 0; 0] (document pg) = Some pre
  /\ matches (ByTag "pre") pre = true
  /\ document (Nat.iter 2 injectCopyButtonsIntoCodeBlocks pg)
     = document (injectCopyButtonsIntoCodeBlocks pg).
Proof.
  split; [reflexivity|]. split; [reflexivity|].
  exact (proj1 (scan_mounts_at_most_once
                  (Fixtures.page_of Fixtures.sample_document) [0; 0; 0]
                  (Fixtures.el "pre" []
                     [Fixtures.el "code" [] [Text (text_of_string "let x")]])
                  1 eq_refl eq_refl)).
Defined.

(** The claim C5 as the specification states it fails on the sample page:
    the effect mounts three controls, and all three are still mounted
    after the cleanup has run. *)
Lemma deactivation_leaves_controls_mounted :
  exists (pg1 : page) (cleanup : page -> page),
    CopyButtonsInjector (Fixtures.page_of Fixtures.sample_document) = (pg1, Some cleanup)
    /\ count_roots (document (Fixtures.page_of Fixtures.sample_document)) = 0
    /\ count_roots (document pg1) = 3
    /\ count_roots (document (deactivate (Some cleanup) pg1)) = 3
    /\ has_registration (document (deactivate (Some cleanup) pg1)) = false.
Proof.
  eexists _, _. split; [reflexivity|]. vm_compute. repeat split.
Qed.

Lemma deactivation_only_disconnects_witness :
  let pg := Fixtures.page_of Fixtures.sample_document in
  let pg1 := run [Mutation Fixtures.new_code_block; Microtask]
                 (fst (CopyButtonsInjector pg)) in
  quiet (deactivate (Some disconnect) pg1)
  /\ document (deactivate (Some disconnect) pg1) = unregister (document pg1)
  /\ count_roots (document (deactivate (Some disconnect) pg1)) = count_roots (document pg1)
  /\ scans (deactivate (Some disconnect) pg1) = scans pg1.
Proof.
  apply (deactivation_only_disconnects
           (Fixtures.page_of Fixtures.sample_document)
           (fst (CopyButtonsInjector (Fixtures.page_of Fixtures.sample_document)))
           disconnect [Mutation Fixtures.new_code_block; Microtask]).
  reflexivity.
Defined.

Lemma no_scan_after_deactivation_witness :
  let pg := Fixtures.page_of Fixtures.sample_document in
  let pg1 := fst (CopyButtonsInjector pg) in
  let es := [Mutation Fixtures.new_code_block; Microtask] in
  scans (step (run es (deactivate (Some disconnect) (run [] pg1))) Microtask)
  = scans (run [] pg1)
  /\ count_roots
       (document (step (run es (deactivate (Some disconnect) (run [] pg1))) Microtask))
     <= count_roots (document (run es (deactivate (Some disconnect) (run [] pg1))))
  /\ count_roots (document (run es (deactivate (Some disconnect) (run [] pg1))))
     <= count_roots (document (run [] pg1)).
Proof.
  apply (no_scan_after_deactivation
           (Fixtures.page_of Fixtures.sample_document)
           (fst (CopyButtonsInjector (Fixtures.page_of Fixtures.sample_document)))
           disconnect [] [Mutation Fixtures.new_code_block; Microtask] Microtask).
  reflexivity.
Defined.

Lemma blank_code_block_is_skipped_witness :
  node_at [0; 0; 1]
          (document (Nat.iter 3 injectCopyButtonsIntoCodeBlocks
                              (Fixtures.page_of Fixtures.sample_document)))
  = Some (Fixtures.el "pre" [] [Text (text_of_string "  ")]).
Proof.
  apply (blank_code_block_is_skipped
           (Fixtures.page_of Fixtures.sample_document) [0; 0; 1]
           (Fixtures.el "pre" [] [Text (text_of_string "  ")]) 3);
    reflexivity.
Defined.

Lemma absent_container_is_noop_witness :
  CopyButtonsInjector (Fixtures.page_of Fixtures.bare_document)
  = (Fixtures.page_of Fixtures.bare_document, None).
Proof.
  apply (absent_container_is_noop (Fixtures.page_of Fixtures.bare_document)).
  apply has_false_absent. reflexivity.
Defined.

End CopyButtonSpec.

(* ===================================================================== *)
(** * Part VIII: the endpoint at its edges                               *)
(* ===================================================================== *)

Module ApiPluginEdge.
Import JS ApiPlugin.

Lemma existsb_rev (f : string -> bool) (l : list string) :
  existsb f (rev l) = existsb f l.
Proof.
  induction l as [|x l IH]; [reflexivity|].
  cbn [rev existsb]. rewrite existsb_app, IH. cbn [existsb].
  rewrite orb_false_r. apply orb_comm.
Qed.

(** Segments other than [..] only add names on top of the directories
    entered so far. *)
Lemma resolve_names (l st : list string) :
  existsb (String.eqb "..") l = false ->
  exists names : list string,
    fold_left resolve_step l st = names ++ st
    /\ existsb (String.eqb "..") names = false.
Proof.
  revert st. induction l as [|seg l IH]; intros st H.
  - exists []. split; reflexivity.
  - cbn [existsb] in H. apply orb_false_iff in H as [Hseg Hl].
    cbn [fold_left]. unfold resolve_step at 2.
    rewrite String.eqb_sym in Hseg. rewrite Hseg.
    destruct (String.eqb seg "" || String.eqb seg ".").
    + exact (IH st Hl).
    + destruct (IH (seg :: st) Hl) as (names & Hf & Hn).
      exists (names ++ [seg]). split.
      * rewrite Hf, <- app_assoc. reflexivity.
      * rewrite existsb_app, Hn. cbn [existsb].
        rewrite String.eqb_sym, Hseg. reflexivity.
Qed.

(** X1. Whatever the request, the disk and the front-matter: when the
    middleware returns it has ended the response, either with status 200
    and the JSON content type or with the fixed 404 answer; when it
    throws it has written no body and has not ended the response. *)
Theorem answers_are_200_or_404
        (ARTICLE_PATH : string) (URL_pathname : string -> string -> outcome string)
        (matter : string -> outcome GrayMatterFile)
        (Number_toString : Z -> Z -> string) (Date_toISOString : Z -> string)
        (fs : filesystem) (now : Z) (req : IncomingMessage) :
  match serve ARTICLE_PATH URL_pathname matter Number_toString Date_toISOString
              fs now req with
  | (Returns _, res) =>
      finished res = true
      /\ ((statusCode res = 200
           /\ headers res = [("Content-Type", "application/json")])
          \/ res = not_found_response)
  | (Throws _, res) =>
      finished res = false /\ body res = "" /\ statusCode res = 200
  end.
Proof.
  unfold serve, apiPlugin, mbind, M_bind, bind, call, existsSync, readFileSync.
  destruct (URL_pathname (url_or_empty (url req)) "http://localhost") as [pathname|e];
    [|repeat split].
  destruct (fs (filePath ARTICLE_PATH (slug_of pathname))) as [[text|]|];
    cbn beta iota; [| repeat split | split; [reflexivity | right; reflexivity]].
  destruct (matter text) as [parsed|e]; cbn beta iota; [|repeat split].
  destruct (GetV (data parsed) "title") as [title|e]; cbn beta iota; [|repeat split].
  destruct (GetV (data parsed) "date") as [date|e]; cbn beta iota; [|repeat split].
  split; [reflexivity | left; split; reflexivity].
Qed.

(** X2. What fails after the existence check is not caught: when the
    path exists but cannot be read as a file, or gray-matter throws on
    its text, the middleware throws that error, with the JSON content
    type already set and nothing answered, and not a 404. *)
Theorem failures_after_the_check_escape
        (ARTICLE_PATH : string) (URL_pathname : string -> string -> outcome string)
        (matter : string -> outcome GrayMatterFile)
        (Number_toString : Z -> Z -> string) (Date_toISOString : Z -> string)
        (fs : filesystem) (now : Z) (req : IncomingMessage)
        (pathname error : string) :
  URL_pathname (url_or_empty (url req)) "http://localhost" = Returns pathname ->
  existsSync fs (filePath ARTICLE_PATH (slug_of pathname)) = true ->
  (readFileSync fs (filePath ARTICLE_PATH (slug_of pathname)) = Throws error
   \/ exists text : string,
        readFileSync fs (filePath ARTICLE_PATH (slug_of pathname)) = Returns text
        /\ matter text = Throws error) ->
  serve ARTICLE_PATH URL_pathname matter Number_toString Date_toISOString fs now req
  = (Throws error,
     {| statusCode := 200;
        headers := [("Content-Type", "application/json")];
        body := "";
        finished := false |}).
Proof.
  intros Hurl Hex Hfail.
  unfold serve, apiPlugin, mbind, M_bind, bind, call.
  rewrite Hurl. cbn beta iota. rewrite Hex.
  destruct Hfail as [Hread | (text & Hread & Hm)]; rewrite Hread; cbn beta iota.
  - reflexivity.
  - rewrite Hm. reflexivity.
Qed.

Lemma failures_after_the_check_escape_witness :
  serve "src/articles/2025" Fixtures.pathname_as_given Fixtures.sample_matter
        Fixtures.sample_Number_toString Fixtures.sample_Date_toISOString
        MoreFixtures.disk_with_directory 0 {| url := Some "/folder" |}
  = (Throws "EISDIR",
     {| statusCode := 200;
        headers := [("Content-Type", "application/json")];
        body := "";
        finished := false |}).
Proof.
  apply (failures_after_the_check_escape
           "src/articles/2025" Fixtures.pathname_as_given Fixtures.sample_matter
           Fixtures.sample_Number_toString Fixtures.sample_Date_toISOString
           MoreFixtures.disk_with_directory 0 {| url := Some "/folder" |}
           "/folder" "EISDIR");
    [reflexivity | reflexivity | left; reflexivity].
Defined.

(** X3. A truthy title is answered as it is, whatever its type and
    whatever the date holds, and so is a truthy date: nothing turns
    them into strings before [JSON.stringify]. A date that YAML read as
    a timestamp therefore comes back as its full ISO rendering, exactly
    as if the file had held that text. *)
Theorem truthy_fields_pass_through
        (ARTICLE_PATH : string) (URL_pathname : string -> string -> outcome string)
        (matter : string -> outcome GrayMatterFile)
        (Number_toString : Z -> Z -> string) (Date_toISOString : Z -> string)
        (fs : filesystem) (now : Z) (req : IncomingMessage)
        (pathname text : string) (parsed : GrayMatterFile) (title date : value) :
  URL_pathname (url_or_empty (url req)) "http://localhost" = Returns pathname ->
  fs (filePath ARTICLE_PATH (slug_of pathname)) = Some (File text) ->
  matter text = Returns parsed ->
  GetV (data parsed) "title" = Returns title ->
  GetV (data parsed) "date" = Returns date ->
  (ToBoolean title = true ->
   serve ARTICLE_PATH URL_pathname matter Number_toString Date_toISOString fs now req
   = (Returns tt,
      {| statusCode := 200;
         headers := [("Content-Type", "application/json")];
         body := default ""
                   (JSON_stringify Number_toString Date_toISOString
                      (VObject
                         [ ("content", VString (content parsed));
                           ("data",
                            VObject
                              [ ("title", title);
                                ("date", if ToBoolean date then date
                                         else VString (Date_toISOString now));
                                ("slug", VString (slug_of pathname)) ]) ]));
         finished := true |}))
  /\ (ToBoolean date = true ->
      serve ARTICLE_PATH URL_pathname matter Number_toString Date_toISOString fs now req
      = (Returns tt,
         {| statusCode := 200;
            headers := [("Content-Type", "application/json")];
            body := default ""
                      (JSON_stringify Number_toString Date_toISOString
                         (VObject
                            [ ("content", VString (content parsed));
                              ("data",
                               VObject
                                 [ ("title", if ToBoolean title then title
                                             else VString "Untitled");
                                   ("date", date);
                                   ("slug", VString (slug_of pathname)) ]) ]));
            finished := true |}))
  /\ (forall t : Z,
        date = VDate t ->
        serve ARTICLE_PATH URL_pathname matter Number_toString Date_toISOString fs now req
        = (Returns tt,
           {| statusCode := 200;
              headers := [("Content-Type", "application/json")];
              body := default ""
                        (JSON_stringify Number_toString Date_toISOString
                           (VObject
                              [ ("content", VString (content parsed));
                                ("data",
                                 VObject
                                   [ ("title", if ToBoolean title then title
                                               else VString "Untitled");
                                     ("date", VString (Date_toISOString t));
                                     ("slug", VString (slug_of pathname)) ]) ]));
              finished := true |})).
Proof.
  intros Hurl Hfs Hm Ht Hd.
  rewrite (ApiPluginSpec.serve_found_fields ARTICLE_PATH URL_pathname matter _ _ fs now
             req pathname text parsed title date Hurl Hfs Hm Ht Hd).
  split; [|split].
  - intros ->. reflexivity.
  - intros ->. reflexivity.
  - intros t ->. cbn [ToBoolean]. unfold JSON_stringify.
    cbn [SerializeJSONProperty].
    destruct (SerializeJSONProperty Number_toString Date_toISOString
                (if ToBoolean title then title else VString "Untitled"));
      reflexivity.
Qed.

Lemma truthy_fields_pass_through_witness :
  serve "src/articles/2025" Fixtures.pathname_as_given
        MoreFixtures.matter_with_timestamp
        Fixtures.sample_Number_toString Fixtures.sample_Date_toISOString
        MoreFixtures.disk_with_timestamp 0 {| url := Some "/stamp" |}
  = (Returns tt,
     {| statusCode := 200;
        headers := [("Content-Type", "application/json")];
        body := default ""
                  (JSON_stringify Fixtures.sample_Number_toString
                     Fixtures.sample_Date_toISOString
                     (VObject
                        [ ("content", VString "Hello");
                          ("data",
                           VObject
                             [ ("title", VNumber (Finite 7 0));
                               ("date", VDate 1750896000000);
                               ("slug", VString "stamp") ]) ]));
        finished := true |}).
Proof.
  exact (proj1 (truthy_fields_pass_through
                  "src/articles/2025" Fixtures.pathname_as_given
                  MoreFixtures.matter_with_timestamp
                  Fixtures.sample_Number_toString Fixtures.sample_Date_toISOString
                  MoreFixtures.disk_with_timestamp 0 {| url := Some "/stamp" |}
                  "/stamp" MoreFixtures.timestamp_article
                  {| content := "Hello";
                     data := VObject [ ("title", VNumber (Finite 7 0));
                                       ("date", VDate 1750896000000) ] |}
                  (VNumber (Finite 7 0)) (VDate 1750896000000)
                  eq_refl eq_refl eq_refl eq_refl eq_refl) eq_refl).
Defined.

(** X4. A slug none of whose segments is [..] cannot leave the base
    directory: the path built from it resolves to the base followed by
    names only. *)
Theorem slug_without_parent_segments_stays_inside (ARTICLE_PATH slug : string) :
  existsb (String.eqb "..") (segments slug) = false ->
  inside ARTICLE_PATH (filePath ARTICLE_PATH slug) = true.
Proof.
  intros Hslug. unfold inside, resolve, filePath.
  rewrite ApiPluginSpec.segments_app_slash.
  change "/article.md" with ("/" +:+ "article.md").
  rewrite ApiPluginSpec.segments_app_slash, fold_left_app.
  assert (Hall : existsb (String.eqb "..") (segments slug ++ segments "article.md") = false)
    by (rewrite existsb_app, Hslug; reflexivity).
  destruct (resolve_names _ (fold_left resolve_step (segments ARTICLE_PATH) []) Hall)
    as (names & Hf & Hn).
  rewrite Hf, rev_app_distr, ApiPluginSpec.strip_prefix_self, existsb_rev, Hn.
  reflexivity.
Qed.

Lemma slug_without_parent_segments_stays_inside_witness :
  inside "src/articles/2025"
         (filePath "src/articles/2025" "react/mutation-observer") = true.
Proof.
  apply (slug_without_parent_segments_stays_inside
           "src/articles/2025" "react/mutation-observer").
  reflexivity.
Defined.

End ApiPluginEdge.

(* ===================================================================== *)
(** * Part IX: the enhancer over its life                                *)
(* ===================================================================== *)

Module CopyButtonLifecycle.
Import DOM CopyButton CopyButtonSpec.

Section Lifecycle.
(** Whatever the CSS engine of the browser is. *)
Context {engine : CSSOM}.

(** ** Selected paths lead to selected nodes *)

Lemma select_list_sound (P : node -> bool) (cs : list node) (i : nat) (p : path) :
  In p (select_list P i cs) ->
  exists (k : nat) (q : path) (c : node),
    p = (i + k) :: q /\ cs !! k = Some c /\ In q (select P c).
Proof.
  revert i. induction cs as [|c cs IH]; intros i H; [contradiction|].
  cbn [select_list] in H. apply in_app_or in H as [H|H].
  - apply in_map_iff in H as (q & <- & Hq).
    exists 0, q, c. rewrite Nat.add_0_r. repeat split. exact Hq.
  - destruct (IH (S i) H) as (k & q & c' & -> & Hk & Hq).
    exists (S k), q, c'. split; [f_equal; lia|]. split; [exact Hk | exact Hq].
Qed.

Lemma select_sound (P : node -> bool) (n : node) (p : path) :
  In p (select P n) -> exists x : node, node_at p n = Some x /\ P x = true.
Proof.
  revert p. induction n as [d|d|t pr cs IH] using node_ind'; intros p H.
  - cbn [select] in H. rewrite app_nil_r in H.
    destruct (P (Text d)) eqn:HP; [|contradiction].
    destruct H as [<-|[]]. exists (Text d). split; [reflexivity | exact HP].
  - cbn [select] in H. rewrite app_nil_r in H.
    destruct (P (Comment d)) eqn:HP; [|contradiction].
    destruct H as [<-|[]]. exists (Comment d). split; [reflexivity | exact HP].
  - rewrite select_Element in H. apply in_app_or in H as [H|H].
    + destruct (P (Element t pr cs)) eqn:HP; [|contradiction].
      destruct H as [<-|[]]. exists (Element t pr cs). split; [reflexivity | exact HP].
    + apply select_list_sound in H as (k & q & c & -> & Hk & Hq).
      rewrite Forall_forall in IH.
      destruct (IH c (proj2 (list_elem_of_lookup cs c) (ex_intro _ k Hk)) q Hq)
        as (x & Hx & HP).
      exists x. split; [|exact HP]. cbn [node_at Nat.add]. rewrite Hk. exact Hx.
Qed.

(** ** After a scan no code block is eligible *)

Lemma enhanced_is_ineligible (n : node) :
  matches (ByTag "pre") (enhance n) = true -> eligible (enhance n) = false.
Proof.
  intros Hm. destruct (eligible (enhance n)) eqn:He; [|reflexivity]. exfalso.
  pose proof (enhance_idempotent n) as Hi.
  destruct (enhance n) as [d|d|t pr cs]; try discriminate.
  cbn [enhance] in Hi. rewrite Hm, He in Hi. cbn [andb] in Hi.
  injection Hi as _ Hcs. apply (f_equal length) in Hcs.
  rewrite length_app, length_map in Hcs. cbn [length] in Hcs. lia.
Qed.

Lemma ineligible_after_scan (n : node) (p : path) (x : node) :
  node_at p (enhance n) = Some x ->
  matches (ByTag "pre") x = true ->
  eligible x = false.
Proof.
  revert p x. induction n as [d|d|t pr cs IH] using node_ind'; intros p x Hx Hm.
  - destruct p; cbn in Hx; [injection Hx as <-; discriminate | discriminate].
  - destruct p; cbn in Hx; [injection Hx as <-; discriminate | discriminate].
  - destruct p as [|i q].
    + cbn [node_at] in Hx. injection Hx as Hx. subst x.
      exact (enhanced_is_ineligible (Element t pr cs) Hm).
    + assert (Hchild : forall c', map enhance cs !! i = Some c' ->
                                  node_at q c' = Some x -> eligible x = false).
      { intros c' Hc' Hq. rewrite lookup_map in Hc'.
        destruct (cs !! i) as [c|] eqn:Hi; [|discriminate]. injection Hc' as <-.
        rewrite Forall_forall in IH.
        exact (IH c (proj2 (list_elem_of_lookup cs c) (ex_intro _ i Hi)) q x Hq Hm). }
      cbn [enhance] in Hx.
      destruct (matches (ByTag "pre") (Element t pr cs) && eligible (Element t pr cs));
        cbn [node_at] in Hx.
      * destruct (decide (i < length (map enhance cs))) as [Hlt|Hge].
        -- rewrite lookup_app_l in Hx by exact Hlt.
           destruct (map enhance cs !! i) as [c'|] eqn:Hc'; [|discriminate].
           exact (Hchild c' eq_refl Hx).
        -- rewrite lookup_app_r in Hx by lia.
           destruct (i - length (map enhance cs)) as [|j]; cbn in Hx; [|discriminate].
           destruct q; cbn in Hx; [injection Hx as <-; discriminate | discriminate].
      * destruct (map enhance cs !! i) as [c'|] eqn:Hc'; [|discriminate].
        exact (Hchild c' eq_refl Hx).
Qed.

Lemma visit_ineligible (pg : page) (p : path) :
  (forall x, node_at p (document pg) = Some x -> eligible x = false) ->
  visit pg p = pg.
Proof.
  intros H. unfold visit.
  destruct (node_at p (document pg)) as [pre|]; [|reflexivity].
  specialize (H pre eq_refl). unfold eligible in H.
  destruct (querySelector (ByAttribute "data-copy-btn") pre); [reflexivity|].
  destruct (is_empty (trim (textContent pre))); [reflexivity | discriminate].
Qed.

Lemma fold_visit_ineligible (ps : list path) (pg : page) :
  (forall p x, In p ps -> node_at p (document pg) = Some x -> eligible x = false) ->
  fold_left visit ps pg = pg.
Proof.
  induction ps as [|p ps IH]; intros H; [reflexivity|].
  cbn [fold_left]. rewrite visit_ineligible.
  - apply IH. intros p' x Hin. apply H. right. exact Hin.
  - intros x. apply H. left. reflexivity.
Qed.

(** A scan of a scanned document changes neither the document nor the
    record queue. *)
Lemma inject_scanned (d : node) (r : bool) (s : nat) :
  injectCopyButtonsIntoCodeBlocks {| document := enhance d; records := r; scans := s |}
  = {| document := enhance d; records := r; scans := S s |}.
Proof.
  unfold injectCopyButtonsIntoCodeBlocks, document_querySelectorAll. cbn [document records scans].
  apply fold_visit_ineligible. cbn [document]. intros p x Hin Hx.
  apply select_sound in Hin as (x' & Hx' & Hm).
  rewrite Hx in Hx'. injection Hx' as <-.
  exact (ineligible_after_scan d p x Hx Hm).
Qed.

Lemma notify_quiet (pg : page) : records pg = false -> notify pg = pg.
Proof. intros H. unfold notify. rewrite H. reflexivity. Qed.

(** ** Lookups through updates *)

Lemma node_at_update_at (p q : path) (f : node -> node) (d x : node) :
  node_at p d = Some x ->
  node_at (p ++ q) (update_at p f d) = node_at q (f x).
Proof.
  revert d. induction p as [|i p IH]; intros d H; cbn [node_at] in H.
  - injection H as ->. reflexivity.
  - destruct d as [t|t|t pr cs]; try discriminate.
    destruct (cs !! i) as [c|] eqn:Hi; [|discriminate].
    cbn [app update_at node_at]. rewrite list_lookup_alter_eq, Hi. cbn [fmap option_fmap option_map].
    apply IH. exact H.
Qed.

Lemma observes_below (t q : path) (d x : node) tn pr cs :
  node_at t d = Some (Element tn pr cs) ->
  registered pr = true ->
  node_at (t ++ q) d = Some x ->
  observes (t ++ q) d = true.
Proof.
  revert d. induction t as [|i t IH]; intros d Ht Hreg Hx; cbn [node_at] in Ht.
  - injection Ht as ->. cbn [app]. destruct q; cbn [observes]; rewrite Hreg; reflexivity.
  - destruct d as [a|a|t0 pr0 cs0]; try discriminate.
    destruct (cs0 !! i) as [c|] eqn:Hi; [|discriminate].
    cbn [app node_at] in Hx. rewrite Hi in Hx.
    cbn [app observes]. rewrite Hi, (IH c Ht Hreg Hx). apply orb_true_r.
Qed.

Lemma node_at_register (t p : path) (d x : node) :
  node_at p d = Some x ->
  exists x' : node,
    node_at p (update_at t register d) = Some x'
    /\ mounted_controls x' = mounted_controls x
    /\ (forall sel, matches sel x' = matches sel x)
    /\ has_root x' = has_root x.
Proof.
  revert p d x. induction t as [|j t IH]; intros p d x Hx; cbn [update_at].
  - destruct p as [|i q]; cbn [node_at] in Hx.
    + injection Hx as <-. exists (register d). destruct d; repeat split; reflexivity.
    + destruct d as [a|a|tn pr cs]; try discriminate.
      exists x. split; [exact Hx | repeat split; reflexivity].
  - destruct d as [a|a|tn pr cs];
      [exists x; split; [exact Hx | repeat split; reflexivity] ..|].
    destruct p as [|i q]; cbn [node_at] in Hx.
    + injection Hx as <-. eexists. split; [reflexivity|].
      split; [|split; reflexivity].
      cbn [mounted_controls]. apply filter_has_root_alter.
      intros c Hc. destruct (IH [] c c eq_refl) as (x' & Hx' & _ & _ & Hr).
      cbn [node_at] in Hx'. injection Hx' as <-. exact Hr.
    + destruct (cs !! i) as [c|] eqn:Hi; [|discriminate].
      cbn [node_at]. destruct (decide (i = j)) as [->|Hne].
      * rewrite list_lookup_alter_eq, Hi. cbn [fmap option_fmap option_map].
        exact (IH q c x Hx).
      * rewrite list_lookup_alter_ne by congruence. rewrite Hi.
        exists x. split; [exact Hx | repeat split; reflexivity].
Qed.


(** X6. While the observer is connected, a code block that other code
    appends inside an observed subtree is enhanced by the next
    notification: the scan runs once and the new block, if it has text
    and no marker inside, holds exactly one control. *)
Theorem appended_code_block_is_enhanced
        (pg : page) (parent : path) (t : string) (pr : props) (cs : list node)
        (attrs : list (string * string)) (kids : list markup) :
  node_at parent (document pg) = Some (Element t pr cs) ->
  observes parent (document pg) = true ->
  eligible (node_of_markup (MElement "pre" attrs kids)) = true ->
  scans (run [Mutation (AppendChild parent (MElement "pre" attrs kids)); Microtask] pg)
  = S (scans pg)
  /\ exists pre' : node,
       node_at (parent ++ [length cs])
               (document (run [Mutation (AppendChild parent (MElement "pre" attrs kids));
                               Microtask] pg))
       = Some pre'
       /\ matches (ByTag "pre") pre' = true
       /\ mounted_controls pre' = 1.
Proof.
  intros Hp Hobs Hel.
  change (run [Mutation (AppendChild parent (MElement "pre" attrs kids)); Microtask] pg)
    with (notify (mutate (AppendChild parent (MElement "pre" attrs kids)) pg)).
  unfold mutate. cbn [target_of]. rewrite Hp. cbn [change is_childList].
  rewrite Hobs, orb_true_r. unfold notify. cbn [records document scans].
  rewrite inject_scans, inject_document. cbn [scans document].
  split; [reflexivity|].
  exists (enhance (node_of_markup (MElement "pre" attrs kids))).
  split; [|split].
  - apply node_at_enhance.
    rewrite (node_at_update_at parent [length cs] _ _ _ Hp). cbn [node_at].
    rewrite lookup_app_r by lia. rewrite Nat.sub_diag. reflexivity.
  - rewrite matches_enhance by discriminate. reflexivity.
  - rewrite mounted_controls_enhance, Hel.
    cbn [node_of_markup mounted_controls matches andb].
    rewrite filter_has_root_markup. reflexivity.
Qed.

(** X7. When the container exists, the effect scans the document as it
    is, then connects a new observer to the container: one scan has run,
    the record queue is empty, and a child-list change at any node of the
    container's subtree reaches the observer. *)
Theorem activation_observes_container
        (pg pg1 : page) (cleanup : page -> page) :
  CopyButtonsInjector pg = (pg1, Some cleanup) ->
  exists target : path,
    getElementById "post-content" (document pg) = Some target
    /\ document pg1
       = update_at target register (document (injectCopyButtonsIntoCodeBlocks pg))
    /\ scans pg1 = S (scans pg)
    /\ records pg1 = false
    /\ forall (q : path) (x : node),
         node_at (target ++ q) (document pg1) = Some x ->
         observes (target ++ q) (document pg1) = true.
Proof.
  unfold CopyButtonsInjector.
  destruct (getElementById "post-content" (document pg)) as [target|] eqn:Hg;
    [|discriminate].
  intros H. injection H as <- _. exists target.
  split; [reflexivity|]. split; [reflexivity|].
  split; [apply inject_scans|]. split; [reflexivity|].
  intros q x Hx. cbn [observe document] in *.
  unfold getElementById in Hg.
  assert (Hin : In target (select (matches (ById "post-content")) (document pg)))
    by (destruct (select (matches (ById "post-content")) (document pg));
        [discriminate | injection Hg as ->; left; reflexivity]).
  apply select_sound in Hin as (x0 & Hx0 & Hm).
  destruct x0 as [a|a|tn pr cs]; try discriminate.
  rewrite inject_document in *.
  pose proof (node_at_enhance target _ _ Hx0) as He.
  pose proof (node_at_update_at target [] register _ _ He) as Hr.
  rewrite app_nil_r in Hr. cbn [node_at] in Hr.
  destruct (enhance (Element tn pr cs)) as [a|a|tn' pr' cs'] eqn:Hen.
  - cbn [enhance] in Hen. destruct (_ && _); discriminate.
  - cbn [enhance] in Hen. destruct (_ && _); discriminate.
  - exact (observes_below target q _ x _ _ _ Hr eq_refl Hx).
Qed.

Lemma injector_found (pg : page) (target : path) :
  getElementById "post-content" (document pg) = Some target ->
  CopyButtonsInjector pg
  = (observe target (injectCopyButtonsIntoCodeBlocks pg),
     Some (fun pg' => disconnect pg')).
Proof. intros H. unfold CopyButtonsInjector. rewrite H. reflexivity. Qed.

Lemma injector_missing (pg : page) :
  getElementById "post-content" (document pg) = None ->
  CopyButtonsInjector pg = (pg, None).
Proof. intros H. unfold CopyButtonsInjector. rewrite H. reflexivity. Qed.


(** ** Outside the container *)

Lemma enhance_unregistered (n : node) :
  has_registration n = false -> has_registration (enhance n) = false.
Proof.
  induction n as [d|d|t pr cs IH] using node_ind'; [tauto | tauto |].
  intros H. cbn [has_registration] in H. apply orb_false_iff in H as [Hr Hcs].
  assert (Hmap : existsb has_registration (map enhance cs) = false).
  { clear t pr Hr. induction IH as [|c cs Hc _ IHcs]; cbn [map existsb]; [reflexivity|].
    cbn [existsb] in Hcs. apply orb_false_iff in Hcs as [H1 H2].
    rewrite (Hc H1), (IHcs H2). reflexivity. }
  cbn [enhance].
  destruct (matches (ByTag "pre") (Element t pr cs) && eligible (Element t pr cs));
    cbn [has_registration positioned registered]; rewrite Hr; cbn [orb].
  - rewrite existsb_app, Hmap. reflexivity.
  - exact Hmap.
Qed.

(** An observer registered at [target] alone hears nothing of what
    happens outside the subtree of [target]. *)
Lemma observes_outside (target parent : path) (d : node) :
  has_registration d = false ->
  ~ prefix target parent ->
  observes parent (update_at target register d) = false.
Proof.
  revert parent d. induction target as [|i tq IH]; intros parent d Hreg Hout.
  - exfalso. apply Hout. exists parent. reflexivity.
  - destruct d as [a|a|t pr cs]; [destruct parent; reflexivity ..|].
    cbn [has_registration] in Hreg. apply orb_false_iff in Hreg as [Hr Hcs].
    cbn [update_at]. destruct parent as [|j pq]; cbn [observes]; rewrite Hr; cbn [orb];
      [reflexivity|].
    destruct (decide (j = i)) as [->|Hne].
    + rewrite list_lookup_alter_eq.
      destruct (cs !! i) as [c|] eqn:Hi; cbn [fmap option_fmap option_map];
        [|reflexivity].
      apply IH; [exact (existsb_lookup _ cs i c Hcs Hi)|].
      intros [k Hk]. apply Hout. exists k. cbn [app]. rewrite Hk. reflexivity.
    + rewrite list_lookup_alter_ne by congruence.
      destruct (cs !! j) as [c|] eqn:Hj; [|reflexivity].
      apply unregistered_observes. exact (existsb_lookup _ cs j c Hcs Hj).
Qed.

Lemma microtasks_without_records (k : nat) (pg : page) :
  records pg = false -> run (repeat Microtask k) pg = pg.
Proof.
  intros H. induction k as [|k IH]; [reflexivity|].
  cbn [repeat]. change (run (Microtask :: repeat Microtask k) pg)
    with (run (repeat Microtask k) (notify pg)).
  rewrite (notify_quiet pg H). exact IH.
Qed.

(** X9. The effect connects the observer to the container and to
    nothing else: on a page that had no observer before, a child that
    other code appends outside the container's subtree queues no record,
    so no microtask calls the scan, and the new node, be it a code block
    with text, stays as it was appended, without a control. *)
Theorem unobserved_change_is_not_scanned
        (pg : page) (target parent : path) (t : string) (pr : props) (cs : list node)
        (child : markup) (k : nat) :
  has_registration (document pg) = false ->
  getElementById "post-content" (document pg) = Some target ->
  ~ prefix target parent ->
  node_at parent (document (fst (CopyButtonsInjector pg))) = Some (Element t pr cs) ->
  scans (run (Mutation (AppendChild parent child) :: repeat Microtask k)
             (fst (CopyButtonsInjector pg)))
  = scans (fst (CopyButtonsInjector pg))
  /\ node_at (parent ++ [length cs])
             (document (run (Mutation (AppendChild parent child) :: repeat Microtask k)
                            (fst (CopyButtonsInjector pg))))
     = Some (node_of_markup child).
Proof.
  intros Hreg Hg Hout Hp.
  rewrite (injector_found pg target Hg) in *. cbn [fst] in *.
  change (run (Mutation (AppendChild parent child) :: repeat Microtask k)
              (observe target (injectCopyButtonsIntoCodeBlocks pg)))
    with (run (repeat Microtask k)
              (mutate (AppendChild parent child)
                      (observe target (injectCopyButtonsIntoCodeBlocks pg)))).
  assert (Hobs : observes parent
                   (document (observe target (injectCopyButtonsIntoCodeBlocks pg)))
                 = false).
  { cbn [observe document]. rewrite inject_document.
    apply observes_outside; [apply enhance_unregistered; exact Hreg | exact Hout]. }
  rewrite microtasks_without_records.
  - unfold mutate. cbn [target_of]. rewrite Hp. cbn [change scans document].
    split; [reflexivity|].
    rewrite (node_at_update_at parent [length cs] _ _ _ Hp). cbn [node_at].
    rewrite lookup_app_r by lia. rewrite Nat.sub_diag. reflexivity.
  - unfold mutate. cbn [target_of]. rewrite Hp. cbn [change records is_childList].
    rewrite Hobs. reflexivity.
Qed.

(** X10. The first scan of the effect covers the whole document, not the
    container only: every code block, wherever it stands, comes out of
    the effect with one control more if it was eligible and with as many
    as before otherwise. *)
Theorem activation_enhances_every_code_block
        (pg pg1 : page) (cleanup : page -> page) (p : path) (pre : node) :
  CopyButtonsInjector pg = (pg1, Some cleanup) ->
  node_at p (document pg) = Some pre ->
  matches (ByTag "pre") pre = true ->
  exists pre' : node,
    node_at p (document pg1) = Some pre'
    /\ matches (ByTag "pre") pre' = true
    /\ mounted_controls pre' = mounted_controls pre + (if eligible pre then 1 else 0).
Proof.
  unfold CopyButtonsInjector.
  destruct (getElementById "post-content" (document pg)) as [target|]; [|discriminate].
  intros H Hp Hm. injection H as <- _. cbn [observe document].
  rewrite inject_document.
  destruct (node_at_register target p _ _ (node_at_enhance p _ _ Hp))
    as (x' & Hx' & Hmc & Hmatch & _).
  exists x'. split; [exact Hx'|]. split.
  - rewrite Hmatch, matches_enhance by discriminate. exact Hm.
  - rewrite Hmc, mounted_controls_enhance, Hm. reflexivity.
Qed.

(** ** Mounting again *)

Lemma map_alter_same (h g : node -> node) (cs : list node) (i : nat) :
  (forall c, cs !! i = Some c -> h (g c) = h c) ->
  map h (alter g i cs) = map h cs.
Proof.
  revert i. induction cs as [|x cs IH]; intros [|i] H; try reflexivity.
  - change (alter g 0 (x :: cs)) with (g x :: cs). cbn [map].
    rewrite (H x eq_refl). reflexivity.
  - change (alter g (S i) (x :: cs)) with (x :: alter g i cs). cbn [map].
    rewrite (IH i H). reflexivity.
Qed.

Lemma unregister_update_register (p : path) (n : node) :
  unregister (update_at p register n) = unregister n.
Proof.
  revert n. induction p as [|i p IH]; intros n; cbn [update_at].
  - destruct n; reflexivity.
  - destruct n as [a|a|t pr cs]; try reflexivity.
    cbn [unregister]. f_equal. apply map_alter_same. intros c _. apply IH.
Qed.

Lemma unregister_idempotent (n : node) : unregister (unregister n) = unregister n.
Proof.
  induction n as [d|d|t pr cs IH] using node_ind'; [reflexivity | reflexivity |].
  cbn [unregister attributes reactRoot registered]. f_equal.
  induction IH as [|c cs Hc _ IHcs]; cbn [map]; [reflexivity|].
  rewrite Hc, IHcs. reflexivity.
Qed.

Lemma textContent_unregister (n : node) : textContent (unregister n) = textContent n.
Proof.
  induction n as [d|d|t pr cs IH] using node_ind'; [reflexivity | reflexivity |].
  cbn [unregister textContent].
  induction IH as [|c cs Hc _ IHcs]; cbn [map flat_map]; [reflexivity|].
  rewrite Hc, IHcs. reflexivity.
Qed.

Lemma has_unregister (sel : selector) (n : node) :
  has (matches sel) (unregister n) = has (matches sel) n.
Proof.
  induction n as [d|d|t pr cs IH] using node_ind'; [reflexivity | reflexivity |].
  cbn [unregister has]. f_equal.
  induction IH as [|c cs Hc _ IHcs]; cbn [map existsb]; [reflexivity|].
  rewrite Hc, IHcs. reflexivity.
Qed.

Lemma eligible_unregister (n : node) : eligible (unregister n) = eligible n.
Proof.
  destruct n as [d|d|t pr cs] eqn:Hn; [reflexivity | reflexivity |].
  rewrite <- Hn at 1. rewrite (eligible_Element t pr cs).
  pose proof (textContent_unregister n) as Ht. rewrite Hn in *.
  cbn [unregister] in *. rewrite eligible_Element, Ht. f_equal. f_equal.
  clear Ht Hn. induction cs as [|c cs IH]; cbn [map existsb]; [reflexivity|].
  rewrite has_unregister, IH. reflexivity.
Qed.

Lemma enhance_unregister (n : node) : enhance (unregister n) = unregister (enhance n).
Proof.
  induction n as [d|d|t pr cs IH] using node_ind'; [reflexivity | reflexivity |].
  assert (Hmap : map enhance (map unregister cs) = map unregister (map enhance cs)).
  { clear t pr. induction IH as [|c cs Hc _ IHcs]; cbn [map]; [reflexivity|].
    rewrite Hc, IHcs. reflexivity. }
  pose proof (eligible_unregister (Element t pr cs)) as He.
  pose proof (textContent_unregister (Element t pr cs)) as Ht.
  cbn [unregister] in He, Ht. cbn [unregister enhance].
  change (matches (ByTag "pre") (Element t _ (map unregister cs)))
    with (matches (ByTag "pre") (Element t pr cs)).
  rewrite He.
  destruct (matches (ByTag "pre") (Element t pr cs) && eligible (Element t pr cs));
    cbn [unregister].
  - rewrite map_app, Hmap, Ht. reflexivity.
  - rewrite Hmap. reflexivity.
Qed.

(** X11. Mounting, unmounting and mounting again, as React's StrictMode
    does with every effect, leaves the controls of a single mount: the
    two documents differ in observer registrations at most and hold the
    same number of React roots. *)
Theorem remount_mounts_nothing_new (pg : page) :
  unregister
    (document
       (fst (CopyButtonsInjector
               (deactivate (snd (CopyButtonsInjector pg)) (fst (CopyButtonsInjector pg))))))
  = unregister (document (fst (CopyButtonsInjector pg)))
  /\ count_roots
       (document
          (fst (CopyButtonsInjector
                  (deactivate (snd (CopyButtonsInjector pg))
                              (fst (CopyButtonsInjector pg))))))
     = count_roots (document (fst (CopyButtonsInjector pg))).
Proof.
  assert (H : unregister
                (document
                   (fst (CopyButtonsInjector
                           (deactivate (snd (CopyButtonsInjector pg))
                                       (fst (CopyButtonsInjector pg))))))
              = unregister (document (fst (CopyButtonsInjector pg)))).
  { destruct (getElementById "post-content" (document pg)) as [target|] eqn:Hg.
    - rewrite !(injector_found pg target Hg). cbn [fst snd deactivate].
      destruct (getElementById "post-content"
                  (document (disconnect (observe target (injectCopyButtonsIntoCodeBlocks pg)))))
        as [target'|] eqn:Hg'.
      + rewrite (injector_found _ target' Hg'). cbn [fst observe disconnect document].
        rewrite !unregister_update_register, !inject_document.
        cbn [document disconnect observe].
        rewrite unregister_update_register, inject_document.
        rewrite enhance_unregister, enhance_idempotent.
        apply unregister_idempotent.
      + rewrite (injector_missing _ Hg'). cbn [fst observe disconnect document].
        rewrite !unregister_update_register. apply unregister_idempotent.
    - rewrite !(injector_missing pg Hg). cbn [fst snd deactivate].
      rewrite (injector_missing pg Hg). reflexivity. }
  split; [exact H|].
  rewrite <- (unregister_count_roots (document (fst (CopyButtonsInjector pg)))), <- H.
  apply eq_sym, unregister_count_roots.
Qed.

(** ** When the scan has nothing left to do *)

Lemma enhance_fixed_Element t pr cs :
  enhance (Element t pr cs) = Element t pr cs
  <-> matches (ByTag "pre") (Element t pr cs) && eligible (Element t pr cs) = false
      /\ map enhance cs = cs.
Proof.
  cbn [enhance].
  destruct (matches (ByTag "pre") (Element t pr cs) && eligible (Element t pr cs)); split.
  - intros H. injection H as _ H. apply (f_equal length) in H.
    rewrite length_app, length_map in H. cbn [length] in H. lia.
  - intros [H _]. discriminate.
  - intros H. injection H as H. split; [reflexivity | exact H].
  - intros [_ H]. rewrite H. reflexivity.
Qed.

Lemma map_enhance_without_code_blocks (cs : list node) :
  Forall (fun c => has (matches (ByTag "pre")) c = false -> enhance c = c) cs ->
  existsb (has (matches (ByTag "pre"))) cs = false ->
  map enhance cs = cs.
Proof.
  induction 1 as [|c cs Hc _ IH]; intros H; [reflexivity|].
  cbn [existsb] in H. apply orb_false_iff in H as [H1 H2].
  cbn [map]. rewrite (Hc H1), (IH H2). reflexivity.
Qed.

Lemma enhance_without_code_blocks (n : node) :
  has (matches (ByTag "pre")) n = false -> enhance n = n.
Proof.
  induction n as [d|d|t pr cs IH] using node_ind'; [reflexivity | reflexivity |].
  intros H. cbn [has] in H. apply orb_false_iff in H as [Hm Hcs].
  apply enhance_fixed_Element. rewrite Hm. split; [reflexivity|].
  exact (map_enhance_without_code_blocks cs IH Hcs).
Qed.

Lemma map_fixed_alter (g f : node -> node) (cs : list node) (i : nat) :
  map g cs = cs ->
  (forall c, cs !! i = Some c -> g c = c -> g (f c) = f c) ->
  map g (alter f i cs) = alter f i cs.
Proof.
  revert i. induction cs as [|x cs IH]; intros [|i] Hmap Hf; try reflexivity;
    cbn [map] in Hmap; injection Hmap as Hx Hcs.
  - change (alter f 0 (x :: cs)) with (f x :: cs). cbn [map].
    rewrite (Hf x eq_refl Hx), Hcs. reflexivity.
  - change (alter f (S i) (x :: cs)) with (x :: alter f i cs). cbn [map].
    rewrite Hx, (IH i Hcs Hf). reflexivity.
Qed.

Lemma existsb_alter_true (g : node -> bool) (f : node -> node)
      (cs : list node) (i : nat) (c : node) :
  cs !! i = Some c -> g (f c) = true -> existsb g (alter f i cs) = true.
Proof.
  revert i. induction cs as [|x cs IH]; intros [|i] Hi Hg; try discriminate.
  - injection Hi as ->. change (alter f 0 (c :: cs)) with (f c :: cs).
    cbn [existsb]. rewrite Hg. reflexivity.
  - change (alter f (S i) (x :: cs)) with (x :: alter f i cs).
    cbn [existsb]. rewrite (IH i Hi Hg). apply orb_true_r.
Qed.

Lemma has_at_update (P : node -> bool) (q : path) (w' c w : node) :
  node_at q c = Some w -> P w' = true ->
  has P (update_at q (fun _ => w') c) = true.
Proof.
  intros Hq HP. apply (has_node_at P q _ w'); [|exact HP].
  pose proof (node_at_update_at q [] (fun _ => w') c w Hq) as H.
  rewrite app_nil_r in H. exact H.
Qed.

(** Putting a marked node that the scan leaves alone in the place of a
    node of a scanned document gives a document the scan leaves alone:
    the code blocks above it see the marker. *)
Lemma fixed_update_at (p : path) (w' d : node) :
  enhance d = d ->
  (exists w, node_at p d = Some w) ->
  enhance w' = w' ->
  matches (ByAttribute "data-copy-btn") w' = true ->
  enhance (update_at p (fun _ => w') d) = update_at p (fun _ => w') d.
Proof.
  revert d. induction p as [|i q IH]; intros d Hd [w Hw] Hw' Hm; cbn [update_at];
    [exact Hw'|].
  destruct d as [a|a|t pr cs]; [exact Hd | exact Hd |].
  cbn [node_at] in Hw. destruct (cs !! i) as [c|] eqn:Hi; [|discriminate].
  apply enhance_fixed_Element in Hd as [Hcond Hmap].
  apply enhance_fixed_Element. split.
  - change (matches (ByTag "pre")
              (Element t pr (alter (update_at q (fun _ => w')) i cs)))
      with (matches (ByTag "pre") (Element t pr cs)).
    destruct (matches (ByTag "pre") (Element t pr cs)); [|reflexivity].
    cbn [andb]. rewrite eligible_Element.
    rewrite (existsb_alter_true _ _ cs i c Hi (has_at_update _ q w' c w Hw Hm)).
    reflexivity.
  - apply map_fixed_alter; [exact Hmap|]. intros c' Hc' Hfix.
    rewrite Hi in Hc'. injection Hc' as <-.
    apply IH; [exact Hfix | exists w; exact Hw | exact Hw' | exact Hm].
Qed.

(** ** Pending renders stay on wrappers *)

Lemma stray_positioned t pr cs cs' :
  stray (Element t (positioned pr) cs') = stray (Element t pr cs).
Proof.
  unfold stray.
  rewrite (matches_positioned (ByAttribute "data-copy-btn") t pr cs cs') by discriminate.
  reflexivity.
Qed.

Lemma no_stray_enhance (n : node) :
  has stray n = false -> has stray (enhance n) = false.
Proof.
  induction n as [d|d|t pr cs IH] using node_ind'; [tauto | tauto |].
  intros H. cbn [has] in H. apply orb_false_iff in H as [Hs Hcs].
  assert (Hmap : existsb (has stray) (map enhance cs) = false).
  { clear t pr Hs. induction IH as [|c cs Hc _ IHcs]; cbn [map existsb]; [reflexivity|].
    cbn [existsb] in Hcs. apply orb_false_iff in Hcs as [H1 H2].
    rewrite (Hc H1), (IHcs H2). reflexivity. }
  cbn [enhance].
  destruct (matches (ByTag "pre") (Element t pr cs) && eligible (Element t pr cs));
    cbn [has].
  - rewrite (stray_positioned t pr cs), Hs, existsb_app, Hmap. reflexivity.
  - change (stray (Element t pr (map enhance cs))) with (stray (Element t pr cs)).
    rewrite Hs, Hmap. reflexivity.
Qed.

Lemma no_stray_update_at (p : path) (f : node -> node) (n : node) :
  has stray n = false ->
  (forall x, node_at p n = Some x -> has stray (f x) = false) ->
  has stray (update_at p f n) = false.
Proof.
  revert n. induction p as [|i q IH]; intros n H Hf; cbn [update_at].
  - apply Hf. reflexivity.
  - destruct n as [d|d|t pr cs]; try exact H.
    cbn [has] in *. apply orb_false_iff in H as [Hs Hcs].
    change (stray (Element t pr (alter (update_at q f) i cs)))
      with (stray (Element t pr cs)).
    rewrite Hs. cbn [orb]. apply existsb_alter; [exact Hcs|].
    intros c Hc. apply IH; [exact (existsb_lookup _ cs i c Hcs Hc)|].
    intros x Hx. apply Hf. cbn [node_at]. rewrite Hc. exact Hx.
Qed.

Lemma no_stray_node_at (p : path) (n x : node) :
  has stray n = false -> node_at p n = Some x -> has stray x = false.
Proof.
  revert n. induction p as [|i q IH]; intros n H Hx; cbn [node_at] in Hx.
  - injection Hx as <-. exact H.
  - destruct n as [d|d|t pr cs]; try discriminate.
    destruct (cs !! i) as [c|] eqn:Hi; [|discriminate].
    cbn [has] in H. apply orb_false_iff in H as [_ Hcs].
    exact (IH c (existsb_lookup _ cs i c Hcs Hi) Hx).
Qed.

Lemma markup_not_stray (m : markup) : has stray (node_of_markup m) = false.
Proof.
  induction m as [d|d|t a cs IH] using markup_ind'; [reflexivity | reflexivity |].
  cbn [node_of_markup has]. change (stray (Element t _ _)) with false. cbn [orb].
  induction IH as [|c cs Hc _ IHcs]; cbn [map existsb]; [reflexivity|].
  rewrite Hc, IHcs. reflexivity.
Qed.

Lemma existsb_markup_not_stray (ms : list markup) :
  existsb (has stray) (map node_of_markup ms) = false.
Proof.
  induction ms as [|m ms IH]; cbn [map existsb]; [reflexivity|].
  rewrite markup_not_stray, IH. reflexivity.
Qed.

(** ** The observer's registration and the scan *)

Lemma map_alter_commute (g f : node -> node) (cs : list node) (i : nat) :
  (forall c, cs !! i = Some c -> g (f c) = f (g c)) ->
  map g (alter f i cs) = alter f i (map g cs).
Proof.
  revert i. induction cs as [|x cs IH]; intros [|i] Hf; try reflexivity.
  - change (alter f 0 (x :: cs)) with (f x :: cs). cbn [map].
    change (alter f 0 (g x :: map g cs)) with (f (g x) :: map g cs).
    rewrite (Hf x eq_refl). reflexivity.
  - change (alter f (S i) (x :: cs)) with (x :: alter f i cs). cbn [map].
    change (alter f (S i) (g x :: map g cs)) with (g x :: alter f i (map g cs)).
    rewrite (IH i Hf). reflexivity.
Qed.

Lemma eligible_update_register (p : path) (n : node) :
  eligible (update_at p register n) = eligible n.
Proof.
  rewrite <- (eligible_unregister (update_at p register n)),
          unregister_update_register.
  apply eligible_unregister.
Qed.

Lemma textContent_update_register (p : path) (n : node) :
  textContent (update_at p register n) = textContent n.
Proof.
  rewrite <- (textContent_unregister (update_at p register n)),
          unregister_update_register.
  apply textContent_unregister.
Qed.

(** Registering the observer at a node of the document and scanning can
    be done in either order. *)
Lemma enhance_update_register (p : path) (d : node) :
  (exists x, node_at p d = Some x) ->
  enhance (update_at p register d) = update_at p register (enhance d).
Proof.
  revert d. induction p as [|i q IH]; intros d [x Hx].
  - destruct d as [a|a|t pr cs]; [reflexivity | reflexivity |].
    cbn [update_at register enhance].
    change (matches (ByTag "pre") (Element t _ cs) && eligible (Element t _ cs))
      with (matches (ByTag "pre") (Element t pr cs) && eligible (Element t pr cs)).
    destruct (matches (ByTag "pre") (Element t pr cs) && eligible (Element t pr cs));
      reflexivity.
  - destruct d as [a|a|t pr cs]; try discriminate.
    cbn [node_at] in Hx. destruct (cs !! i) as [c|] eqn:Hi; [|discriminate].
    pose proof (eligible_update_register (i :: q) (Element t pr cs)) as He.
    pose proof (textContent_update_register (i :: q) (Element t pr cs)) as Ht.
    cbn [update_at] in He, Ht. cbn [update_at enhance].
    change (matches (ByTag "pre")
              (Element t pr (alter (update_at q register) i cs)))
      with (matches (ByTag "pre") (Element t pr cs)).
    rewrite He, Ht.
    assert (Hmap : map enhance (alter (update_at q register) i cs)
                   = alter (update_at q register) i (map enhance cs)).
    { apply map_alter_commute. intros c' Hc'. rewrite Hi in Hc'. injection Hc' as <-.
      apply IH. exists x. exact Hx. }
    destruct (matches (ByTag "pre") (Element t pr cs) && eligible (Element t pr cs));
      cbn [update_at]; rewrite Hmap; [|reflexivity].
    rewrite alter_app_l; [reflexivity|].
    rewrite length_map. eapply lookup_lt_Some. exact Hi.
Qed.

(** ** What the injector's own commits do *)

Lemma inject_fixed (pg : page) :
  enhance (document pg) = document pg ->
  injectCopyButtonsIntoCodeBlocks pg
  = {| document := document pg; records := records pg; scans := S (scans pg) |}.
Proof.
  intros Hd. destruct pg as [d r s]. cbn [document records scans] in *.
  rewrite <- Hd. apply inject_scanned.
Qed.

Lemma commit_keeps_scanned (c : path) (rendered : list markup) (pg : page) :
  enhance (document pg) = document pg ->
  has stray (document pg) = false ->
  existsb (has (matches (ByTag "pre"))) (map node_of_markup rendered) = false ->
  enhance (document (commit c rendered pg)) = document (commit c rendered pg)
  /\ has stray (document (commit c rendered pg)) = false
  /\ scans (commit c rendered pg) = scans pg.
Proof.
  intros Hd Hs Hr. unfold commit.
  destruct (node_at c (document pg)) as [n|] eqn:Hn; [|repeat split; assumption].
  destruct (commit_root rendered n) as [n'|] eqn:Hc; [|repeat split; assumption].
  cbn [document scans].
  pose proof (has_false_absent stray _ Hs c n Hn) as Hstray.
  destruct n as [a|a|t pr cs]; try discriminate.
  cbn [commit_root] in Hc. destruct (reactRoot pr) as [[v|v]|] eqn:Hroot; try discriminate.
  injection Hc as <-.
  unfold stray in Hstray. cbn [is_scheduled] in Hstray. rewrite Hroot in Hstray.
  cbn [andb] in Hstray. apply negb_false_iff, andb_true_iff in Hstray as [Hmark Hpre].
  apply negb_true_iff in Hpre.
  split; [|split; [|reflexivity]].
  - apply fixed_update_at; [exact Hd | exists (Element t pr cs); exact Hn | | exact Hmark].
    apply enhance_fixed_Element. split.
    + change (matches (ByTag "pre") (Element t _ (map node_of_markup rendered)))
        with (matches (ByTag "pre") (Element t pr cs)).
      rewrite Hpre. reflexivity.
    + apply map_enhance_without_code_blocks; [|exact Hr].
      apply Forall_forall. intros x _. apply enhance_without_code_blocks.
  - apply no_stray_update_at; [exact Hs|]. intros x _. cbn [has].
    change (stray (Element t _ (map node_of_markup rendered))) with false.
    apply existsb_markup_not_stray.
Qed.

Lemma self_made_step (pg : page) (e : event) :
  self_made e = true ->
  enhance (document pg) = document pg ->
  has stray (document pg) = false ->
  enhance (document (step pg e)) = document (step pg e)
  /\ has stray (document (step pg e)) = false
  /\ scans (step pg e) + (if records (step pg e) then 1 else 0)
     <= scans pg + (if records pg then 1 else 0) + (if is_commit e then 1 else 0).
Proof.
  intros He Hd Hs. destruct e as [m| |c rendered]; [discriminate | |]; cbn [step is_commit].
  - unfold notify. destruct (records pg) eqn:Hr.
    + rewrite inject_fixed by exact Hd. cbn [document records scans].
      repeat split; [exact Hd | exact Hs | lia].
    + rewrite Hr. repeat split; [exact Hd | exact Hs | lia].
  - cbn [self_made] in He. apply negb_true_iff in He.
    destruct (commit_keeps_scanned c rendered pg Hd Hs He) as (H1 & H2 & H3).
    repeat split; [exact H1 | exact H2 |]. rewrite H3.
    destruct (records (commit c rendered pg)), (records pg); lia.
Qed.

Lemma self_made_run (es : list event) (pg : page) :
  forallb self_made es = true ->
  enhance (document pg) = document pg ->
  has stray (document pg) = false ->
  enhance (document (run es pg)) = document (run es pg)
  /\ has stray (document (run es pg)) = false
  /\ scans (run es pg) + (if records (run es pg) then 1 else 0)
     <= scans pg + (if records pg then 1 else 0) + length (List.filter is_commit es).
Proof.
  revert pg. induction es as [|e es IH]; intros pg Hes Hd Hs.
  - cbn [run fold_left List.filter length]. repeat split; [exact Hd | exact Hs | lia].
  - cbn [forallb] in Hes. apply andb_true_iff in Hes as [He Hes].
    destruct (self_made_step pg e He Hd Hs) as (H1 & H2 & H3).
    destruct (IH (step pg e) Hes H1 H2) as (H4 & H5 & H6).
    change (run (e :: es) pg) with (run es (step pg e)).
    repeat split; [exact H4 | exact H5 |].
    cbn [List.filter]. destruct (is_commit e); cbn [length]; lia.
Qed.

(** X5. Each control the scan mounts is committed by React in a later
    task, inside the observed container, and so calls the scan once
    more. These scans find nothing to do: on a page where no render is
    pending outside a wrapper, after the effect and any number of the
    injector's own commits and notifications a scan leaves the document
    as it is, the scan has run at most once per commit besides the
    effect's own, and one more microtask empties the record queue for
    good. *)
Theorem own_commits_settle (pg : page) (target : path) (es : list event) :
  has stray (document pg) = false ->
  getElementById "post-content" (document pg) = Some target ->
  forallb self_made es = true ->
  document (injectCopyButtonsIntoCodeBlocks (run es (fst (CopyButtonsInjector pg))))
  = document (run es (fst (CopyButtonsInjector pg)))
  /\ scans (run es (fst (CopyButtonsInjector pg)))
     <= scans (fst (CopyButtonsInjector pg)) + length (List.filter is_commit es)
  /\ scans (run (es ++ [Microtask]) (fst (CopyButtonsInjector pg)))
     <= scans (fst (CopyButtonsInjector pg)) + length (List.filter is_commit es)
  /\ document (run (es ++ [Microtask]) (fst (CopyButtonsInjector pg)))
     = document (run es (fst (CopyButtonsInjector pg)))
  /\ forall k : nat,
       run (repeat Microtask k) (run (es ++ [Microtask]) (fst (CopyButtonsInjector pg)))
       = run (es ++ [Microtask]) (fst (CopyButtonsInjector pg)).
Proof.
  intros Hs Hg Hes.
  rewrite (injector_found pg target Hg). cbn [fst].
  assert (Hin : In target (select (matches (ById "post-content")) (document pg))).
  { unfold getElementById in Hg.
    destruct (select (matches (ById "post-content")) (document pg));
      [discriminate | injection Hg as ->; left; reflexivity]. }
  apply select_sound in Hin as (x & Hx & _).
  assert (Hd1 : enhance (document (observe target (injectCopyButtonsIntoCodeBlocks pg)))
                = document (observe target (injectCopyButtonsIntoCodeBlocks pg))).
  { cbn [observe document]. rewrite inject_document.
    rewrite <- (enhance_update_register target (document pg)) by (exists x; exact Hx).
    apply enhance_idempotent. }
  assert (Hs1 : has stray (document (observe target (injectCopyButtonsIntoCodeBlocks pg)))
                = false).
  { cbn [observe document]. rewrite inject_document.
    apply no_stray_update_at; [apply no_stray_enhance; exact Hs|].
    intros y Hy.
    pose proof (no_stray_node_at target _ y (no_stray_enhance _ Hs) Hy) as Hsub.
    destruct y as [a|a|t pr cs]; [reflexivity | reflexivity |]. exact Hsub. }
  destruct (self_made_run es _ Hes Hd1 Hs1) as (Hd2 & Hs2 & Hcount).
  cbn [observe records] in Hcount. rewrite Nat.add_0_r in Hcount.
  assert (Hlast : run (es ++ [Microtask]) (observe target (injectCopyButtonsIntoCodeBlocks pg))
                  = notify (run es (observe target (injectCopyButtonsIntoCodeBlocks pg)))).
  { unfold run. rewrite fold_left_app. reflexivity. }
  rewrite Hlast.
  split; [rewrite inject_document; exact Hd2|].
  split; [destruct (records (run es _)); lia|].
  assert (Hn : records (notify (run es (observe target (injectCopyButtonsIntoCodeBlocks pg))))
               = false
               /\ document (notify (run es (observe target (injectCopyButtonsIntoCodeBlocks pg))))
                  = document (run es (observe target (injectCopyButtonsIntoCodeBlocks pg)))
               /\ scans (notify (run es (observe target (injectCopyButtonsIntoCodeBlocks pg))))
                  = scans (run es (observe target (injectCopyButtonsIntoCodeBlocks pg)))
                    + (if records (run es (observe target (injectCopyButtonsIntoCodeBlocks pg)))
                       then 1 else 0)).
  { unfold notify.
    destruct (records (run es (observe target (injectCopyButtonsIntoCodeBlocks pg)))) eqn:Hr.
    - rewrite inject_fixed by exact Hd2. cbn [records document scans].
      repeat split. lia.
    - rewrite Hr. repeat split. lia. }
  destruct Hn as (Hn1 & Hn2 & Hn3).
  split; [lia|]. split; [exact Hn2|].
  intros k. apply microtasks_without_records. exact Hn1.
Qed.

Lemma node_at_app (p r : path) (d x : node) :
  node_at p d = Some x -> node_at (p ++ r) d = node_at r x.
Proof.
  revert d. induction p as [|i p IH]; intros d H; cbn [node_at] in H.
  - injection H as ->. reflexivity.
  - destruct d as [a|a|t pr cs]; try discriminate.
    destruct (cs !! i) as [c|] eqn:Hi; [|discriminate].
    cbn [app node_at]. rewrite Hi. apply IH. exact H.
Qed.

(** A commit where the observer listens. *)
Lemma commit_observed
      (pg : page) (wrapper : path) (t : string) (pr : props) (cs : list node)
      (v : text) (first : markup) (others : list markup) :
  records pg = false ->
  node_at wrapper (document pg) = Some (Element t pr cs) ->
  reactRoot pr = Some (Scheduled v) ->
  observes wrapper (document pg) = true ->
  commit wrapper (first :: others) pg
  = {| document :=
         update_at wrapper
           (fun _ => Element t
                       {| attributes := attributes pr;
                          reactRoot := Some (Committed v);
                          registered := registered pr |}
                       (map node_of_markup (first :: others)))
           (document pg);
       records := true;
       scans := scans pg |}.
Proof.
  intros Hr Hw Hroot Hobs.
  unfold commit. rewrite Hw. cbn [commit_root]. rewrite Hroot, Hr, Hobs.
  destruct cs; reflexivity.
Qed.

(** X17. Every control the effect mounts inside the container brings the
    scan back: the wrapper the effect appends to an eligible code block
    of the container's subtree waits for React with a scheduled render,
    under the observer; when React commits the control, the rendered
    nodes become the wrapper's children, a record is queued, and the
    next microtask calls the scan a second time. The render is committed
    once: another commit at the same wrapper changes nothing. *)
Theorem commit_in_container_calls_scan
        (pg : page) (target q : path) (t : string) (pr : props) (cs : list node)
        (first : markup) (others rendered' : list markup) :
  getElementById "post-content" (document pg) = Some target ->
  node_at (target ++ q) (document pg) = Some (Element t pr cs) ->
  matches (ByTag "pre") (Element t pr cs) = true ->
  eligible (Element t pr cs) = true ->
  node_at (target ++ q ++ [length cs]) (document (fst (CopyButtonsInjector pg)))
  = Some (Element "div"
            {| attributes :=
                 [("data-copy-btn", "true");
                  ("style",
                   setProperty
                     (setProperty
                        (setProperty (setProperty "" "position" "absolute")
                                     "top" "10px")
                        "right" "0.5rem")
                     "z-index" "10")];
               reactRoot := Some (Scheduled (textContent (Element t pr cs)));
               registered := false |} [])
  /\ node_at (target ++ q ++ [length cs])
             (document (run [Commit (target ++ q ++ [length cs]) (first :: others)]
                            (fst (CopyButtonsInjector pg))))
     = Some (Element "div"
               {| attributes :=
                    [("data-copy-btn", "true");
                     ("style",
                      setProperty
                        (setProperty
                           (setProperty (setProperty "" "position" "absolute")
                                        "top" "10px")
                           "right" "0.5rem")
                        "z-index" "10")];
                  reactRoot := Some (Committed (textContent (Element t pr cs)));
                  registered := false |}
               (map node_of_markup (first :: others)))
  /\ records (fst (CopyButtonsInjector pg)) = false
  /\ records (run [Commit (target ++ q ++ [length cs]) (first :: others)]
                  (fst (CopyButtonsInjector pg))) = true
  /\ scans (run [Commit (target ++ q ++ [length cs]) (first :: others); Microtask]
                (fst (CopyButtonsInjector pg)))
     = S (S (scans pg))
  /\ run [Commit (target ++ q ++ [length cs]) (first :: others);
          Commit (target ++ q ++ [length cs]) rendered']
         (fst (CopyButtonsInjector pg))
     = run [Commit (target ++ q ++ [length cs]) (first :: others)]
           (fst (CopyButtonsInjector pg)).
Proof.
  intros Hg Hp Hm He.
  rewrite (injector_found pg target Hg). cbn [fst].
  set (pg1 := observe target (injectCopyButtonsIntoCodeBlocks pg)).
  set (w := target ++ q ++ [length cs]).
  assert (Hin : In target (select (matches (ById "post-content")) (document pg))).
  { unfold getElementById in Hg.
    destruct (select (matches (ById "post-content")) (document pg));
      [discriminate | injection Hg as ->; left; reflexivity]. }
  apply select_sound in Hin as (x & Hx & Hxm).
  destruct x as [a|a|tx prx csx]; try discriminate.
  (* the wrapper in the scanned document *)
  pose proof (node_at_enhance _ _ _ Hp) as Hpe.
  cbn [enhance] in Hpe. rewrite Hm, He in Hpe. cbn [andb] in Hpe.
  assert (Hwe : node_at ((target ++ q) ++ [length cs]) (enhance (document pg))
                = Some (mounted_wrapper (textContent (Element t pr cs)))).
  { rewrite (node_at_app _ [length cs] _ _ Hpe). cbn [node_at].
    rewrite lookup_app_r by (rewrite length_map; lia).
    rewrite length_map, Nat.sub_diag. reflexivity. }
  rewrite <- app_assoc in Hwe. fold w in Hwe.
  (* the container in the scanned document, and after the registration *)
  pose proof (node_at_enhance _ _ _ Hx) as Hxe.
  assert (Hxe' : exists prx' csx',
             node_at target (enhance (document pg)) = Some (Element tx prx' csx')).
  { cbn [enhance] in Hxe. destruct (_ && _); eauto. }
  destruct Hxe' as (prx' & csx' & Hxe').
  assert (Hreg : node_at target (document pg1)
                 = Some (register (Element tx prx' csx'))).
  { unfold pg1. cbn [observe document]. rewrite inject_document.
    pose proof (node_at_update_at target [] register _ _ Hxe') as H.
    rewrite app_nil_r in H. exact H. }
  assert (Hw1 : node_at w (document pg1)
                = Some (mounted_wrapper (textContent (Element t pr cs)))).
  { unfold pg1, w. cbn [observe document]. rewrite inject_document.
    rewrite (node_at_update_at target (q ++ [length cs]) register _ _ Hxe').
    rewrite <- Hwe. unfold w. rewrite (node_at_app target (q ++ [length cs]) _ _ Hxe').
    destruct q; reflexivity. }
  assert (Hobs : observes w (document pg1) = true).
  { unfold w. cbn [register] in Hreg.
    apply (observes_below target (q ++ [length cs]) _
             (mounted_wrapper (textContent (Element t pr cs))) _ _ _ Hreg eq_refl).
    exact Hw1. }
  assert (Hrec : records pg1 = false) by reflexivity.
  assert (Hs1 : scans pg1 = S (scans pg))
    by (unfold pg1; cbn [observe scans]; apply inject_scans).
  pose proof (commit_observed pg1 w "div" _ [] _ first others Hrec Hw1 eq_refl Hobs)
    as Hc.
  change (run [Commit w (first :: others); Microtask] pg1)
    with (notify (commit w (first :: others) pg1)).
  change (run [Commit w (first :: others); Commit w rendered'] pg1)
    with (commit w rendered' (commit w (first :: others) pg1)).
  change (run [Commit w (first :: others)] pg1) with (commit w (first :: others) pg1).
  assert (Hat : node_at w (document (commit w (first :: others) pg1))
                = Some (Element "div"
                          {| attributes :=
                               [("data-copy-btn", "true");
                                ("style",
                                 setProperty
                                   (setProperty
                                      (setProperty (setProperty "" "position" "absolute")
                                                   "top" "10px")
                                      "right" "0.5rem")
                                   "z-index" "10")];
                             reactRoot := Some (Committed (textContent (Element t pr cs)));
                             registered := false |}
                          (map node_of_markup (first :: others)))).
  { rewrite Hc. cbn [document].
    pose proof (node_at_update_at w [] (fun _ => Element "div"
                    {| attributes :=
                         [("data-copy-btn", "true");
                          ("style",
                           setProperty
                             (setProperty
                                (setProperty (setProperty "" "position" "absolute")
                                             "top" "10px")
                                "right" "0.5rem")
                             "z-index" "10")];
                       reactRoot := Some (Committed (textContent (Element t pr cs)));
                       registered := false |}
                    (map node_of_markup (first :: others))) _ _ Hw1) as H.
    rewrite app_nil_r in H. exact H. }
  split; [exact Hw1|]. split; [exact Hat|]. split; [exact Hrec|].
  split; [rewrite Hc; reflexivity|]. split.
  - unfold notify. rewrite Hc. cbn [records document scans].
    rewrite inject_scans. cbn [scans]. rewrite Hs1. reflexivity.
  - unfold commit at 1. rewrite Hat. reflexivity.
Qed.

End Lifecycle.

(** ** The properties at the sample page *)

#[local] Existing Instance Fixtures.sample_CSSOM.

Lemma appended_code_block_is_enhanced_witness :
  scans (run [Mutation (AppendChild [0; 0] MoreFixtures.new_block); Microtask]
             MoreFixtures.active_page)
  = S (scans MoreFixtures.active_page)
  /\ exists pre' : node,
       node_at ([0; 0] ++ [3])
               (document (run [Mutation (AppendChild [0; 0] MoreFixtures.new_block);
                               Microtask] MoreFixtures.active_page))
       = Some pre'
       /\ matches (ByTag "pre") pre' = true
       /\ mounted_controls pre' = 1.
Proof.
  eapply (appended_code_block_is_enhanced
            MoreFixtures.active_page [0; 0] "div" _ [_; _; _] []
            [MText (text_of_string "z")]);
    reflexivity.
Defined.

Lemma activation_observes_container_witness :
  exists target : path,
    getElementById "post-content" (document (Fixtures.page_of Fixtures.sample_document))
    = Some target
    /\ document MoreFixtures.active_page
       = update_at target register
           (document (injectCopyButtonsIntoCodeBlocks
                        (Fixtures.page_of Fixtures.sample_document)))
    /\ scans MoreFixtures.active_page = S (scans (Fixtures.page_of Fixtures.sample_document))
    /\ records MoreFixtures.active_page = false
    /\ forall (q : path) (x : node),
         node_at (target ++ q) (document MoreFixtures.active_page) = Some x ->
         observes (target ++ q) (document MoreFixtures.active_page) = true.
Proof.
  apply (activation_observes_container
           (Fixtures.page_of Fixtures.sample_document) MoreFixtures.active_page disconnect).
  reflexivity.
Defined.

Lemma activation_enhances_every_code_block_witness :
  exists pre' : node,
    node_at [0; 0; 2; 1] (document MoreFixtures.active_page) = Some pre'
    /\ matches (ByTag "pre") pre' = true
    /\ mounted_controls pre'
       = mounted_controls (Fixtures.el "pre" [] [Text (text_of_string "b")])
         + (if eligible (Fixtures.el "pre" [] [Text (text_of_string "b")]) then 1 else 0).
Proof.
  apply (activation_enhances_every_code_block
           (Fixtures.page_of Fixtures.sample_document) MoreFixtures.active_page
           disconnect [0; 0; 2; 1]
           (Fixtures.el "pre" [] [Text (text_of_string "b")]));
    reflexivity.
Defined.



Lemma unobserved_change_is_not_scanned_witness :
  scans (run (Mutation (AppendChild [0] MoreFixtures.new_block) :: repeat Microtask 2)
             MoreFixtures.active_page)
  = scans MoreFixtures.active_page
  /\ node_at ([0] ++ [1])
             (document (run (Mutation (AppendChild [0] MoreFixtures.new_block)
                             :: repeat Microtask 2)
                            MoreFixtures.active_page))
     = Some (node_of_markup MoreFixtures.new_block).
Proof.
  eapply (unobserved_change_is_not_scanned
            (Fixtures.page_of Fixtures.sample_document) [0; 0] [0] "body" _ [_]
            MoreFixtures.new_block 2);
    [reflexivity | reflexivity | intros [k Hk]; discriminate Hk | reflexivity].
Defined.

(** On the sample page the effect mounts three controls; React commits
    each of them, every commit calls the scan once more, and the scan has
    run four times when all is done. *)
Lemma own_commits_settle_witness :
  let es := [ Commit [0; 0; 0; 1] MoreFixtures.rendered_control; Microtask;
              Commit [0; 0; 2; 1; 1] MoreFixtures.rendered_control; Microtask;
              Commit [0; 0; 2; 2] MoreFixtures.rendered_control; Microtask ] in
  scans MoreFixtures.active_page = 1
  /\ scans (run es MoreFixtures.active_page) = 4
  /\ count_roots (document (run es MoreFixtures.active_page)) = 3
  /\ document (injectCopyButtonsIntoCodeBlocks (run es MoreFixtures.active_page))
     = document (run es MoreFixtures.active_page).
Proof.
  intros es. split; [reflexivity|]. split; [reflexivity|]. split; [reflexivity|].
  exact (proj1 (own_commits_settle
                  (Fixtures.page_of Fixtures.sample_document) [0; 0] es
                  eq_refl eq_refl eq_refl)).
Defined.

(** Once committed, the label of a control is part of the text of the
    code blocks around it. *)
Example committed_label_is_block_text :
  let es := [ Commit [0; 0; 0; 1] MoreFixtures.rendered_control; Microtask;
              Commit [0; 0; 2; 1; 1] MoreFixtures.rendered_control; Microtask;
              Commit [0; 0; 2; 2] MoreFixtures.rendered_control; Microtask ] in
  let doc := document (run es MoreFixtures.active_page) in
  textContent <$> node_at [0; 0; 0] doc = Some (text_of_string "let xCopy")
  /\ textContent <$> node_at [0; 0; 2] doc = Some (text_of_string "abCopyCopy")
  /\ textContent <$> node_at [0; 0; 2; 1] doc = Some (text_of_string "bCopy").
Proof. vm_compute. repeat split. Qed.

Lemma commit_in_container_calls_scan_witness :
  records MoreFixtures.active_page = false
  /\ records (run [Commit ([0; 0] ++ [0] ++ [1]) MoreFixtures.rendered_control]
                  MoreFixtures.active_page) = true
  /\ scans (run [Commit ([0; 0] ++ [0] ++ [1]) MoreFixtures.rendered_control; Microtask]
                MoreFixtures.active_page)
     = 2.
Proof.
  pose proof (commit_in_container_calls_scan
                (Fixtures.page_of Fixtures.sample_document) [0; 0] [0] "pre"
                {| attributes := []; reactRoot := None; registered := false |}
                [Fixtures.el "code" [] [Text (text_of_string "let x")]]
                (MElement "button" [("type", "button")] [MText (text_of_string "Copy")])
                [] [] eq_refl eq_refl eq_refl eq_refl)
    as (_ & _ & H1 & H2 & H3 & _).
  exact (conj H1 (conj H2 H3)).
Defined.

End CopyButtonLifecycle.

(* ===================================================================== *)
(** * Part X: properties of the class hook                               *)
(* ===================================================================== *)

Module AddClassSpec.
Import AddClass.

#[local] Arguments String.append !s1 s2 : simpl nomatch.

(** ** Strings *)

Lemma append_nil_r (s : string) : s +:+ "" = s.
Proof.
  induction s as [|c s IH]; cbn [String.append]; [reflexivity | rewrite IH; reflexivity].
Qed.

Lemma append_assoc (a b c : string) : (a +:+ b) +:+ c = a +:+ b +:+ c.
Proof.
  induction a as [|x a IH]; cbn [String.append]; [reflexivity | rewrite IH; reflexivity].
Qed.

Lemma length_append (a b : string) :
  String.length (a +:+ b) = String.length a + String.length b.
Proof.
  induction a as [|x a IH]; cbn [String.append String.length Nat.add];
    [reflexivity | rewrite IH; reflexivity].
Qed.

Lemma has_char_append (c : ascii) (a b : string) :
  has_char c (a +:+ b) = has_char c a || has_char c b.
Proof.
  induction a as [|x a IH]; cbn [String.append has_char]; [reflexivity|].
  rewrite IH. apply orb_assoc.
Qed.

Lemma length_upcase (s : string) : String.length (upcase s) = String.length s.
Proof.
  induction s as [|c s IH]; cbn [upcase String.length];
    [reflexivity | rewrite IH; reflexivity].
Qed.

(** Two ways to cut one text: one first part is the other, extended. *)
Lemma append_cut (m r u rest : string) :
  m +:+ r = u +:+ rest ->
  (exists d, u = m +:+ d /\ r = d +:+ rest)
  \/ (exists x d, m = u +:+ String x d /\ rest = String x d +:+ r).
Proof.
  revert u. induction m as [|c m IH]; intros u H.
  - left. exists u. split; [reflexivity | exact H].
  - destruct u as [|c' u].
    + right. exists c, m. split; [reflexivity | symmetry; exact H].
    + cbn [String.append] in H. injection H as -> H.
      destruct (IH u H) as [(d & -> & ->) | (x & d & -> & ->)].
      * left. exists d. split; reflexivity.
      * right. exists x, d. split; reflexivity.
Qed.

(** ** Letters *)

Lemma is_word_upper (c : ascii) : is_word (upper c) = is_word c.
Proof.
  destruct c as [[] [] [] [] [] [] [] []]; reflexivity.
Qed.

Lemma all_word_upcase (s : string) : all_word (upcase s) = all_word s.
Proof.
  induction s as [|c s IH]; cbn [upcase all_word]; [reflexivity|].
  rewrite is_word_upper, IH. reflexivity.
Qed.

Lemma all_word_append (a b : string) :
  all_word (a +:+ b) = all_word a && all_word b.
Proof.
  induction a as [|x a IH]; cbn [String.append all_word]; [reflexivity|].
  rewrite IH. apply andb_assoc.
Qed.

Lemma last_char_word (m : string) (prev : ascii) :
  m <> "" -> all_word m = true -> is_word (last_char m prev) = true.
Proof.
  revert prev. induction m as [|c m IH]; intros prev Hne Hw; [contradiction|].
  cbn [all_word] in Hw. apply andb_true_iff in Hw as [Hc Hm].
  cbn [last_char]. destruct m as [|c' m']; [exact Hc|].
  apply IH; [discriminate | exact Hm].
Qed.

(** ** Matching *)

Lemma match_literal_split (a s m r : string) :
  match_literal a s = Some (m, r) -> s = m +:+ r /\ upcase m = upcase a.
Proof.
  revert s m r. induction a as [|p a IH]; intros s m r H; cbn [match_literal] in H.
  - injection H as <- <-. split; reflexivity.
  - destruct s as [|c s]; [discriminate|].
    destruct (Ascii.eqb (upper p) (upper c)) eqn:Hc; [|discriminate].
    destruct (match_literal a s) as [[m' r']|] eqn:Hm; [|discriminate].
    injection H as <- <-. destruct (IH s m' r' Hm) as [-> Hu].
    apply Ascii.eqb_eq in Hc. split; [reflexivity|].
    cbn [upcase]. rewrite Hu, Hc. reflexivity.
Qed.

Lemma match_literal_same_case (t u rest : string) :
  upcase u = upcase t -> match_literal t (u +:+ rest) = Some (u, rest).
Proof.
  revert u. induction t as [|p t IH]; intros u H.
  - destruct u; [reflexivity | discriminate].
  - destruct u as [|c u]; [discriminate|].
    cbn [upcase] in H. injection H as Hc Hu.
    cbn [String.append match_literal]. rewrite Hc, Ascii.eqb_refl, (IH u Hu).
    reflexivity.
Qed.

Lemma first_alternative_split (alts : list string) (prev : ascii) (s m r : string) :
  first_alternative alts prev s = Some (m, r) -> s = m +:+ r.
Proof.
  induction alts as [|a alts IH]; cbn [first_alternative]; [discriminate|].
  destruct (match_literal a s) as [[m' r']|] eqn:Hm; [|exact IH].
  destruct (word_boundary (last_char m' prev) r'); [|exact IH].
  intros H. injection H as <- <-. exact (proj1 (match_literal_split a s m' r' Hm)).
Qed.

Lemma exec_shrinks (alts : list string) (s sl tag rest : string) :
  exec alts s = Some (sl, tag, rest) -> String.length rest < String.length s.
Proof.
  unfold exec. destruct s as [|c s1]; [discriminate|].
  destruct (Ascii.eqb c "<"); [|discriminate].
  assert (Hplain : match first_alternative alts "<" s1 with
                   | Some (m, r) => Some ("", m, r)
                   | None => None
                   end = Some (sl, tag, rest) ->
                   String.length rest < String.length (String c s1)).
  { destruct (first_alternative alts "<" s1) as [[m r]|] eqn:Hf; [|discriminate].
    intros H. injection H as _ <- <-.
    rewrite (first_alternative_split _ _ _ _ _ Hf). cbn [String.length].
    rewrite length_append. lia. }
  destruct s1 as [|c1 s2]; [exact Hplain|].
  destruct (Ascii.eqb c1 "/"); [|exact Hplain].
  destruct (first_alternative alts "/" s2) as [[m r]|] eqn:Hf; [|exact Hplain].
  intros H. injection H as _ <- <-.
  rewrite (first_alternative_split _ _ _ _ _ Hf). cbn [String.length].
  rewrite length_append. lia.
Qed.

(** Fuel as long as the text is enough: more changes nothing. *)
Lemma replace_from_fuel (alts : list string) (cls : option string)
      (f1 f2 : nat) (s : string) :
  String.length s <= f1 -> String.length s <= f2 ->
  replace_from f1 alts cls s = replace_from f2 alts cls s.
Proof.
  revert f2 s. induction f1 as [|f1 IH]; intros f2 s H1 H2.
  - destruct s; [|cbn in H1; lia]. destruct f2; reflexivity.
  - destruct f2 as [|f2]; [destruct s; [reflexivity | cbn in H2; lia]|].
    cbn [replace_from]. destruct (exec alts s) as [[[sl tag] rest]|] eqn:He.
    + pose proof (exec_shrinks alts s sl tag rest He).
      rewrite (IH f2 rest) by lia. reflexivity.
    + destruct s as [|c s]; [reflexivity|]. cbn in H1, H2.
      rewrite (IH f2 s) by lia. reflexivity.
Qed.

Lemma replace_tags_step_match (tags : list string) (cls : option string)
      (s sl tag rest : string) :
  exec (alternatives tags) s = Some (sl, tag, rest) ->
  replace_tags tags cls s = replacer cls sl tag +:+ replace_tags tags cls rest.
Proof.
  intros He. unfold replace_tags.
  pose proof (exec_shrinks _ s sl tag rest He) as Hlt.
  destruct (String.length s) as [|n] eqn:Hn; [lia|].
  cbn [replace_from]. rewrite He.
  rewrite (replace_from_fuel _ cls n (String.length rest) rest) by lia. reflexivity.
Qed.

Lemma replace_tags_step_other (tags : list string) (cls : option string)
      (c : ascii) (s : string) :
  Ascii.eqb c "<" = false ->
  replace_tags tags cls (String c s) = String c (replace_tags tags cls s).
Proof.
  intros Hc. unfold replace_tags. cbn [String.length replace_from exec].
  rewrite Hc. reflexivity.
Qed.

Lemma replace_tags_copies (tags : list string) (cls : option string) (a s : string) :
  has_char "<" a = false ->
  replace_tags tags cls (a +:+ s) = a +:+ replace_tags tags cls s.
Proof.
  induction a as [|c a IH]; intros H; [reflexivity|].
  cbn [has_char] in H. apply orb_false_iff in H as [Hc Ha].
  cbn [String.append]. rewrite (replace_tags_step_other tags cls c _ Hc), (IH Ha).
  reflexivity.
Qed.

(** The listed tag written in any case, and followed by no word
    character, is what the alternation matches. *)
Lemma first_alternative_hit (alts : list string) (prev : ascii) (t u rest : string) :
  forallb plain_tag alts = true ->
  In t alts ->
  upcase u = upcase t ->
  starts_with_word rest = false ->
  first_alternative alts prev (u +:+ rest) = Some (u, rest).
Proof.
  intros Hplain Hin Hu Hrest.
  assert (Ht : plain_tag t = true)
    by (rewrite forallb_forall in Hplain; exact (Hplain t Hin)).
  apply andb_true_iff in Ht as [Htne Htw].
  assert (Huw : all_word u = true)
    by (rewrite <- all_word_upcase, Hu, all_word_upcase; exact Htw).
  induction alts as [|a alts IH]; [contradiction|].
  cbn [forallb] in Hplain. apply andb_true_iff in Hplain as [Ha Halts].
  apply andb_true_iff in Ha as [Hane Haw].
  cbn [first_alternative].
  destruct (match_literal a (u +:+ rest)) as [[m r]|] eqn:Hm.
  - destruct (match_literal_split _ _ _ _ Hm) as [Hcut Hma].
    assert (Hmw : all_word m = true)
      by (rewrite <- all_word_upcase, Hma, all_word_upcase; exact Haw).
    assert (Hmne : m <> "").
    { intros ->. destruct a; [discriminate Hane | discriminate Hma]. }
    unfold word_boundary. rewrite (last_char_word m prev Hmne Hmw).
    destruct (append_cut m r u rest (eq_sym Hcut)) as [(d & Hud & Hr) | (x & d & Hmu & Hr)].
    + destruct d as [|x d].
      * rewrite append_nil_r in Hud. subst u. cbn [String.append] in Hr. subst r.
        fold (starts_with_word rest). rewrite Hrest. reflexivity.
      * subst r. cbn [String.append].
        rewrite Hud, all_word_append in Huw. apply andb_true_iff in Huw as [_ Hd].
        cbn [all_word] in Hd. apply andb_true_iff in Hd as [Hx _]. rewrite Hx.
        cbn [xorb]. apply IH; [exact Halts|].
        destruct Hin as [->|Hin]; [|exact Hin]. exfalso.
        assert (Hl : String.length m = String.length u)
          by (rewrite <- (length_upcase m), Hma, <- Hu, length_upcase; reflexivity).
        rewrite Hud, length_append in Hl. cbn in Hl. lia.
    + exfalso. rewrite Hr in Hrest. cbn [String.append starts_with_word] in Hrest.
      rewrite Hmu, all_word_append in Hmw. apply andb_true_iff in Hmw as [_ Hd].
      cbn [all_word] in Hd. apply andb_true_iff in Hd as [Hx _]. congruence.
  - apply IH; [exact Halts|].
    destruct Hin as [->|Hin]; [|exact Hin].
    rewrite (match_literal_same_case t u rest Hu) in Hm. discriminate.
Qed.

Lemma alternatives_of (tags : list string) (t : string) :
  In t tags -> alternatives tags = tags.
Proof. destruct tags; [contradiction | reflexivity]. Qed.

Lemma word_first_not_slash (u rest : string) :
  u <> "" -> all_word u = true ->
  exists c s, u +:+ rest = String c s /\ Ascii.eqb c "/" = false.
Proof.
  destruct u as [|c u]; [contradiction|]. intros _ H.
  cbn [all_word] in H. apply andb_true_iff in H as [Hc _].
  exists c, (u +:+ rest). split; [reflexivity|].
  destruct (Ascii.eqb_spec c "/") as [->|]; [discriminate Hc | reflexivity].
Qed.

(** An opening tag of a listed name, under the replacement itself. *)
Lemma replace_tags_opening
      (tags : list string) (className : option string) (t u rest : string) :
  forallb plain_tag tags = true ->
  In t tags ->
  upcase u = upcase t ->
  starts_with_word rest = false ->
  replace_tags tags className ("<" +:+ u +:+ rest)
  = "<" +:+ u +:+ class_attribute className +:+ replace_tags tags className rest.
Proof.
  intros Hplain Hin Hu Hrest.
  assert (Ht : plain_tag t = true)
    by (rewrite forallb_forall in Hplain; exact (Hplain t Hin)).
  apply andb_true_iff in Ht as [Htne Htw].
  assert (Huw : all_word u = true)
    by (rewrite <- all_word_upcase, Hu, all_word_upcase; exact Htw).
  assert (Hune : u <> "").
  { intros ->. destruct t; [discriminate Htne | discriminate Hu]. }
  rewrite (replace_tags_step_match tags className _ "" u rest).
  - unfold replacer, class_attribute. cbn [String.eqb negb].
    rewrite !append_assoc. reflexivity.
  - rewrite (alternatives_of tags t Hin). cbn [String.append exec Ascii.eqb Bool.eqb].
    rewrite (first_alternative_hit tags "<" t u rest Hplain Hin Hu Hrest).
    destruct (word_first_not_slash u rest Hune Huw) as (c & s & -> & ->).
    reflexivity.
Qed.

Lemma applyClass_plain (tags : list string) (className : option string) (html : string) :
  forallb plain_tag tags = true ->
  applyClass tags className html = Some (replace_tags tags className html).
Proof. intros H. unfold applyClass. rewrite H. reflexivity. Qed.

(** ** The properties *)

(** X12. For a list of plain tag names, text without [<] comes back as it
    is, the empty text included: the hook touches nothing but tags. *)
Theorem text_without_tags_is_unchanged
        (tags : list string) (className : option string) (html : string) :
  forallb plain_tag tags = true ->
  has_char "<" html = false ->
  applyClass tags className html = Some html.
Proof.
  intros Hplain H. rewrite (applyClass_plain tags className html Hplain). f_equal.
  rewrite <- (append_nil_r html) at 1.
  rewrite (replace_tags_copies tags className html "" H). apply append_nil_r.
Qed.

Lemma text_without_tags_is_unchanged_witness :
  applyClass ["pre"; "code"] (Some "language-js") "x &lt; y and pre"
  = Some "x &lt; y and pre".
Proof.
  apply (text_without_tags_is_unchanged ["pre"; "code"] (Some "language-js"));
    reflexivity.
Defined.

(** X13. An opening tag of a listed name, in whatever case it is
    written and followed by something other than a word character, gets
    the class attribute right behind its name, the name kept as written,
    and the rest of the text is treated on its own. *)
Theorem opening_tag_gets_class
        (tags : list string) (className : option string) (t u rest : string) :
  forallb plain_tag tags = true ->
  In t tags ->
  upcase u = upcase t ->
  starts_with_word rest = false ->
  exists out : string,
    applyClass tags className rest = Some out
    /\ applyClass tags className ("<" +:+ u +:+ rest)
       = Some ("<" +:+ u +:+ class_attribute className +:+ out).
Proof.
  intros Hplain Hin Hu Hrest. exists (replace_tags tags className rest).
  rewrite !applyClass_plain by exact Hplain.
  rewrite (replace_tags_opening tags className t u rest Hplain Hin Hu Hrest).
  split; reflexivity.
Qed.

Lemma opening_tag_gets_class_witness :
  exists out : string,
    applyClass ["pre"; "code"] (Some "language-js") ">x" = Some out
    /\ applyClass ["pre"; "code"] (Some "language-js") ("<" +:+ "PRE" +:+ ">x")
       = Some ("<" +:+ "PRE" +:+ class_attribute (Some "language-js") +:+ out).
Proof.
  apply (opening_tag_gets_class ["pre"; "code"] (Some "language-js") "pre" "PRE" ">x");
    [reflexivity | left; reflexivity | reflexivity | reflexivity].
Defined.

(** X14. A closing tag of a listed name is written back as it was, with
    no attribute, and the rest of the text is treated on its own. *)
Theorem closing_tag_is_kept
        (tags : list string) (className : option string) (t u rest : string) :
  forallb plain_tag tags = true ->
  In t tags ->
  upcase u = upcase t ->
  starts_with_word rest = false ->
  exists out : string,
    applyClass tags className rest = Some out
    /\ applyClass tags className ("</" +:+ u +:+ rest) = Some ("</" +:+ u +:+ out).
Proof.
  intros Hplain Hin Hu Hrest. exists (replace_tags tags className rest).
  rewrite !applyClass_plain by exact Hplain. split; [reflexivity|]. f_equal.
  rewrite (replace_tags_step_match tags className _ "/" u rest).
  - unfold replacer. cbn [String.eqb negb]. rewrite !append_assoc. reflexivity.
  - rewrite (alternatives_of tags t Hin). cbn [String.append exec Ascii.eqb Bool.eqb].
    rewrite (first_alternative_hit tags "/" t u rest Hplain Hin Hu Hrest).
    reflexivity.
Qed.

Lemma closing_tag_is_kept_witness :
  exists out : string,
    applyClass ["pre"; "code"] (Some "language-js") "></pre>" = Some out
    /\ applyClass ["pre"; "code"] (Some "language-js") ("</" +:+ "code" +:+ "></pre>")
       = Some ("</" +:+ "code" +:+ out).
Proof.
  apply (closing_tag_is_kept ["pre"; "code"] (Some "language-js") "code" "code" "></pre>");
    [reflexivity | right; left; reflexivity | reflexivity | reflexivity].
Defined.

(** X15. The hook is not idempotent: it does not look for a class that is
    already there, so applying it to its own output writes the attribute
    a second time behind the same tag. *)
Theorem second_pass_repeats_the_class
        (tags : list string) (className : option string) (t u rest : string) :
  forallb plain_tag tags = true ->
  In t tags ->
  upcase u = upcase t ->
  starts_with_word rest = false ->
  has_char "<" (default "undefined" className) = false ->
  exists once out twice : string,
    applyClass tags className ("<" +:+ u +:+ rest) = Some once
    /\ applyClass tags className rest = Some out
    /\ applyClass tags className out = Some twice
    /\ applyClass tags className once
       = Some ("<" +:+ u +:+ class_attribute className +:+ class_attribute className
               +:+ twice).
Proof.
  intros Hplain Hin Hu Hrest Hcls.
  exists (replace_tags tags className ("<" +:+ u +:+ rest)),
         (replace_tags tags className rest),
         (replace_tags tags className (replace_tags tags className rest)).
  rewrite !applyClass_plain by exact Hplain.
  split; [reflexivity|]. split; [reflexivity|]. split; [reflexivity|]. f_equal.
  rewrite (replace_tags_opening tags className t u rest Hplain Hin Hu Hrest).
  rewrite (replace_tags_opening tags className t u _ Hplain Hin Hu);
    [|reflexivity].
  rewrite replace_tags_copies; [reflexivity|].
  unfold class_attribute. rewrite !has_char_append, Hcls. reflexivity.
Qed.

Lemma second_pass_repeats_the_class_witness :
  exists once out twice : string,
    applyClass ["pre"; "code"] (Some "language-js") ("<" +:+ "pre" +:+ ">x</pre>")
    = Some once
    /\ applyClass ["pre"; "code"] (Some "language-js") ">x</pre>" = Some out
    /\ applyClass ["pre"; "code"] (Some "language-js") out = Some twice
    /\ applyClass ["pre"; "code"] (Some "language-js") once
       = Some ("<" +:+ "pre" +:+ class_attribute (Some "language-js")
               +:+ class_attribute (Some "language-js") +:+ twice).
Proof.
  apply (second_pass_repeats_the_class
           ["pre"; "code"] (Some "language-js") "pre" "pre" ">x</pre>");
    [reflexivity | left; reflexivity | reflexivity | reflexivity | reflexivity].
Defined.

End AddClassSpec.
